(** * Cortex wallet and payment core: a shallow embedding

    The development follows the Python sources of the bot:

    - [config.py]                      fee constants and supported tokens
    - [core/ai_handler.py]             [_send_payment], [_estimate_network_fee],
                                       [_check_payment_balance]
    - [core/bot_handlers.py]           [execute_payment_secure],
                                       [payment_callback_handler],
                                       [start_command], [create_wallet_command],
                                       [_mask_phone_number]
    - [database.py]                    the MongoDB [users] collection
    - [services/wallet_manager.py]     [import_from_private_key]
    - [services/alchemy_transfer.py]   [get_transaction_status]

    Python [float] is IEEE 754 binary64, which is what Rocq's primitive
    [float] is, so amounts and fees are primitive floats and every
    comparison and addition below is the one the interpreter performs.
    Python [str] and [bytes] are both [string] here (sequences of 8-bit
    characters): a [str] is held as the bytes of its UTF-8 encoding, so
    [encode()] and [decode()] are the identity on them, and
    [Py.characters] gives the characters of a [str] back. *)

From Stdlib Require Import Floats ZArith List String Ascii Bool Lia.
From stdpp Require Import base option list gmap strings pretty.

Set Warnings "-inexact-float".
Local Open Scope string_scope.

(* ===================================================================== *)
(** * config.py                                                          *)
(* ===================================================================== *)

Module Config.

Definition SOL_MINT  : string := "So11111111111111111111111111111111111111112".
Definition USDC_MINT : string := "EPjFWdd5AufqSSqeM2qN1xzybapC8G4wEGGkZwyTDt1v".
Definition USDT_MINT : string := "Es9vMFrzaCERmJfrF4H2FYD4KCoNkY11McCe8BenwNYB".

Record TokenConfig := {
    mint : string;
    decimals : nat;
    symbol : string
  }.

(** The dict [SUPPORTED_PAYMENT_TOKENS], in source order. *)
Definition SUPPORTED_PAYMENT_TOKENS : list (string * TokenConfig) :=
    [ ("SOL",  {| mint := SOL_MINT;  decimals := 9; symbol := "SOL"  |});
      ("USDC", {| mint := USDC_MINT; decimals := 6; symbol := "USDC" |});
      ("USDT", {| mint := USDT_MINT; decimals := 6; symbol := "USDT" |}) ].

(** [SUPPORTED_PAYMENT_TOKENS[token]], [None] when [token not in ...]. *)
Fixpoint token_lookup (tbl : list (string * TokenConfig)) (token : string)
    : option TokenConfig :=
    match tbl with
    | [] => None
    | (k, c) :: rest => if String.eqb k token then Some c else token_lookup rest token
    end.

(** Network fee constants (Solana), in SOL. *)
Definition BASE_TRANSACTION_FEE : float := 0.000005%float.
Definition RENT_EXEMPTION_FEE   : float := 0.00089088%float.
Definition ATA_CREATION_FEE     : float := 0.00204%float.

(** Minimum transfer amounts. *)
Definition MINIMUM_SOL_TRANSFER_NEW_USER : float := 0.001%float.

End Config.

(* ===================================================================== *)
(** * core/ai_handler.py: fee estimation                                 *)
(* ===================================================================== *)

Module FeeEstimator.
Import Config.

(** [token in ["USDC", "USDT"]] *)
Definition is_spl_token (token : string) : bool :=
    String.eqb token "USDC" || String.eqb token "USDT".

(** [_estimate_network_fee(needs_rent_exemption, token)].  The body
      only adds module constants, so the [except] branch of the source is
      unreachable and the function is total. *)
Definition _estimate_network_fee (needs_rent_exemption : bool) (token : string)
    : float :=
    let base_fee := BASE_TRANSACTION_FEE in
    let total_fee :=
      if needs_rent_exemption then (base_fee + RENT_EXEMPTION_FEE)%float
      else base_fee in
    if is_spl_token token && needs_rent_exemption
    then (total_fee + ATA_CREATION_FEE)%float
    else total_fee.

End FeeEstimator.

(* ===================================================================== *)
(** * Python built-ins used by the sources                               *)
(* ===================================================================== *)

Module Py.

(** [c.upper()] and [c.lower()] on one ASCII character; other characters
    are left alone. *)
Definition upper_ascii (c : ascii) : ascii :=
  let n := nat_of_ascii c in
  if (97 <=? n)%nat && (n <=? 122)%nat then ascii_of_nat (n - 32) else c.

Definition lower_ascii (c : ascii) : ascii :=
  let n := nat_of_ascii c in
  if (65 <=? n)%nat && (n <=? 90)%nat then ascii_of_nat (n + 32) else c.

Fixpoint upper (s : string) : string :=
  match s with
  | EmptyString => EmptyString
  | String c r => String (upper_ascii c) (upper r)
  end.

Fixpoint lower (s : string) : string :=
  match s with
  | EmptyString => EmptyString
  | String c r => String (lower_ascii c) (lower r)
  end.

(** [s.lstrip('@')] *)
Fixpoint lstrip_at (s : string) : string :=
  match s with
  | String "@"%char r => lstrip_at r
  | _ => s
  end.

(** [username.lstrip('@').lower()], the normal form of a handle. *)
Definition normalize_username (username : string) : string :=
  lower (lstrip_at username).

(** Truth value of [d.get(k)] for a string field: [None] and the empty
    string are falsy. *)
Definition truthy_str (o : option string) : bool :=
  match o with
  | Some (String _ _) => true
  | _ => false
  end.

(** Truth value of [d.get(k)] for an integer field: [None] and [0] are
    falsy. *)
Definition truthy_int (o : option Z) : bool :=
  match o with
  | Some z => negb (z =? 0)%Z
  | None => false
  end.

(** [int.from_bytes(b, "big")], the value of [int(h.hexdigest(), 16)]
    for a digest [b]. *)
Definition int_from_bytes (b : string) : Z :=
  fold_left (fun acc c => (acc * 256 + Z.of_nat (nat_of_ascii c))%Z)
            (list_ascii_of_string b) 0%Z.

(** Text in which every character is an ASCII one.  On such text
    [upper], [lower] and [normalize_username] above are [str.upper],
    [str.lower] and the normal form that the sources compute; Python
    also maps letters outside ASCII, which the functions above leave
    alone. *)
Definition is_ascii (s : string) : bool :=
  forallb (fun c => (nat_of_ascii c <? 128)%nat) (list_ascii_of_string s).

(** The bytes 128 to 191 continue a character of UTF-8; every other byte
    starts one. *)
Definition is_continuation (c : ascii) : bool :=
  let n := nat_of_ascii c in (128 <=? n)%nat && (n <? 192)%nat.

(** The characters of a [str], each as the bytes that encode it: a byte
    joins the character that follows it when that one starts with a
    continuation byte.  (A lone surrogate, which a [str] may hold, is
    the three bytes of its code point.) *)
Fixpoint characters (s : string) : list string :=
  match s with
  | EmptyString => []
  | String c r =>
      match r with
      | EmptyString => [String c EmptyString]
      | String d _ =>
          if is_continuation d
          then match characters r with
               | h :: t => String c h :: t
               | [] => [String c EmptyString]
               end
          else String c EmptyString :: characters r
      end
  end.

(** [len(s)]: the number of characters. *)
Definition len (s : string) : nat := length (characters s).

(** [ord(c)] for a character given by its bytes; [None] for bytes that
    encode no character. *)
Definition code_point (c : string) : option N :=
  match map N_of_ascii (list_ascii_of_string c) with
  | [a] => if (a <? 128)%N then Some a else None
  | [a; b] =>
      if (194 <=? a)%N && (a <=? 223)%N
      then Some ((a - 192) * 64 + (b - 128))%N else None
  | [a; b; c] =>
      let n := ((a - 224) * 4096 + (b - 128) * 64 + (c - 128))%N in
      if (224 <=? a)%N && (a <=? 239)%N && (2048 <=? n)%N then Some n else None
  | [a; b; c; d] =>
      let n := ((a - 240) * 262144 + (b - 128) * 4096 + (c - 128) * 64 + (d - 128))%N in
      if (240 <=? a)%N && (a <=? 244)%N && (65536 <=? n)%N then Some n else None
  | _ => None
  end.

(** [c.isspace()], by code point: U+0009 to U+000D, U+001C to U+0020,
    U+0085, U+00A0, U+1680, U+2000 to U+200A, U+2028, U+2029, U+202F,
    U+205F and U+3000. *)
Definition is_whitespace (n : N) : bool :=
  ((9 <=? n)%N && (n <=? 13)%N) || ((28 <=? n)%N && (n <=? 32)%N)
  || (n =? 133)%N || (n =? 160)%N || (n =? 5760)%N
  || ((8192 <=? n)%N && (n <=? 8202)%N)
  || (n =? 8232)%N || (n =? 8233)%N || (n =? 8239)%N || (n =? 8287)%N
  || (n =? 12288)%N.

Definition is_space (c : string) : bool :=
  match code_point c with
  | Some n => is_whitespace n
  | None => false
  end.

(** The characters that are left when the leading white space is
    dropped. *)
Fixpoint drop_spaces (l : list string) : list string :=
  match l with
  | c :: r => if is_space c then drop_spaces r else l
  | [] => []
  end.

(** ["".join(l)] *)
Definition join (l : list string) : string := fold_right append EmptyString l.

(** [s.lstrip()] *)
Definition lstrip (s : string) : string := join (drop_spaces (characters s)).

(** [s.rstrip()] *)
Definition rstrip (s : string) : string :=
  join (rev (drop_spaces (rev (characters s)))).

(** [s.strip()] *)
Definition strip (s : string) : string :=
  join (rev (drop_spaces (rev (drop_spaces (characters s))))).

(** [s.split(sep)] for a one-character separator. *)
Fixpoint split (sep : ascii) (s : string) : list string :=
  match s with
  | EmptyString => [EmptyString]
  | String c r =>
      if Ascii.eqb c sep then EmptyString :: split sep r
      else match split sep r with
           | h :: t => String c h :: t
           | [] => [String c EmptyString]
           end
  end.

(** A float that is a number: NaN is the only value that differs from
    itself. *)
Definition is_number (x : float) : bool := (x =? x)%float.

End Py.

(* ===================================================================== *)
(** * The world the payment core runs in                                 *)
(* ===================================================================== *)

Module Store.

(** [config.ENCRYPTION_KEY], read from the process environment. *)
Class Secrets := {
  ENCRYPTION_KEY : string
}.

(** External cryptography ([hashlib], [cryptography.fernet], PBKDF2): the
    library calls the sources make, as an interface.  [fernet_encrypt]
    takes the initialisation vector and the timestamp that the library
    draws itself; [fernet_decrypt] answers [None] where the library
    raises [InvalidToken]. *)
Class CryptoLib := {
  sha256_digest : string -> string;
  pbkdf2_hmac_sha256 : string -> Z -> Z -> string -> string;
  urlsafe_b64encode : string -> string;
  fernet_encrypt : string -> nat -> Z -> string -> string;
  fernet_decrypt : string -> string -> option string
}.

(** [notification_data] of [execute_payment_secure]. *)
Record Notification := {
  n_type : string;
  n_amount : float;
  n_token : string;
  n_sender_username : option string;
  n_sender_wallet : option string;
  n_signature : string;
  n_timestamp : Z
}.

(** [tx_record] of [execute_payment_secure]. *)
Record TxRecord := {
  r_signature : string;
  r_sender_username : option string;
  r_sender_wallet : option string;
  r_recipient_username : string;
  r_recipient_wallet : option string;
  r_amount : float;
  r_token : string;
  r_network_fee : float;
  r_status : string
}.

(** One element of a user's [transactions] array, as
    [save_payment_transaction] builds it. *)
Record Transaction := {
  tx_id : string;
  tx_signature : string;
  tx_type : string;
  tx_source : string;
  tx_sender_username : option string;
  tx_sender_wallet : option string;
  tx_recipient_username : string;
  tx_recipient_wallet : option string;
  tx_amount : float;
  tx_token : string;
  tx_network_fee : float;
  tx_timestamp : Z;
  tx_status : string
}.

(** A document of the [users] collection, with the fields the wallet and
    payment code reads or writes.  A field holding [None] (or missing) in
    MongoDB is [None] here. *)
Record UserDoc := {
  telegram_id : option Z;
  username : option string;
  wallet_address : option string;
  encrypted_private_key : option string;
  wallet_type : option string;
  wallet_created_at : option Z;
  last_updated : option Z;
  pending_wallet_address : option string;
  pending_private_key : option string;
  pending_notifications : list Notification;
  transactions : list Transaction;
  total_payments_sent : Z;
  total_payments_received : Z
}.

(** What the core asks of the network and of the chat platform. *)
Inductive Event :=
| EvGetSolBalance (address : string)
| EvGetWalletBalance (address : string)
| EvTransfer (token : string) (recipient : option string) (amount : float)
| EvGetStatus (signature : string) (attempt : nat)
| EvSleep (seconds : Z)
| EvStoreWrite (method : string).

(** The state threaded through every operation: the [users] collection,
    the calls made so far (oldest first), the wall clock read by
    [datetime.now()], and a counter for the randomness consumed by
    [Keypair()] and by Fernet. *)
Record World := {
  users : list UserDoc;
  trace : list Event;
  clock : Z;
  rng : nat
}.

Definition M (A : Type) : Type := World -> A * World.

Definition ret {A} (a : A) : M A := fun w => (a, w).

Definition bind {A B} (c : M A) (k : A -> M B) : M B :=
  fun w => let (a, w') := c w in k a w'.

Definition emit (e : Event) : M unit :=
  fun w => (tt, {| users := users w; trace := trace w ++ [e];
                   clock := clock w; rng := rng w |}).

(** [datetime.now()] *)
Definition now : M Z := fun w => (clock w, w).

(** A fresh random draw. *)
Definition fresh : M nat :=
  fun w => (rng w, {| users := users w; trace := trace w;
                      clock := clock w; rng := S (rng w) |}).

(** [await asyncio.sleep(seconds)] *)
Definition sleep (seconds : Z) : M unit :=
  fun w => (tt, {| users := users w; trace := trace w ++ [EvSleep seconds];
                   clock := (clock w + seconds)%Z; rng := rng w |}).

Definition get_users : M (list UserDoc) := fun w => (users w, w).

Definition put_users (method : string) (c : list UserDoc) : M unit :=
  fun w => (tt, {| users := c; trace := trace w ++ [EvStoreWrite method];
                   clock := clock w; rng := rng w |}).

End Store.

Declare Scope monad_scope.
Delimit Scope monad_scope with monad.
Notation "x <- c ;; k" := (Store.bind c (fun x => k))
  (at level 100, c at next level, right associativity) : monad_scope.
Notation "c ;;; k" := (Store.bind c (fun _ => k))
  (at level 100, right associativity) : monad_scope.

(* ===================================================================== *)
(** * database.py                                                        *)
(* ===================================================================== *)

(** The server is taken to answer every operation; of its errors, only
    the refusals of the unique indexes are modelled. *)

Module Database.
Import Py Store.
Local Open Scope monad_scope.

(** What a call gives back: a value, or an exception that the caller's
    [try] sees. *)
Inductive Outcome (A : Type) :=
| Returned (a : A)
| Raised (exc : string).
Arguments Returned {A} a.
Arguments Raised {A} exc.

#[global] Instance float_eq_dec : EqDecision float.
Proof.
  intros x y. destruct (PrimFloat.Leibniz.eqb x y) eqn:E.
  - left. apply FloatAxioms.Leibniz.eqb_spec. exact E.
  - right. intros Heq. apply FloatAxioms.Leibniz.eqb_spec in Heq. congruence.
Defined.

#[global] Instance Notification_eq_dec : EqDecision Notification.
Proof. solve_decision. Defined.

#[global] Instance Transaction_eq_dec : EqDecision Transaction.
Proof. solve_decision. Defined.

#[global] Instance UserDoc_eq_dec : EqDecision UserDoc.
Proof. solve_decision. Defined.

(** ** Encryption utilities *)

(** [derive_key_from_telegram_id]: the Fernet key of an identity.  The
    salt is the SHA-256 digest of the decimal rendering of the id. *)
Definition derive_key_from_telegram_id `{Secrets} `{CryptoLib} (telegram_id : Z)
  : string :=
  let salt := sha256_digest (pretty telegram_id) in
  urlsafe_b64encode (pbkdf2_hmac_sha256 salt 100000 32 ENCRYPTION_KEY).

(** [encrypt_private_key]: Fernet draws a fresh IV and reads the time. *)
Definition encrypt_private_key `{Secrets} `{CryptoLib}
    (private_key : string) (telegram_id : Z) : M string :=
  iv <- fresh ;;
  t <- now ;;
  ret (fernet_encrypt (derive_key_from_telegram_id telegram_id) iv t private_key).

(** [decrypt_private_key]; [None] when the token does not verify and
    [Fernet.decrypt] raises. *)
Definition decrypt_private_key `{Secrets} `{CryptoLib}
    (encrypted_key : string) (telegram_id : Z) : option string :=
  fernet_decrypt (derive_key_from_telegram_id telegram_id) encrypted_key.

(** [int(hashlib.sha256(username.encode()).hexdigest(), 16) % (10 ** 8)],
    the salt input of a pending wallet. *)
Definition username_hash `{CryptoLib} (username : string) : Z :=
  (int_from_bytes (sha256_digest username) mod 10 ^ 8)%Z.

(** ** The collection *)

Record UpdateResult := {
  matched_count : nat;
  modified_count : nat
}.

(** [users.find_one(filter)]: the first matching document. *)
Definition find_one (filter : UserDoc -> bool) : M (option UserDoc) :=
  c <- get_users ;;
  ret (List.find filter c).

(** The collection after [update_one]: the first matching document is
    replaced, the others stay. *)
Fixpoint update_first (filter : UserDoc -> bool) (upd : UserDoc -> UserDoc)
    (c : list UserDoc) : list UserDoc :=
  match c with
  | [] => []
  | d :: rest =>
      if filter d then upd d :: rest else d :: update_first filter upd rest
  end.

(** [users.update_one(filter, update)] *)
Definition update_one (method : string) (filter : UserDoc -> bool)
    (upd : UserDoc -> UserDoc) : M UpdateResult :=
  c <- get_users ;;
  put_users method (update_first filter upd c) ;;;
  ret match List.find filter c with
      | None => {| matched_count := 0; modified_count := 0 |}
      | Some d =>
          {| matched_count := 1;
             modified_count := if decide (upd d = d) then 0 else 1 |}
      end.

(** The unique indexes on [telegram_id] and on [username] (a field that
    is present, even when null, is indexed). *)
Definition violates_unique_index (c : list UserDoc) (d : UserDoc) : bool :=
  existsb (fun e => bool_decide (telegram_id e = telegram_id d)
                    || bool_decide (username e = username d)) c.

(** [users.insert_one(doc)]; raises [DuplicateKeyError] on a unique
    index. *)
Definition insert_one (method : string) (d : UserDoc) : M (Outcome unit) :=
  c <- get_users ;;
  if violates_unique_index c d
  then put_users method c ;;; ret (Raised "DuplicateKeyError")
  else put_users method (c ++ [d]) ;;; ret (Returned tt).

(** The documents of the collection other than the first match. *)
Fixpoint others (filter : UserDoc -> bool) (c : list UserDoc) : list UserDoc :=
  match c with
  | [] => []
  | d :: rest => if filter d then rest else d :: others filter rest
  end.

(** [users.update_one(filter, update)] for an update that sets an indexed
    field: the server refuses it, with [DuplicateKeyError] and the
    collection as it was, when the updated document would collide with
    another one on a unique index. *)
Definition update_one_indexed (method : string) (filter : UserDoc -> bool)
    (upd : UserDoc -> UserDoc) : M (Outcome UpdateResult) :=
  c <- get_users ;;
  match List.find filter c with
  | Some d =>
      if violates_unique_index (others filter c) (upd d)
      then put_users method c ;;; ret (Raised "DuplicateKeyError")
      else result <- update_one method filter upd ;; ret (Returned result)
  | None => result <- update_one method filter upd ;; ret (Returned result)
  end.

(** ** User operations *)

Definition by_telegram_id (id : Z) (d : UserDoc) : bool :=
  bool_decide (telegram_id d = Some id).

Definition by_username (normalized : string) (d : UserDoc) : bool :=
  bool_decide (username d = Some normalized).

(** The filter [{"username": normalized, "telegram_id": None}]. *)
Definition by_unclaimed_username (normalized : string) (d : UserDoc) : bool :=
  bool_decide (username d = Some normalized) && bool_decide (telegram_id d = None).

Definition get_user (id : Z) : M (option UserDoc) :=
  find_one (by_telegram_id id).

Definition get_user_by_username (name : string) : M (option UserDoc) :=
  let normalized := normalize_username name in
  find_one (by_username normalized).

Definition user_has_wallet (id : Z) : M bool :=
  user <- get_user id ;;
  ret match user with
      | Some u => bool_decide (wallet_address u <> None)
      | None => false
      end.

(** ** Wallet operations *)

(** The [$set] of [save_wallet]. *)
Definition set_wallet (address encrypted_key type_ : string) (t : Z)
    (d : UserDoc) : UserDoc :=
  {| telegram_id := telegram_id d;
     username := username d;
     wallet_address := Some address;
     encrypted_private_key := Some encrypted_key;
     wallet_type := Some type_;
     wallet_created_at := Some t;
     last_updated := Some t;
     pending_wallet_address := pending_wallet_address d;
     pending_private_key := pending_private_key d;
     pending_notifications := pending_notifications d;
     transactions := transactions d;
     total_payments_sent := total_payments_sent d;
     total_payments_received := total_payments_received d |}.

(** [save_wallet]: there is no test of the wallet already stored; the
    update is unconditional on the wallet fields, and both the modified
    and the unmodified outcome answer [True]. *)
Definition save_wallet `{Secrets} `{CryptoLib}
    (id : Z) (address private_key type_ : string) : M bool :=
  encrypted_key <- encrypt_private_key private_key id ;;
  t <- now ;;
  result <- update_one "save_wallet" (by_telegram_id id)
              (set_wallet address encrypted_key type_ t) ;;
  if (matched_count result =? 0)%nat then ret false
  else if (0 <? modified_count result)%nat then ret true
  else ret true.

(** [get_decrypted_private_key] *)
Definition get_decrypted_private_key `{Secrets} `{CryptoLib} (id : Z)
  : M (Outcome (option string)) :=
  user <- get_user id ;;
  match user with
  | None => ret (Returned None)
  | Some u =>
      if negb (truthy_str (encrypted_private_key u)) then ret (Returned None)
      else match decrypt_private_key (default EmptyString (encrypted_private_key u)) id with
           | Some key => ret (Returned (Some key))
           | None => ret (Raised "InvalidToken")
           end
  end.

(** ** Pending wallet operations *)

(** The [$set] of [claim_pending_wallet]: bind the identity, activate the
    wallet, clear the pending fields. *)
Definition set_claimed (id : Z) (address : option string) (encrypted_key : string)
    (t : Z) (d : UserDoc) : UserDoc :=
  {| telegram_id := Some id;
     username := username d;
     wallet_address := address;
     encrypted_private_key := Some encrypted_key;
     wallet_type := Some "auto_created";
     wallet_created_at := Some t;
     last_updated := Some t;
     pending_wallet_address := None;
     pending_private_key := None;
     pending_notifications := pending_notifications d;
     transactions := transactions d;
     total_payments_sent := total_payments_sent d;
     total_payments_received := total_payments_received d |}.

(** The dict that [claim_pending_wallet] returns. *)
Inductive ClaimResult :=
| ClaimFailed (error : option string)
| ClaimSuccess (address : option string) (private_key : string)
               (notifications : list Notification).

(** First store operation of [claim_pending_wallet]: the [find_one] for a
    document of that handle with no identity bound. *)
Definition claim_lookup (name : string) : M (option UserDoc) :=
  find_one (by_unclaimed_username (normalize_username name)).

(** Rest of [claim_pending_wallet], from the test of [pending] on: decrypt
    under the handle-derived key, re-encrypt under the identity-derived
    key, issue the conditional [update_one] and answer.  An exception of
    the [update_one] reaches the [except] of the function; its result is
    not looked at. *)
Definition claim_commit `{Secrets} `{CryptoLib}
    (id : Z) (name : string) (pending : option UserDoc) : M ClaimResult :=
  let normalized := normalize_username name in
  match pending with
  | None => ret (ClaimFailed None)
  | Some p =>
      if negb (truthy_str (pending_wallet_address p)) then ret (ClaimFailed None)
      else
        match pending_private_key p with
        | None => ret (ClaimFailed (Some "AttributeError"))
        | Some token =>
            match decrypt_private_key token (username_hash normalized) with
            | None => ret (ClaimFailed (Some "InvalidToken"))
            | Some private_key =>
                encrypted_key <- encrypt_private_key private_key id ;;
                t <- now ;;
                updated <- update_one_indexed "claim_pending_wallet"
                             (by_unclaimed_username normalized)
                             (set_claimed id (pending_wallet_address p)
                                          encrypted_key t) ;;
                match updated with
                | Raised exc => ret (ClaimFailed (Some exc))
                | Returned _ =>
                    ret (ClaimSuccess (pending_wallet_address p) private_key
                                      (pending_notifications p))
                end
            end
        end
  end.

(** [claim_pending_wallet(telegram_id, username)] *)
Definition claim_pending_wallet `{Secrets} `{CryptoLib}
    (id : Z) (name : string) : M ClaimResult :=
  pending <- claim_lookup name ;;
  claim_commit id name pending.

(** The [$push] on [pending_notifications]. *)
Definition push_notification (n : Notification) (d : UserDoc) : UserDoc :=
  {| telegram_id := telegram_id d;
     username := username d;
     wallet_address := wallet_address d;
     encrypted_private_key := encrypted_private_key d;
     wallet_type := wallet_type d;
     wallet_created_at := wallet_created_at d;
     last_updated := last_updated d;
     pending_wallet_address := pending_wallet_address d;
     pending_private_key := pending_private_key d;
     pending_notifications := pending_notifications d ++ [n];
     transactions := transactions d;
     total_payments_sent := total_payments_sent d;
     total_payments_received := total_payments_received d |}.

(** [add_pending_notification] *)
Definition add_pending_notification (id : Z) (n : Notification) : M bool :=
  update_one "add_pending_notification" (by_telegram_id id) (push_notification n) ;;;
  ret true.

(** [add_pending_notification_by_username] *)
Definition add_pending_notification_by_username (name : string) (n : Notification)
  : M bool :=
  let normalized := normalize_username name in
  result <- update_one "add_pending_notification_by_username"
              (by_unclaimed_username normalized) (push_notification n) ;;
  ret (0 <? modified_count result)%nat.

(** The document that [create_pending_user_by_username] inserts. *)
Definition pending_user_doc (normalized address encrypted_key : string)
    (n : Notification) (t : Z) : UserDoc :=
  {| telegram_id := None;
     username := Some normalized;
     wallet_address := None;
     encrypted_private_key := None;
     wallet_type := Some "auto_created_pending";
     wallet_created_at := None;
     last_updated := Some t;
     pending_wallet_address := Some address;
     pending_private_key := Some encrypted_key;
     pending_notifications := [n];
     transactions := [];
     total_payments_sent := 0;
     total_payments_received := 0 |}.

(** [create_pending_user_by_username]: a known handle only gets the
    notification; an unknown one gets a pending document holding the
    wallet. *)
Definition create_pending_user_by_username
    (name address encrypted_key : string) (n : Notification) : M bool :=
  let normalized := normalize_username name in
  existing <- find_one (by_username normalized) ;;
  match existing with
  | Some e =>
      if truthy_int (telegram_id e)
      then add_pending_notification (default 0%Z (telegram_id e)) n
      else add_pending_notification_by_username normalized n
  | None =>
      t <- now ;;
      r <- insert_one "create_pending_user_by_username"
             (pending_user_doc normalized address encrypted_key n t) ;;
      match r with
      | Returned _ => ret true
      | Raised _ => ret false
      end
  end.

(** The [$set] of [activate_pending_wallet]. *)
Definition set_activated (address encrypted_key : string) (t : Z)
    (d : UserDoc) : UserDoc :=
  {| telegram_id := telegram_id d;
     username := username d;
     wallet_address := Some address;
     encrypted_private_key := Some encrypted_key;
     wallet_type := Some "auto_created";
     wallet_created_at := Some t;
     last_updated := Some t;
     pending_wallet_address := None;
     pending_private_key := None;
     pending_notifications := pending_notifications d;
     transactions := transactions d;
     total_payments_sent := total_payments_sent d;
     total_payments_received := total_payments_received d |}.

(** [activate_pending_wallet] *)
Definition activate_pending_wallet (id : Z) (address encrypted_key : string)
  : M bool :=
  t <- now ;;
  result <- update_one "activate_pending_wallet" (by_telegram_id id)
              (set_activated address encrypted_key t) ;;
  ret (0 <? modified_count result)%nat.

(** The transaction that [save_payment_transaction] builds from
    [tx_data]. *)
Definition payment_transaction (tx_data : TxRecord) (is_sender : bool) (t : Z)
  : Transaction :=
  {| tx_id := r_signature tx_data;
     tx_signature := r_signature tx_data;
     tx_type := if is_sender then "outgoing_payment" else "incoming_payment";
     tx_source := "user_payment";
     tx_sender_username := r_sender_username tx_data;
     tx_sender_wallet := r_sender_wallet tx_data;
     tx_recipient_username := r_recipient_username tx_data;
     tx_recipient_wallet := r_recipient_wallet tx_data;
     tx_amount := r_amount tx_data;
     tx_token := r_token tx_data;
     tx_network_fee := r_network_fee tx_data;
     tx_timestamp := t;
     tx_status := r_status tx_data |}.

(** The update of [save_payment_transaction]: [$push] the transaction,
    [$set] the timestamp, [$inc] one of the two counters. *)
Definition push_transaction (tx : Transaction) (is_sender : bool) (t : Z)
    (d : UserDoc) : UserDoc :=
  {| telegram_id := telegram_id d;
     username := username d;
     wallet_address := wallet_address d;
     encrypted_private_key := encrypted_private_key d;
     wallet_type := wallet_type d;
     wallet_created_at := wallet_created_at d;
     last_updated := Some t;
     pending_wallet_address := pending_wallet_address d;
     pending_private_key := pending_private_key d;
     pending_notifications := pending_notifications d;
     transactions := transactions d ++ [tx];
     total_payments_sent :=
       if is_sender then (total_payments_sent d + 1)%Z else total_payments_sent d;
     total_payments_received :=
       if is_sender then total_payments_received d
       else (total_payments_received d + 1)%Z |}.

(** [save_payment_transaction] *)
Definition save_payment_transaction (id : Z) (tx_data : TxRecord)
    (is_sender : bool) : M bool :=
  t <- now ;;
  result <- update_one "save_payment_transaction" (by_telegram_id id)
              (push_transaction (payment_transaction tx_data is_sender t)
                                is_sender t) ;;
  ret (0 <? modified_count result)%nat.

End Database.

(* ===================================================================== *)
(** * services: the network and the key generator                        *)
(* ===================================================================== *)

Module Services.
Import Store.
Local Open Scope monad_scope.

(** The dict of [execute_sol_transfer] and [execute_spl_transfer]. *)
Inductive TransferResult :=
| TransferOk (signature : string)
| TransferError (error : string).

(** The strings that [get_transaction_status] answers. *)
Inductive TxStatus := st_confirmed | st_failed | st_pending | st_error.

(** The dict of [WalletManager.create_new_wallet]. *)
Inductive WalletResult :=
| WalletCreated (address private_key : string)
| WalletError (error : string).

(** The answers of everything outside the process: the RPC node, the
    key generator, and the parser behind [float(amount)] ([None] where it
    raises [ValueError]).  A status query is indexed by the attempt that
    asks it; a key generation by the random draw it uses. *)
Class Environment := {
  rpc_sol_balance : string -> float;
  rpc_wallet_balances : string -> gmap string float;
  rpc_sol_transfer : string -> option string -> float -> TransferResult;
  rpc_spl_transfer : string -> option string -> string -> float -> nat -> TransferResult;
  rpc_transaction_status : string -> nat -> TxStatus;
  keypair_generate : nat -> WalletResult;
  python_float : string -> option float
}.

(** [alchemy_transfer.get_sol_balance] *)
Definition get_sol_balance `{Environment} (address : string) : M float :=
  emit (EvGetSolBalance address) ;;;
  ret (rpc_sol_balance address).

(** [_get_wallet_balance_alchemy]: a dict with the keys SOL, USDC, USDT. *)
Definition _get_wallet_balance_alchemy `{Environment} (address : string)
  : M (gmap string float) :=
  emit (EvGetWalletBalance address) ;;;
  ret (rpc_wallet_balances address).

(** [alchemy_transfer.execute_sol_transfer] *)
Definition execute_sol_transfer `{Environment}
    (private_key : string) (recipient : option string) (amount_sol : float)
  : M TransferResult :=
  emit (EvTransfer "SOL" recipient amount_sol) ;;;
  ret (rpc_sol_transfer private_key recipient amount_sol).

(** [alchemy_transfer.execute_spl_transfer] *)
Definition execute_spl_transfer `{Environment}
    (private_key : string) (recipient : option string) (token_mint : string)
    (amount : float) (decimals : nat) : M TransferResult :=
  emit (EvTransfer token_mint recipient amount) ;;;
  ret (rpc_spl_transfer private_key recipient token_mint amount decimals).

(** [alchemy_transfer.get_transaction_status] *)
Definition get_transaction_status `{Environment} (signature : string) (attempt : nat)
  : M TxStatus :=
  emit (EvGetStatus signature attempt) ;;;
  ret (rpc_transaction_status signature attempt).

(** [wallet_manager.create_new_wallet] *)
Definition create_new_wallet `{Environment} : M WalletResult :=
  seed <- fresh ;;
  ret (keypair_generate seed).

(** The calls in a trace that reach the network. *)
Definition is_network_call (e : Event) : bool :=
  match e with
  | EvGetSolBalance _ | EvGetWalletBalance _ | EvTransfer _ _ _ | EvGetStatus _ _ => true
  | EvSleep _ | EvStoreWrite _ => false
  end.

Definition is_transfer (e : Event) : bool :=
  match e with
  | EvTransfer _ _ _ => true
  | _ => false
  end.

Definition is_store_write (e : Event) : bool :=
  match e with
  | EvStoreWrite _ => true
  | _ => false
  end.

End Services.

(* ===================================================================== *)
(** * core/ai_handler.py: payment preview                                *)
(* ===================================================================== *)

Module AiHandler.
Import Py Config Store Database Services FeeEstimator.
Local Open Scope monad_scope.

(** The [{"success": False, "error": ...}] dicts of the preview, one
    constructor per message. *)
Inductive PaymentError :=
| ErrAmountNotPositive
| ErrInvalidAmountFormat
| ErrUnsupportedToken
| ErrNoWallet
| ErrRecipientStatus
| ErrMinimumTransferNewUser
| ErrRecipientWalletEmpty
| ErrWalletNotFound
| ErrInsufficientBalance (available required network_fee : float)
| ErrInsufficientToken (token : string) (token_available amount : float)
| ErrInsufficientSolForGas (sol_available network_fee : float).

(** The insufficient-funds messages: a sender shortfall, or an amount
    too small to fund the recipient's account. *)
Definition is_insufficient_funds (e : PaymentError) : bool :=
  match e with
  | ErrInsufficientBalance _ _ _ | ErrInsufficientToken _ _ _
  | ErrInsufficientSolForGas _ _
  | ErrMinimumTransferNewUser | ErrRecipientWalletEmpty => true
  | _ => false
  end.

Inductive RecipientStatus := new_user | active | user_no_wallet | pending_wallet.

#[global] Instance RecipientStatus_eq_dec : EqDecision RecipientStatus.
Proof. solve_decision. Defined.

(** [payment_data] of the preview.  The source carries the amount as
    [str(amount_float)] and reads it back with [float]; the round trip is
    exact, so the field holds the float. *)
Record PaymentData := {
  pd_recipient_username : string;
  pd_recipient_wallet : option string;
  pd_recipient_status : RecipientStatus;
  pd_recipient_telegram_id : option Z;
  pd_amount : float;
  pd_token : string;
  pd_token_mint : string;
  pd_token_decimals : nat;
  pd_network_fee : float;
  pd_needs_wallet_creation : bool;
  pd_sender_username : option string;
  pd_sender_wallet : option string
}.

Inductive Preview :=
| PreviewError (e : PaymentError)
| PreviewOk (payment_data : PaymentData).

(** [balances.get(token, 0)] *)
Definition balance_of (balances : gmap string float) (token : string) : float :=
  default 0%float (balances !! token).

(** [_check_payment_balance]; [None] is [{"success": True}]. *)
Definition _check_payment_balance `{Environment}
    (id : Z) (amount : float) (token : string) (network_fee : float)
  : M (option PaymentError) :=
  user <- get_user id ;;
  match user with
  | None => ret (Some ErrWalletNotFound)
  | Some u =>
      if negb (truthy_str (wallet_address u)) then ret (Some ErrWalletNotFound)
      else
        balances <- _get_wallet_balance_alchemy (default EmptyString (wallet_address u)) ;;
        if String.eqb token "SOL" then
          let required := (amount + network_fee)%float in
          let available := balance_of balances "SOL" in
          if (available <? required)%float
          then ret (Some (ErrInsufficientBalance available required network_fee))
          else ret None
        else
          let token_available := balance_of balances token in
          let sol_available := balance_of balances "SOL" in
          if (token_available <? amount)%float
          then ret (Some (ErrInsufficientToken token token_available amount))
          else if (sol_available <? network_fee)%float
          then ret (Some (ErrInsufficientSolForGas sol_available network_fee))
          else ret None
  end.

(** Step 5 of [_send_payment]: the recipient's state, as
    [(recipient_status, recipient_telegram_id, recipient_wallet,
      needs_wallet_creation, needs_rent_exemption)]; [None] is "Unable to
    determine recipient status". *)
Definition recipient_state (recipient : option UserDoc)
  : option (RecipientStatus * option Z * option string * bool * bool) :=
  match recipient with
  | None => Some (new_user, None, None, true, true)
  | Some r =>
      if truthy_int (telegram_id r) && truthy_str (wallet_address r)
      then Some (active, telegram_id r, wallet_address r, false, false)
      else if truthy_int (telegram_id r) && negb (truthy_str (wallet_address r))
      then Some (user_no_wallet, telegram_id r, None, true, true)
      else if negb (truthy_int (telegram_id r)) && truthy_str (pending_wallet_address r)
      then Some (pending_wallet, None, pending_wallet_address r, false, false)
      else None
  end.

(** [_send_payment(telegram_id, recipient_username, amount, token)]: the
    validation that ends in a preview.  It only reads the store. *)
Definition _send_payment `{Environment}
    (id : Z) (recipient_username amount token : string) : M Preview :=
  (* Step 1: normalize inputs *)
  let token := upper token in
  let recipient_username := normalize_username recipient_username in
  (* Step 2: validate amount *)
  match python_float amount with
  | None => ret (PreviewError ErrInvalidAmountFormat)
  | Some amount_float =>
  if (amount_float <=? 0)%float then ret (PreviewError ErrAmountNotPositive) else
  (* Step 3: validate token *)
  match token_lookup SUPPORTED_PAYMENT_TOKENS token with
  | None => ret (PreviewError ErrUnsupportedToken)
  | Some token_config =>
  (* Step 4: verify sender has wallet *)
  sender <- get_user id ;;
  match sender with
  | None => ret (PreviewError ErrNoWallet)
  | Some s =>
  if negb (truthy_str (wallet_address s)) then ret (PreviewError ErrNoWallet) else
  let sender_wallet := wallet_address s in
  let sender_username := username s in
  (* Step 5: look up recipient and determine status *)
  recipient <- get_user_by_username recipient_username ;;
  match recipient_state recipient with
  | None => ret (PreviewError ErrRecipientStatus)
  | Some (recipient_status, recipient_telegram_id, recipient_wallet,
          needs_wallet_creation, needs_rent_exemption) =>
  (* Step 6: calculate network fees *)
  let network_fee := _estimate_network_fee needs_rent_exemption token in
  (* Step 7: check minimum transfer for new accounts *)
  if needs_rent_exemption && String.eqb token "SOL"
     && (amount_float <? MINIMUM_SOL_TRANSFER_NEW_USER)%float
  then ret (PreviewError ErrMinimumTransferNewUser) else
  (* Step 7.5: for an "active" user, verify the blockchain balance *)
  rejected <-
    (if bool_decide (recipient_status = active) && truthy_str recipient_wallet
        && String.eqb token "SOL"
     then
       recipient_balance <- get_sol_balance (default EmptyString recipient_wallet) ;;
       ret ((recipient_balance <? 0.00089088)%float
            && (amount_float <? MINIMUM_SOL_TRANSFER_NEW_USER)%float)
     else ret false) ;;
  if rejected : bool then ret (PreviewError ErrRecipientWalletEmpty) else
  (* Step 8: check sender balance *)
  balance_check <- _check_payment_balance id amount_float token network_fee ;;
  match balance_check with
  | Some e => ret (PreviewError e)
  | None =>
  (* Steps 9-11: the preview *)
  ret (PreviewOk
         {| pd_recipient_username := recipient_username;
            pd_recipient_wallet := recipient_wallet;
            pd_recipient_status := recipient_status;
            pd_recipient_telegram_id := recipient_telegram_id;
            pd_amount := amount_float;
            pd_token := token;
            pd_token_mint := mint token_config;
            pd_token_decimals := decimals token_config;
            pd_network_fee := network_fee;
            pd_needs_wallet_creation := needs_wallet_creation;
            pd_sender_username := sender_username;
            pd_sender_wallet := sender_wallet |})
  end end end end end.

End AiHandler.

(* ===================================================================== *)
(** * core/bot_handlers.py: payment execution                            *)
(* ===================================================================== *)

Module BotHandlers.
Import Py Config Store Database Services AiHandler.
Local Open Scope monad_scope.

(** The error dicts of [execute_payment_secure], one constructor per
    message; [ErrException] is the outer [except Exception]. *)
Inductive ExecError :=
| ErrSenderWalletNotFound
| ErrRecipientInsufficient (recipient_balance : float)
| ErrCreateWallet
| ErrTransfer (error : string)
| ErrFailedOnChain
| ErrConfirmationTimeout
| ErrException (exc : string).

(** The success dict of [execute_payment_secure]. *)
Record Receipt := {
  rc_signature : string;
  rc_recipient_wallet : option string;
  rc_recipient_status : RecipientStatus;
  rc_recipient_telegram_id : option Z;
  rc_sender_username : option string;
  rc_sender_wallet : option string;
  rc_recipient_username : string;
  rc_amount : float;
  rc_token : string;
  rc_recipient_private_key : option string
}.

Inductive ExecResult :=
| ExecFailed (e : ExecError)
| ExecSuccess (r : Receipt).

Definition is_success (r : ExecResult) : bool :=
  match r with
  | ExecSuccess _ => true
  | ExecFailed _ => false
  end.

(** How the polling loop of step 4 ends. *)
Inductive PollOutcome := PollConfirmed | PollFailed | PollTimeout.

(** Step 4: [for attempt in range(30)], one second of sleep and one
    status query per iteration; [remaining] counts the iterations left.
    Only "confirmed" and "failed" leave the loop early. *)
Fixpoint poll_confirmation `{Environment} (signature : string)
    (remaining attempt : nat) : M PollOutcome :=
  match remaining with
  | O => ret PollTimeout
  | S n =>
      sleep 1 ;;;
      status <- get_transaction_status signature attempt ;;
      match status with
      | st_confirmed => ret PollConfirmed
      | st_failed => ret PollFailed
      | _ => poll_confirmation signature n (S attempt)
      end
  end.

(** [execute_payment_secure(sender_telegram_id, payment_data)].  A
    [payment_data] built by [_send_payment] carries the recipient's id
    whenever its status is [user_no_wallet]; a missing id is read as 0
    there. *)
Definition execute_payment_secure `{Secrets} `{CryptoLib} `{Environment}
    (sender_telegram_id : Z) (payment_data : PaymentData) : M ExecResult :=
  (* Step 1: get sender's private key *)
  key <- get_decrypted_private_key sender_telegram_id ;;
  match key with
  | Raised exc => ret (ExecFailed (ErrException exc))
  | Returned None => ret (ExecFailed ErrSenderWalletNotFound)
  | Returned (Some sender_private_key) =>
  if negb (truthy_str (Some sender_private_key))
  then ret (ExecFailed ErrSenderWalletNotFound) else
  sender_user <- get_user sender_telegram_id ;;
  match sender_user with
  | None => ret (ExecFailed (ErrException "TypeError"))
  | Some su =>
  let sender_wallet := wallet_address su in
  let sender_username := username su in
  let recipient_username := pd_recipient_username payment_data in
  let recipient_wallet := pd_recipient_wallet payment_data in
  let recipient_status := pd_recipient_status payment_data in
  let recipient_telegram_id := pd_recipient_telegram_id payment_data in
  let amount := pd_amount payment_data in
  let token := pd_token payment_data in
  let token_mint := pd_token_mint payment_data in
  let token_decimals := pd_token_decimals payment_data in
  (* Step 2: double-check recipient balance for active/pending users *)
  low <-
    (if (bool_decide (recipient_status = active)
         || bool_decide (recipient_status = pending_wallet))
        && truthy_str recipient_wallet && String.eqb token "SOL"
     then
       recipient_balance <- get_sol_balance (default EmptyString recipient_wallet) ;;
       if (recipient_balance <? 0.00089088)%float && (amount <? 0.001)%float
       then ret (Some recipient_balance) else ret None
     else ret None) ;;
  match low with
  | Some recipient_balance =>
      ret (ExecFailed (ErrRecipientInsufficient recipient_balance))
  | None =>
  (* Step 2: handle wallet creation for recipient *)
  created <-
    (match recipient_status with
     | new_user =>
         wallet_result <- create_new_wallet ;;
         match wallet_result with
         | WalletError _ => ret None
         | WalletCreated address private_key =>
             (* encrypted with the username hash; the value is not used *)
             encrypted_key <- encrypt_private_key private_key
                                (username_hash recipient_username) ;;
             ret (Some (Some address, Some private_key))
         end
     | user_no_wallet =>
         wallet_result <- create_new_wallet ;;
         match wallet_result with
         | WalletError _ => ret None
         | WalletCreated address private_key =>
             let rid := default 0%Z recipient_telegram_id in
             encrypted_key <- encrypt_private_key private_key rid ;;
             activate_pending_wallet rid address encrypted_key ;;;
             ret (Some (Some address, Some private_key))
         end
     | _ => ret (Some (recipient_wallet, None))
     end) ;;
  match created with
  | None => ret (ExecFailed ErrCreateWallet)
  | Some (recipient_wallet, recipient_private_key) =>
  (* Step 3: execute blockchain transfer *)
  transfer_result <-
    (if String.eqb token "SOL"
     then execute_sol_transfer sender_private_key recipient_wallet amount
     else execute_spl_transfer sender_private_key recipient_wallet token_mint
            amount token_decimals) ;;
  match transfer_result with
  | TransferError error => ret (ExecFailed (ErrTransfer error))
  | TransferOk signature =>
  (* Step 4: poll for confirmation (30 seconds max) *)
  polled <- poll_confirmation signature 30 0 ;;
  match polled with
  | PollFailed => ret (ExecFailed ErrFailedOnChain)
  | PollTimeout => ret (ExecFailed ErrConfirmationTimeout)
  | PollConfirmed =>
  (* Step 5: save transaction records *)
  let tx_record :=
    {| r_signature := signature;
       r_sender_username := sender_username;
       r_sender_wallet := sender_wallet;
       r_recipient_username := recipient_username;
       r_recipient_wallet := recipient_wallet;
       r_amount := amount;
       r_token := token;
       r_network_fee := pd_network_fee payment_data;
       r_status := "confirmed" |} in
  save_payment_transaction sender_telegram_id tx_record true ;;;
  (if truthy_int recipient_telegram_id
   then save_payment_transaction (default 0%Z recipient_telegram_id) tx_record false
   else ret false) ;;;
  (* Step 6: create notification for recipient *)
  t <- now ;;
  let notification_data :=
    {| n_type := "payment_received";
       n_amount := amount;
       n_token := token;
       n_sender_username := sender_username;
       n_sender_wallet := sender_wallet;
       n_signature := signature;
       n_timestamp := t |} in
  (match recipient_status with
   | new_user =>
       encrypted_key <- encrypt_private_key (default EmptyString recipient_private_key)
                          (username_hash recipient_username) ;;
       create_pending_user_by_username recipient_username
         (default EmptyString recipient_wallet) encrypted_key notification_data
   | pending_wallet =>
       add_pending_notification_by_username recipient_username notification_data
   | _ =>
       if truthy_int recipient_telegram_id
       then add_pending_notification (default 0%Z recipient_telegram_id)
              notification_data
       else ret false
   end) ;;;
  (* Step 7: return success *)
  ret (ExecSuccess
         {| rc_signature := signature;
            rc_recipient_wallet := recipient_wallet;
            rc_recipient_status := recipient_status;
            rc_recipient_telegram_id := recipient_telegram_id;
            rc_sender_username := sender_username;
            rc_sender_wallet := sender_wallet;
            rc_recipient_username := recipient_username;
            rc_amount := amount;
            rc_token := token;
            rc_recipient_private_key := recipient_private_key |})
  end end end end end end.

(** ** The confirmation callback *)

(** The messages of [payment_callback_handler], one constructor per
    text. *)
Inductive ChatText :=
| TxtExpired
| TxtCancelled
| TxtProcessing
| TxtGroupPaymentSent (r : Receipt)
| TxtSenderDetails (r : Receipt)
| TxtPaymentSuccessful (r : Receipt)
| TxtPaymentFailed (e : ExecError)
| TxtHandlerError
| TxtRecipientNotice (r : Receipt).

(** The chat platform: whether editing the quote message, or sending a
    new message, goes through for a given text (the calls raise
    otherwise). *)
Class Telegram := {
  edit_message_text_ok : ChatText -> bool;
  send_message_ok : ChatText -> bool
}.

(** A value of the module-level dict [pending_payments].  The entry
    written by the tool-result path has no ["payment_data"] key. *)
Record PaymentInfo := {
  pi_telegram_id : Z;
  pi_payment_data : option PaymentData;
  pi_timestamp : Z
}.

(** [update.callback_query] *)
Record CallbackQuery := {
  q_data : string;
  q_from_user : Z;
  q_chat_type : string
}.

(** The process: the dict [pending_payments], the world, and the messages
    that reached a chat. *)
Record Bot := {
  pending_payments : gmap string PaymentInfo;
  world : World;
  outbox : list ChatText
}.

Definition post (text : ChatText) (b : Bot) : Bot :=
  {| pending_payments := pending_payments b;
     world := world b;
     outbox := outbox b ++ [text] |}.

(** [try: await query.edit_message_text(t)
     except Exception: await update.effective_chat.send_message(t)];
    [false] when the fallback raises too. *)
Definition reply `{Telegram} (text : ChatText) (b : Bot) : bool * Bot :=
  if edit_message_text_ok text then (true, post text b)
  else if send_message_ok text then (true, post text b)
  else (false, b).

(** A [send_message] inside [try/except] that only logs. *)
Definition try_send `{Telegram} (text : ChatText) (b : Bot) : Bot :=
  if send_message_ok text then post text b else b.

(** [_send_recipient_notification]: nothing for a recipient without an
    id; otherwise one message, failures logged. *)
Definition _send_recipient_notification `{Telegram} (r : Receipt) (b : Bot) : Bot :=
  if negb (truthy_int (rc_recipient_telegram_id r)) then b
  else try_send (TxtRecipientNotice r) b.

(** [del pending_payments[payment_id]] *)
Definition del_pending (payment_id : string) (b : Bot) : Bot :=
  {| pending_payments := delete payment_id (pending_payments b);
     world := world b;
     outbox := outbox b |}.

Definition set_world (w : World) (b : Bot) : Bot :=
  {| pending_payments := pending_payments b;
     world := w;
     outbox := outbox b |}.

(** How one run of the handler ends.  [HError escaped] is the outer
    [except Exception]; [escaped] tells that its own report raised out of
    the handler. *)
Inductive HandlerOutcome :=
| HExpired
| HNotOwner
| HCancelled
| HExecuted (result : ExecResult)
| HError (escaped : bool).

(** The success messages slice [result['sender_wallet'][:12]] and
    [result['recipient_wallet'][:12]], which raises on [None]. *)
Definition sliceable (r : Receipt) : bool :=
  match rc_sender_wallet r, rc_recipient_wallet r with
  | Some _, Some _ => true
  | _, _ => false
  end.

(** The outer [except Exception] of the handler. *)
Definition on_exception `{Telegram} (b : Bot) : HandlerOutcome * Bot :=
  let (ok, b') := reply TxtHandlerError b in
  (HError (negb ok), b').

(** [payment_callback_handler(update, context)].  The leading
    [query.answer()] is inside a [try] that swallows its failure and is
    left out. *)
Definition payment_callback_handler `{Secrets} `{CryptoLib} `{Environment} `{Telegram}
    (query : CallbackQuery) (b : Bot) : HandlerOutcome * Bot :=
  let parts := split "_" (q_data query) in
  match nth_error parts 1, nth_error parts 2 with
  | Some action, Some payment_id =>
      match pending_payments b !! payment_id with
      | None =>
          let (ok, b1) := reply TxtExpired b in
          if ok then (HExpired, b1) else on_exception b1
      | Some payment_info =>
          if negb (q_from_user query =? pi_telegram_id payment_info)%Z
          then (HNotOwner, b)
          else if String.eqb action "cancel" then
            let (ok, b1) := reply TxtCancelled b in
            if ok then (HCancelled, del_pending payment_id b1)
            else on_exception b1
          else
            let (ok, b1) := reply TxtProcessing b in
            if negb ok then on_exception b1 else
            let sender_telegram_id := pi_telegram_id payment_info in
            match pi_payment_data payment_info with
            | None => on_exception b1
            | Some payment_data =>
                let (result, w) :=
                  execute_payment_secure sender_telegram_id payment_data (world b1) in
                let b2 := set_world w b1 in
                match result with
                | ExecSuccess r =>
                    let is_group :=
                      String.eqb (q_chat_type query) "group"
                      || String.eqb (q_chat_type query) "supergroup" in
                    if is_group then
                      let (ok, b3) := reply (TxtGroupPaymentSent r) b2 in
                      if negb ok then on_exception b3 else
                      if negb (sliceable r) then on_exception b3 else
                      let b4 := try_send (TxtSenderDetails r) b3 in
                      let b5 := _send_recipient_notification r b4 in
                      (HExecuted result, del_pending payment_id b5)
                    else
                      if negb (sliceable r) then on_exception b2 else
                      let (ok, b3) := reply (TxtPaymentSuccessful r) b2 in
                      if negb ok then on_exception b3 else
                      let b4 := _send_recipient_notification r b3 in
                      (HExecuted result, del_pending payment_id b4)
                | ExecFailed e =>
                    let (ok, b3) := reply (TxtPaymentFailed e) b2 in
                    if negb ok then on_exception b3
                    else (HExecuted result, del_pending payment_id b3)
                end
            end
      end
  | _, _ => on_exception b
  end.

(** The success branch of the handler on its own, from the state in
    which the execution has returned. *)
Definition handle_success `{Telegram} (query : CallbackQuery) (payment_id : string)
    (result : ExecResult) (r : Receipt) (b2 : Bot) : HandlerOutcome * Bot :=
  if String.eqb (q_chat_type query) "group"
     || String.eqb (q_chat_type query) "supergroup"
  then
    let (ok, b3) := reply (TxtGroupPaymentSent r) b2 in
    if negb ok then on_exception b3 else
    if negb (sliceable r) then on_exception b3 else
    (HExecuted result,
     del_pending payment_id
       (_send_recipient_notification r (try_send (TxtSenderDetails r) b3)))
  else
    if negb (sliceable r) then on_exception b2 else
    let (ok, b3) := reply (TxtPaymentSuccessful r) b2 in
    if negb ok then on_exception b3 else
    (HExecuted result, del_pending payment_id (_send_recipient_notification r b3)).

End BotHandlers.

(* ===================================================================== *)
(** * services/wallet_manager.py: import of a private key                *)
(* ===================================================================== *)

Module WalletManager.
Import Py Database.

(** The library calls of the import: [base58.b58decode] and
    [bytes.fromhex] answer [None] where they raise; [keypair_pubkey d] is
    [str(Keypair.from_bytes(d).pubkey())], or the text of the exception
    that [solders] raises. *)
Class KeyCodec := {
  b58decode : string -> option string;
  b58encode : string -> string;
  bytes_fromhex : string -> option string;
  keypair_pubkey : string -> Outcome string
}.

(** The dict that the import returns. *)
Inductive ImportResult :=
| ImportOk (address private_key : string)
| ImportError (error : string).

(** The nested [try] of the import: base58 first, hex when base58
    raises, [None] when both raise. *)
Definition decode_private_key `{KeyCodec} (private_key : string) : option string :=
  match b58decode private_key with
  | Some decoded => Some decoded
  | None => bytes_fromhex private_key
  end.

(** [import_from_private_key(private_key)].  Every exception of the body
    is caught, by the bare [except] clauses or by the outer
    [except Exception]. *)
Definition import_from_private_key `{KeyCodec} (private_key : string)
  : ImportResult :=
  let private_key := strip private_key in
  match decode_private_key private_key with
  | None => ImportError "Invalid private key format"
  | Some decoded =>
      if negb (String.length decoded =? 64)%nat
      then ImportError "Invalid private key length"
      else
        match keypair_pubkey decoded with
        | Raised exc => ImportError ("Import failed: " ++ exc)
        | Returned public_key =>
            ImportOk public_key
                     (if (64 <? len private_key)%nat then private_key
                      else b58encode decoded)
        end
  end.

End WalletManager.

(* ===================================================================== *)
(** * The codecs behind the import, as they behave                       *)
(* ===================================================================== *)

Module Codec.
Import Py Database WalletManager.

(** The Bitcoin alphabet of the [base58] package. *)
Definition BITCOIN_ALPHABET : string :=
  "123456789ABCDEFGHJKLMNPQRSTUVWXYZabcdefghijkmnopqrstuvwxyz".

(** Position of a character in a string. *)
Fixpoint index_of (c : ascii) (s : string) (i : N) : option N :=
  match s with
  | EmptyString => None
  | String d r => if Ascii.eqb c d then Some i else index_of c r (i + 1)%N
  end.

(** [b58decode_int]: the number a base58 string denotes; [None] on a
    character outside the alphabet. *)
Fixpoint b58decode_int (v : string) (acc : N) : option N :=
  match v with
  | EmptyString => Some acc
  | String c r =>
      match index_of c BITCOIN_ALPHABET 0 with
      | Some d => b58decode_int r (acc * 58 + d)%N
      | None => None
      end
  end.

(** [v.lstrip(b"1")], with the number of characters dropped. *)
Fixpoint lstrip_ones (v : string) : nat * string :=
  match v with
  | String "1"%char r => let (n, rest) := lstrip_ones r in (S n, rest)
  | _ => (O, v)
  end.

(** The big-endian bytes of a number, most significant first; [fuel]
    bounds the number of bytes. *)
Fixpoint bytes_of_N (fuel : nat) (n : N) (acc : string) : string :=
  match fuel with
  | O => acc
  | S f =>
      if (n =? 0)%N then acc
      else bytes_of_N f (n / 256)%N (String (ascii_of_N (n mod 256)) acc)
  end.

Fixpoint zeros (n : nat) : string :=
  match n with
  | O => EmptyString
  | S m => String Ascii.zero (zeros m)
  end.

(** [base58.b58decode(v)]: trailing whitespace is dropped, each leading
    "1" is a zero byte, the rest is a number in base 58. *)
Definition b58decode_ref (v : string) : option string :=
  let v := rstrip v in
  let (origlen_minus_newlen, rest) := lstrip_ones v in
  match b58decode_int rest 0 with
  | None => None
  | Some acc =>
      Some (zeros origlen_minus_newlen
            ++ bytes_of_N (String.length rest) acc EmptyString)
  end.

(** The base58 digits of a number, most significant first. *)
Fixpoint digits_of_N (fuel : nat) (n : N) (acc : string) : string :=
  match fuel with
  | O => acc
  | S f =>
      if (n =? 0)%N then acc
      else
        match String.get (N.to_nat (n mod 58)) BITCOIN_ALPHABET with
        | Some c => digits_of_N f (n / 58)%N (String c acc)
        | None => acc
        end
  end.

Fixpoint lstrip_zero_bytes (b : string) : nat * string :=
  match b with
  | String c r =>
      if Ascii.eqb c Ascii.zero
      then let (n, rest) := lstrip_zero_bytes r in (S n, rest)
      else (O, b)
  | EmptyString => (O, b)
  end.

Fixpoint ones (n : nat) : string :=
  match n with
  | O => EmptyString
  | S m => String "1"%char (ones m)
  end.

(** [int.from_bytes(b, "big")] as a natural number. *)
Definition N_of_bytes (b : string) : N :=
  fold_left (fun acc c => (acc * 256 + N_of_ascii c)%N) (list_ascii_of_string b) 0%N.

(** [base58.b58encode(b)] *)
Definition b58encode_ref (b : string) : string :=
  let (nzeros, rest) := lstrip_zero_bytes b in
  ones nzeros ++ digits_of_N (2 * String.length rest) (N_of_bytes rest) EmptyString.

(** Value of a hexadecimal digit. *)
Definition hex_digit (c : ascii) : option N :=
  let n := N_of_ascii c in
  if (48 <=? n)%N && (n <=? 57)%N then Some (n - 48)%N
  else if (97 <=? n)%N && (n <=? 102)%N then Some (n - 87)%N
  else if (65 <=? n)%N && (n <=? 70)%N then Some (n - 55)%N
  else None.

(** Whitespace that [bytes.fromhex] skips between bytes. *)
Definition is_c_space (c : ascii) : bool :=
  let n := nat_of_ascii c in
  ((9 <=? n)%nat && (n <=? 13)%nat) || (n =? 32)%nat.

(** [bytes.fromhex(s)]: two hexadecimal digits per byte, whitespace
    allowed between bytes; [None] where it raises [ValueError]. *)
Fixpoint bytes_fromhex_ref (s : string) : option string :=
  match s with
  | EmptyString => Some EmptyString
  | String c r =>
      if is_c_space c then bytes_fromhex_ref r
      else
        match r with
        | EmptyString => None
        | String d r' =>
            match hex_digit c, hex_digit d with
            | Some h, Some l =>
                match bytes_fromhex_ref r' with
                | Some rest => Some (String (ascii_of_N (16 * h + l)) rest)
                | None => None
                end
            | _, _ => None
            end
        end
  end.

(** The two decoders and the encoder as they behave.  What [solders]
    makes of 64 bytes (it checks that the public half belongs to the
    secret half) stays a parameter. *)
Definition reference_codec (keypair : string -> Outcome string) : KeyCodec := {|
  b58decode := b58decode_ref;
  b58encode := b58encode_ref;
  bytes_fromhex := bytes_fromhex_ref;
  keypair_pubkey := keypair
|}.

(** The import over these codecs. *)
Definition import_with (keypair : string -> Outcome string) (private_key : string)
  : ImportResult :=
  @import_from_private_key (reference_codec keypair) private_key.

(** The 64 bytes 1, 2, ..., 64. *)
Definition one_to_sixty_four : string :=
  default EmptyString (bytes_fromhex_ref
    "0102030405060708090a0b0c0d0e0f101112131415161718191a1b1c1d1e1f202122232425262728292a2b2c2d2e2f303132333435363738393a3b3c3d3e3f40").

(** What the import answers once the input has decoded to [decoded],
    when [typed] is the key to return. *)
Definition answer_for (keypair : string -> Outcome string) (decoded typed : string)
  : ImportResult :=
  match keypair decoded with
  | Returned public_key => ImportOk public_key typed
  | Raised exc => ImportError ("Import failed: " ++ exc)
  end.

End Codec.

(* ===================================================================== *)
(** * Concurrent callers of [claim_pending_wallet]                       *)
(* ===================================================================== *)

Module Concurrency.
Import Store Database.
Local Open Scope monad_scope.

(** A caller of [claim_pending_wallet], seen from the store: before its
    [find_one], between its [find_one] and its [update_one], and after
    it has returned.  The store runs one operation at a time; nothing
    else orders two callers. *)
Inductive Caller :=
| Calling (id : Z) (name : string)
| Looked (id : Z) (name : string) (pending : option UserDoc)
| Finished (result : ClaimResult).

(** One store operation of a caller. *)
Definition caller_step `{Secrets} `{CryptoLib} (c : Caller) : M Caller :=
  match c with
  | Calling id name =>
      pending <- claim_lookup name ;;
      ret (Looked id name pending)
  | Looked id name pending =>
      result <- claim_commit id name pending ;;
      ret (Finished result)
  | Finished _ => ret c
  end.

(** Two callers under a schedule: [true] lets the first one take its next
    step, [false] the second. *)
Fixpoint run `{Secrets} `{CryptoLib} (schedule : list bool) (a b : Caller)
  : M (Caller * Caller) :=
  match schedule with
  | [] => ret (a, b)
  | true :: rest => a' <- caller_step a ;; run rest a' b
  | false :: rest => b' <- caller_step b ;; run rest a b'
  end.

(** The caller got the plaintext key. *)
Definition got_key (c : Caller) : option string :=
  match c with
  | Finished (ClaimSuccess _ private_key _) => Some private_key
  | _ => None
  end.

End Concurrency.

(* ===================================================================== *)
(** * Concrete worlds for running the model                              *)
(* ===================================================================== *)

Module Scenario.
Import Py Config Store Database Services AiHandler BotHandlers.

#[export] Instance secrets : Secrets := {| ENCRYPTION_KEY := "master" |}.

(** A stand-in for the cryptographic library, enough to run the model: a
    token is the key, a separator and the plaintext, and decryption
    checks the key. *)
Definition tag_encrypt (key : string) (iv : nat) (t : Z) (data : string) : string :=
  key ++ "#" ++ data.

Definition tag_decrypt (key token : string) : option string :=
  let k := key ++ "#" in
  if String.prefix k token
  then Some (String.substring (String.length k)
                              (String.length token - String.length k) token)
  else None.

#[export] Instance tagging : CryptoLib := {|
  sha256_digest := fun s => s;
  pbkdf2_hmac_sha256 := fun salt _ _ password => salt ++ "/" ++ password;
  urlsafe_b64encode := fun s => s;
  fernet_encrypt := tag_encrypt;
  fernet_decrypt := tag_decrypt
|}.

(** An empty document. *)
Definition blank : UserDoc :=
  {| telegram_id := None; username := None; wallet_address := None;
     encrypted_private_key := None; wallet_type := None;
     wallet_created_at := None; last_updated := None;
     pending_wallet_address := None; pending_private_key := None;
     pending_notifications := []; transactions := [];
     total_payments_sent := 0; total_payments_received := 0 |}.

(** The sender: identity 1, handle alice, with an active wallet. *)
Definition alice : UserDoc :=
  {| telegram_id := Some 1%Z; username := Some "alice";
     wallet_address := Some "AliceWallet";
     encrypted_private_key := Some (tag_encrypt (derive_key_from_telegram_id 1) 0 0 "alice-key");
     wallet_type := Some "created";
     wallet_created_at := Some 0%Z; last_updated := Some 0%Z;
     pending_wallet_address := None; pending_private_key := None;
     pending_notifications := []; transactions := [];
     total_payments_sent := 0; total_payments_received := 0 |}.

(** An active recipient: identity 2, handle bob. *)
Definition bob : UserDoc :=
  {| telegram_id := Some 2%Z; username := Some "bob";
     wallet_address := Some "BobWallet";
     encrypted_private_key := Some (tag_encrypt (derive_key_from_telegram_id 2) 0 0 "bob-key");
     wallet_type := Some "imported";
     wallet_created_at := Some 0%Z; last_updated := Some 0%Z;
     pending_wallet_address := None; pending_private_key := None;
     pending_notifications := []; transactions := [];
     total_payments_sent := 0; total_payments_received := 0 |}.

(** A pending wallet for the handle carol, whose owner has no identity
    yet. *)
Definition carol_pending : UserDoc :=
  {| telegram_id := None; username := Some "carol";
     wallet_address := None; encrypted_private_key := None;
     wallet_type := Some "auto_created_pending";
     wallet_created_at := None; last_updated := Some 0%Z;
     pending_wallet_address := Some "CarolWallet";
     pending_private_key :=
       Some (tag_encrypt (derive_key_from_telegram_id (username_hash "carol")) 0 0
                         "carol-key");
     pending_notifications := []; transactions := [];
     total_payments_sent := 0; total_payments_received := 0 |}.

Definition world_of (c : list UserDoc) : World :=
  {| users := c; trace := []; clock := 100; rng := 0 |}.

(** A network where alice holds 2 SOL and 10 USDC, bob's and every other
    account is empty, every transfer is accepted, and no transaction is
    ever seen confirmed. *)
#[export] Instance silent_network : Environment := {|
  rpc_sol_balance := fun address =>
    if String.eqb address "AliceWallet" then 2%float else 0%float;
  rpc_wallet_balances := fun address =>
    if String.eqb address "AliceWallet"
    then {[ "SOL" := 2%float; "USDC" := 10%float; "USDT" := 0%float ]}
    else {[ "SOL" := 0%float; "USDC" := 0%float; "USDT" := 0%float ]};
  rpc_sol_transfer := fun _ _ _ => TransferOk "sig-1";
  rpc_spl_transfer := fun _ _ _ _ _ => TransferOk "sig-1";
  rpc_transaction_status := fun _ _ => st_pending;
  keypair_generate := fun seed => WalletCreated "FreshWallet" "fresh-key";
  python_float := fun s =>
    if String.eqb s "1.0" then Some 1%float
    else if String.eqb s "0.0005" then Some 0.0005%float
    else None
|}.

(** The chat platform when every call goes through. *)
#[export] Instance chat_up : Telegram := {|
  edit_message_text_ok := fun _ => true;
  send_message_ok := fun _ => true
|}.

(** A preview for 1 SOL to the unknown handle dave, as [_send_payment]
    builds it, waiting in [pending_payments] under the id ab12cd34, and
    alice pressing Confirm. *)
Definition pd_dave : PaymentData :=
  {| pd_recipient_username := "dave"; pd_recipient_wallet := None;
     pd_recipient_status := new_user; pd_recipient_telegram_id := None;
     pd_amount := 1%float; pd_token := "SOL"; pd_token_mint := SOL_MINT;
     pd_token_decimals := 9; pd_network_fee := 0.00089588%float;
     pd_needs_wallet_creation := true;
     pd_sender_username := Some "alice"; pd_sender_wallet := Some "AliceWallet" |}.

Definition bot0 : Bot :=
  {| pending_payments :=
       {[ "ab12cd34" := {| pi_telegram_id := 1; pi_payment_data := Some pd_dave;
                           pi_timestamp := 99 |} ]};
     world := world_of [alice; bob];
     outbox := [] |}.

Definition confirm_click : CallbackQuery :=
  {| q_data := "pay_confirm_ab12cd34"; q_from_user := 1; q_chat_type := "private" |}.

(** The same network, except that the third status query sees the
    transaction confirmed. *)
Definition prompt_network : Environment := {|
  rpc_sol_balance := rpc_sol_balance;
  rpc_wallet_balances := rpc_wallet_balances;
  rpc_sol_transfer := rpc_sol_transfer;
  rpc_spl_transfer := rpc_spl_transfer;
  rpc_transaction_status := fun _ attempt =>
    if (attempt <? 2)%nat then st_pending else st_confirmed;
  keypair_generate := keypair_generate;
  python_float := python_float
|}.

(** A registered identity without a wallet: identity 3, handle erin, and
    a preview for 1 SOL to that handle. *)
Definition erin : UserDoc :=
  {| telegram_id := Some 3%Z; username := Some "erin";
     wallet_address := None; encrypted_private_key := None;
     wallet_type := None; wallet_created_at := None; last_updated := Some 0%Z;
     pending_wallet_address := None; pending_private_key := None;
     pending_notifications := []; transactions := [];
     total_payments_sent := 0; total_payments_received := 0 |}.

Definition pd_erin : PaymentData :=
  {| pd_recipient_username := "erin"; pd_recipient_wallet := None;
     pd_recipient_status := user_no_wallet; pd_recipient_telegram_id := Some 3%Z;
     pd_amount := 1%float; pd_token := "SOL"; pd_token_mint := SOL_MINT;
     pd_token_decimals := 9; pd_network_fee := 0.00089588%float;
     pd_needs_wallet_creation := true;
     pd_sender_username := Some "alice"; pd_sender_wallet := Some "AliceWallet" |}.

(** The transfers and the store writes of a trace, in order. *)
Definition transfers_and_writes (evs : list Event) : list Event :=
  List.filter (fun e => is_transfer e || is_store_write e) evs.

End Scenario.

(* ===================================================================== *)
(** * The requirements, in the words of the specification                *)
(* ===================================================================== *)

Module Requirements.
Import Py Store Services AiHandler BotHandlers.

(** Sufficient funds, as the specification words it: for the native
    asset the balance covers amount plus fee; for a token the token
    balance covers the amount and the native balance covers the fee. *)
Definition funds_suffice (balances : gmap string float)
    (amount : float) (token : string) (network_fee : float) : bool :=
  if String.eqb token "SOL"
  then (amount + network_fee <=? balance_of balances "SOL")%float
  else (amount <=? balance_of balances token)%float
       && (network_fee <=? balance_of balances "SOL")%float.

(** The ledger of a collection: every document's transaction history and
    payment counters. *)
Definition ledger (c : list UserDoc) : list (list Transaction * Z * Z) :=
  map (fun d => (transactions d, total_payments_sent d, total_payments_received d)) c.

(** The queued notifications of a collection. *)
Definition notifications (c : list UserDoc) : list (list Notification) :=
  map pending_notifications c.

(** The status that ends the poll window of [remaining] attempts starting
    at [attempt]: the first "confirmed" or "failed" answer, or none. *)
Fixpoint poll_verdict `{Environment} (signature : string) (remaining attempt : nat)
  : PollOutcome :=
  match remaining with
  | O => PollTimeout
  | S n =>
      match rpc_transaction_status signature attempt with
      | st_confirmed => PollConfirmed
      | st_failed => PollFailed
      | _ => poll_verdict signature n (S attempt)
      end
  end.

(** The events that an operation added to the trace. *)
Definition new_events (before after : World) : list Event :=
  drop (length (trace before)) (trace after).

End Requirements.

(* ===================================================================== *)
(** * A program logic for the world monad                                *)
(* ===================================================================== *)

Module Hoare.
Import Py Store Database Services AiHandler BotHandlers Requirements.

(** The postcondition of a computation from a world: the property holds
    of its answer and of the world it leaves. *)
Definition wp {A} (c : M A) (Q : A -> World -> Prop) (w : World) : Prop :=
  Q (fst (c w)) (snd (c w)).

(** Events that may occur when the only signature that may be polled is
    [sig] (none when [sig] is [None]). *)
Definition allowed (sig : option string) (e : Event) : Prop :=
  match e with
  | EvGetStatus s _ => sig = Some s
  | _ => True
  end.

(** [w'] continues [w]: its trace is the trace of [w] followed by
    allowed events. *)
Definition extends (sig : option string) (w w' : World) : Prop :=
  exists evs, trace w' = (trace w ++ evs)%list /\ Forall (allowed sig) evs.

(** No ledger entry and no notification was written between [w] and
    [w']. *)
Definition same_books (w w' : World) : Prop :=
  ledger (users w') = ledger (users w)
  /\ notifications (users w') = notifications (users w).

(** An operation that writes no ledger entry and no notification and
    polls nothing. *)
Definition quiet {A} (c : M A) : Prop :=
  forall w, same_books w (snd (c w)) /\ extends None w (snd (c w)).

(** An operation that polls nothing. *)
Definition silent {A} (c : M A) : Prop :=
  forall w, extends None w (snd (c w)).

(** An operation that leaves the collection as it is. *)
Definition untouched {A} (c : M A) : Prop :=
  forall w, users (snd (c w)) = users w.

(** What an execution from [w] may answer and leave behind: a failure
    leaves the books as they were; a success comes with a signature that
    was seen confirmed within the poll window; and when a signature was
    polled and the window ended in a timeout or in an on-chain failure,
    the answer is that error. *)
Definition settles_only_when_confirmed `{Environment}
    (w : World) (result : ExecResult) (w' : World) : Prop :=
  (is_success result = false -> same_books w w')
  /\ (forall r, result = ExecSuccess r ->
       poll_verdict (rc_signature r) 30 0 = PollConfirmed)
  /\ (forall sig k, In (EvGetStatus sig k) (new_events w w') ->
       (poll_verdict sig 30 0 = PollTimeout ->
        result = ExecFailed ErrConfirmationTimeout)
       /\ (poll_verdict sig 30 0 = PollFailed ->
           result = ExecFailed ErrFailedOnChain)).

End Hoare.

(* ===================================================================== *)
(** * Reading a trace                                                    *)
(* ===================================================================== *)

Module Traces.
Import Py Store Database Services AiHandler BotHandlers Requirements.

Definition is_balance_read (e : Event) : bool :=
  match e with
  | EvGetSolBalance _ | EvGetWalletBalance _ => true
  | _ => false
  end.

Definition is_status_query (e : Event) : bool :=
  match e with
  | EvGetStatus _ _ => true
  | _ => false
  end.

(** The transfers that were submitted between two worlds, and the status
    queries that were asked. *)
Definition submitted (before after : World) : list Event :=
  List.filter is_transfer (new_events before after).

Definition polled (before after : World) : list Event :=
  List.filter is_status_query (new_events before after).

(** The asset that step 3 of [execute_payment_secure] hands to the
    transfer service: SOL itself, or the mint of the token. *)
Definition transfer_asset (payment_data : PaymentData) : string :=
  if String.eqb (pd_token payment_data) "SOL" then "SOL"
  else pd_token_mint payment_data.

(** A computation that only reads: the collection, the clock and the
    random counter stay, and every event it adds satisfies [P]. *)
Definition reads_only {A} (P : Event -> bool) (c : M A) : Prop :=
  forall w, exists evs,
    snd (c w) = {| users := users w; trace := trace w ++ evs;
                   clock := clock w; rng := rng w |}
    /\ forallb P evs = true.

(** A computation every event of which satisfies [P]. *)
Definition emits {A} (P : Event -> bool) (c : M A) : Prop :=
  forall w, exists evs,
    trace (snd (c w)) = (trace w ++ evs)%list /\ forallb P evs = true.

(** A computation that keeps an invariant of the world. *)
Definition preserves {A} (I : World -> Prop) (c : M A) : Prop :=
  forall w, I w -> I (snd (c w)).

End Traces.

(* ===================================================================== *)
(** * What a preview promises to the execution                           *)
(* ===================================================================== *)

Module Previews.
Import Py Store Database Services AiHandler.

(** The four recipient states of step 5 of [_send_payment], as the
    fields of [payment_data] show them. *)
Definition coherent (payment_data : PaymentData) : Prop :=
  match pd_recipient_status payment_data with
  | new_user =>
      pd_recipient_wallet payment_data = None
      /\ pd_recipient_telegram_id payment_data = None
      /\ pd_needs_wallet_creation payment_data = true
  | active =>
      truthy_str (pd_recipient_wallet payment_data) = true
      /\ truthy_int (pd_recipient_telegram_id payment_data) = true
      /\ pd_needs_wallet_creation payment_data = false
  | user_no_wallet =>
      pd_recipient_wallet payment_data = None
      /\ truthy_int (pd_recipient_telegram_id payment_data) = true
      /\ pd_needs_wallet_creation payment_data = true
  | pending_wallet =>
      truthy_str (pd_recipient_wallet payment_data) = true
      /\ pd_recipient_telegram_id payment_data = None
      /\ pd_needs_wallet_creation payment_data = false
  end.

End Previews.

(* ===================================================================== *)
(** * The stages of an execution                                         *)
(* ===================================================================== *)

Module Stages.
Import Py Store Database Services AiHandler BotHandlers Requirements Traces.

(** The two kinds of call that matter for the fate of the funds. *)
Definition is_milestone (e : Event) : bool := is_transfer e || is_status_query e.

Definition not_milestone (e : Event) : bool := negb (is_milestone e).

Definition not_transfer (e : Event) : bool := negb (is_transfer e).

(** Since [w0], nothing was submitted and nothing polled. *)
Definition before_transfer (w0 w : World) : Prop :=
  exists evs, trace w = (trace w0 ++ evs)%list /\ List.filter is_milestone evs = [].

(** Since [w0], only reads: the collection and the random counter are
    those of [w0]. *)
Definition nothing_done (w0 w : World) : Prop :=
  users w = users w0 /\ rng w = rng w0 /\ before_transfer w0 w.

(** Since [w0], the transfer [e] was submitted and nothing polled yet. *)
Definition transfer_sent (w0 : World) (e : Event) (w : World) : Prop :=
  exists evs, trace w = (trace w0 ++ evs)%list /\ List.filter is_milestone evs = [e].

(** Since [w0], the transfer [e] was submitted, and no other. *)
Definition transfer_settling (w0 : World) (e : Event) (w : World) : Prop :=
  exists evs, trace w = (trace w0 ++ evs)%list /\ List.filter is_transfer evs = [e].

(** The wallet that an execution from [w0] pays: the one of the preview
    for a recipient that has one, the one generated from the next random
    draw otherwise. *)
Definition pays_to `{Environment} (payment_data : PaymentData) (w0 : World)
    (recipient : option string) : Prop :=
  match pd_recipient_status payment_data with
  | active | pending_wallet => recipient = pd_recipient_wallet payment_data
  | new_user | user_no_wallet =>
      exists address private_key,
        keypair_generate (rng w0) = WalletCreated address private_key
        /\ recipient = Some address
  end.

(** The one transfer that an execution of [payment_data] from [w0] may
    submit. *)
Definition the_transfer `{Environment} (payment_data : PaymentData) (w0 : World)
    (e : Event) : Prop :=
  exists recipient,
    e = EvTransfer (transfer_asset payment_data) recipient (pd_amount payment_data)
    /\ pays_to payment_data w0 recipient.

(** What the answer of an execution says about the calls it made. *)
Definition stage `{Environment} (payment_data : PaymentData) (w0 : World)
    (result : ExecResult) (w' : World) : Prop :=
  match result with
  | ExecFailed ErrSenderWalletNotFound
  | ExecFailed (ErrRecipientInsufficient _)
  | ExecFailed ErrCreateWallet
  | ExecFailed (ErrException _) =>
      submitted w0 w' = [] /\ polled w0 w' = [] /\ users w' = users w0
  | ExecFailed (ErrTransfer _) =>
      polled w0 w' = []
      /\ exists e, submitted w0 w' = [e] /\ the_transfer payment_data w0 e
  | ExecFailed ErrFailedOnChain
  | ExecFailed ErrConfirmationTimeout
  | ExecSuccess _ =>
      exists e, submitted w0 w' = [e] /\ the_transfer payment_data w0 e
  end.

(** The receipt of a successful execution names the transfer that was
    submitted. *)
Definition receipt_matches (payment_data : PaymentData) (w0 : World)
    (result : ExecResult) (w' : World) : Prop :=
  forall r, result = ExecSuccess r ->
    submitted w0 w'
    = [EvTransfer (transfer_asset payment_data) (rc_recipient_wallet r)
                  (pd_amount payment_data)]
    /\ rc_amount r = pd_amount payment_data
    /\ rc_token r = pd_token payment_data
    /\ rc_recipient_username r = pd_recipient_username payment_data.

(** Both facts about the end of an execution. *)
Definition accounted `{Environment} (payment_data : PaymentData) (w0 : World)
    (result : ExecResult) (w' : World) : Prop :=
  stage payment_data w0 result w' /\ receipt_matches payment_data w0 result w'.

End Stages.

(* ===================================================================== *)
(** * The re-check of the recipient's balance                            *)
(* ===================================================================== *)

Module Rechecks.
Import Py Store Services.

(** [get_sol_balance] has no caller but the two re-checks of the
    recipient's wallet (step 7.5 of [_send_payment] and step 2 of
    [execute_payment_secure]): its call is the re-check. *)
Definition is_recheck (e : Event) : bool :=
  match e with
  | EvGetSolBalance _ => true
  | _ => false
  end.

Definition not_recheck (e : Event) : bool := negb (is_recheck e).

End Rechecks.

(* ===================================================================== *)
(** * database.py: registration                                          *)
(* ===================================================================== *)

Module Accounts.
Import Py Store Database.
Local Open Scope monad_scope.

(** [user_data] of [create_user]: an identity without a wallet, with an
    empty history. *)
Definition new_user_doc (id : Z) (normalized_username : option string) (t : Z)
  : UserDoc :=
  {| telegram_id := Some id;
     username := normalized_username;
     wallet_address := None;
     encrypted_private_key := None;
     wallet_type := None;
     wallet_created_at := None;
     last_updated := Some t;
     pending_wallet_address := None;
     pending_private_key := None;
     pending_notifications := [];
     transactions := [];
     total_payments_sent := 0;
     total_payments_received := 0 |}.

(** [create_user(telegram_id, username)]: the inserted document, or on
    [DuplicateKeyError] whatever [get_user] finds for the identity. *)
Definition create_user (id : Z) (username : option string) : M (option UserDoc) :=
  let normalized_username :=
    if truthy_str username
    then Some (normalize_username (default EmptyString username))
    else None in
  t <- now ;;
  let user_data := new_user_doc id normalized_username t in
  inserted <- insert_one "create_user" user_data ;;
  match inserted with
  | Returned _ => ret (Some user_data)
  | Raised _ => get_user id
  end.

(** The [$set] of [clear_pending_notifications]. *)
Definition set_no_notifications (d : UserDoc) : UserDoc :=
  {| telegram_id := telegram_id d;
     username := username d;
     wallet_address := wallet_address d;
     encrypted_private_key := encrypted_private_key d;
     wallet_type := wallet_type d;
     wallet_created_at := wallet_created_at d;
     last_updated := last_updated d;
     pending_wallet_address := pending_wallet_address d;
     pending_private_key := pending_private_key d;
     pending_notifications := [];
     transactions := transactions d;
     total_payments_sent := total_payments_sent d;
     total_payments_received := total_payments_received d |}.

(** [clear_pending_notifications(telegram_id)] *)
Definition clear_pending_notifications (id : Z) : M bool :=
  result <- update_one "clear_pending_notifications" (by_telegram_id id)
              set_no_notifications ;;
  ret (0 <? modified_count result)%nat.

End Accounts.

(* ===================================================================== *)
(** * Reading the collection                                             *)
(* ===================================================================== *)

Module Books.
Import Py Store Database Services AiHandler BotHandlers.

(** A computation that keeps a property of the collection. *)
Definition stable {A} (J : list UserDoc -> Prop) (c : M A) : Prop :=
  forall w, J (users w) -> J (users (snd (c w))).

(** A document whose history only grew: every transaction is still
    there, and the counter of payments sent is the same. *)
Definition grown (before after : UserDoc) : Prop :=
  total_payments_sent after = total_payments_sent before
  /\ forall tx, In tx (transactions before) -> In tx (transactions after).

(** The identity [id] has a document that grew from [before]. *)
Definition still_there (id : Z) (before : UserDoc) (c : list UserDoc) : Prop :=
  exists after, List.find (by_telegram_id id) c = Some after /\ grown before after.

(** The outgoing entry that a confirmed execution of [payment_data]
    writes in the sender's history. *)
Definition outgoing_entry (payment_data : PaymentData) (signature : string)
    (tx : Transaction) : Prop :=
  tx_signature tx = signature
  /\ tx_type tx = "outgoing_payment"
  /\ tx_amount tx = pd_amount payment_data
  /\ tx_token tx = pd_token payment_data
  /\ tx_recipient_username tx = pd_recipient_username payment_data
  /\ tx_network_fee tx = pd_network_fee payment_data
  /\ tx_status tx = "confirmed".

(** The identity [id] has a document with one more payment sent than
    [before], and with [tx] in its history. *)
Definition recorded (id : Z) (before : UserDoc) (tx : Transaction)
    (c : list UserDoc) : Prop :=
  exists after,
    List.find (by_telegram_id id) c = Some after
    /\ total_payments_sent after = (total_payments_sent before + 1)%Z
    /\ In tx (transactions after)
    /\ forall old, In old (transactions before) -> In old (transactions after).

(** The identity [id] has a document that holds the wallet [address]
    with the encrypted key [token]. *)
Definition holds_wallet (id : Z) (address token : string) (c : list UserDoc) : Prop :=
  exists d,
    List.find (by_telegram_id id) c = Some d
    /\ wallet_address d = Some address
    /\ encrypted_private_key d = Some token.

(** The incoming entry that a confirmed execution of [payment_data]
    writes in the recipient's history. *)
Definition incoming_entry (payment_data : PaymentData) (signature : string)
    (tx : Transaction) : Prop :=
  tx_signature tx = signature
  /\ tx_type tx = "incoming_payment"
  /\ tx_amount tx = pd_amount payment_data
  /\ tx_token tx = pd_token payment_data
  /\ tx_status tx = "confirmed".

(** The identity [id] has a document with [received] payments received,
    with the notifications [notes], and with every transaction of
    [txs] in its history. *)
Definition ledger (id : Z) (received : Z) (notes : list Notification)
    (txs : list Transaction) (c : list UserDoc) : Prop :=
  exists d,
    List.find (by_telegram_id id) c = Some d
    /\ total_payments_received d = received
    /\ pending_notifications d = notes
    /\ forall tx, In tx txs -> In tx (transactions d).

(** The handle has an unclaimed document with the pending wallet
    [address], the pending key [token] and the notifications [notes]. *)
Definition pending_record (handle : string) (address token : option string)
    (notes : list Notification) (c : list UserDoc) : Prop :=
  exists d,
    List.find (by_unclaimed_username handle) c = Some d
    /\ pending_wallet_address d = address
    /\ pending_private_key d = token
    /\ pending_notifications d = notes.

End Books.

(* ===================================================================== *)
(** * From a payment to an unregistered handle to its claim              *)
(* ===================================================================== *)

Module Handover.
Import Py Store Database Services AiHandler BotHandlers.

(** A document that does not stand in the way of a pending record for
    [handle] and of its claim by [id]: it has another handle, it has an
    identity (the index on [telegram_id] admits one document without),
    and its identity is not [id]. *)
Definition clear_of (handle : string) (id : Z) (d : UserDoc) : Prop :=
  username d <> Some handle /\ telegram_id d <> None /\ telegram_id d <> Some id.

(** The notification that a confirmed execution queues. *)
Definition announces (payment_data : PaymentData) (signature : string)
    (note : Notification) : Prop :=
  n_type note = "payment_received"
  /\ n_amount note = pd_amount payment_data
  /\ n_token note = pd_token payment_data
  /\ n_signature note = signature.

(** The collection ends with the pending record of a wallet: the
    documents before it are clear, and the record holds the address, the
    key encrypted under the handle-derived cipher, and one notification. *)
Definition holds_pending `{Secrets} `{CryptoLib} (handle : string) (id : Z)
    (address private_key : string) (note : Notification) (c : list UserDoc) : Prop :=
  exists others iv t t',
    c = (others ++
         [pending_user_doc handle address
            (fernet_encrypt (derive_key_from_telegram_id (username_hash handle))
                            iv t private_key)
            note t'])%list
    /\ Forall (clear_of handle id) others.

(** A collection in which a pending record for [handle] cannot be
    inserted: it has no document of that handle, and it holds a document
    without identity (the pending wallet of another handle), which the
    unique index on [telegram_id] admits once. *)
Definition crowded (handle : string) (c : list UserDoc) : Prop :=
  Forall (fun d => username d <> Some handle) c
  /\ Exists (fun d => telegram_id d = None) c.

End Handover.

(* ===================================================================== *)
(** * core/bot_handlers.py: /start and /createwallet                     *)
(* ===================================================================== *)

Module Commands.
Import Py Store Database Services Accounts.

(** [update.effective_user]: the platform gives every account an id and
    a first name; the username is optional. *)
Record TelegramUser := {
  user_id : Z;
  user_username : option string;
  user_first_name : string
}.

(** [user.username or user.first_name or "User"] *)
Definition display_name (user : TelegramUser) : string :=
  if truthy_str (user_username user) then default EmptyString (user_username user)
  else if truthy_str (Some (user_first_name user)) then user_first_name user
  else "User".

(** [update.effective_user.username or update.effective_user.first_name] *)
Definition username_or_first_name (user : TelegramUser) : string :=
  if truthy_str (user_username user) then default EmptyString (user_username user)
  else user_first_name user.

(** The dict of [get_user_statistics], with the two counters that
    [UserDoc] keeps. *)
Record Statistics := {
  st_total_payments_sent : Z;
  st_total_payments_received : Z
}.

(** [get_user_statistics(telegram_id)]; [None] is the empty dict that an
    unknown identity gets, in which every lookup raises. *)
Definition get_user_statistics (id : Z) : M (option Statistics) :=
  Store.bind (get_user id) (fun user =>
  Store.ret match user with
            | None => None
            | Some u =>
                Some {| st_total_payments_sent := total_payments_sent u;
                        st_total_payments_received := total_payments_received u |}
            end).

(** The messages of the two commands, one constructor per text, with the
    values that the text interpolates.  The statistics line of the
    welcome-back text shows counters (swaps, volume, channels) that
    [UserDoc] does not keep; it is not part of the text here. *)
Inductive CommandText :=
| TxtWalletSetUp (username : string) (wallet_address : option string)
                 (private_key : string)
| TxtYouReceived (notif : Notification)
| TxtWelcome (username : string)
| TxtWelcomeBack (username : string) (wallet_address : option string)
| TxtStartError
| TxtAlreadyConnected
| TxtAlreadyCreated (wallet_address : option string) (private_key : string)
| TxtCreatingWallet
| TxtWalletReady (address private_key : string)
| TxtErrorSaving
| TxtErrorCreating (error : string)
| TxtFailedToCreate.

(** The wallet and the private key that a text shows, if it shows
    them. *)
Definition wallet_shown (text : CommandText) : option (option string * string) :=
  match text with
  | TxtWalletSetUp _ wallet_address private_key
  | TxtAlreadyCreated wallet_address private_key => Some (wallet_address, private_key)
  | TxtWalletReady address private_key => Some (Some address, private_key)
  | _ => None
  end.

(** The chat platform: whether [update.message.reply_text] goes through
    for a given text (the call raises otherwise). *)
Class Messenger := {
  reply_text_ok : CommandText -> bool
}.

(** The store and the messages that reached the chat. *)
Record Chat := {
  store : World;
  replies : list CommandText
}.

(** What a run has added to the chat. *)
Definition said (before after : Chat) : list CommandText :=
  drop (length (replies before)) (replies after).

(** A step of a handler: its value, or [None] where it raises. *)
Definition H (A : Type) : Type := Chat -> option A * Chat.

Definition done {A} (a : A) : H A := fun c => (Some a, c).

Definition raise {A} : H A := fun c => (None, c).

Definition and_then {A B} (h : H A) (k : A -> H B) : H B :=
  fun c => match h c with
           | (Some a, c') => k a c'
           | (None, c') => (None, c')
           end.

(** [try: body except Exception: handler] *)
Definition try_except {A} (body handler : H A) : H A :=
  fun c => match body c with
           | (Some a, c') => (Some a, c')
           | (None, c') => handler c'
           end.

(** A call of [self.db] or of [self.wallet_manager]. *)
Definition call {A} (m : M A) : H A :=
  fun c => let (a, w) := m (store c) in
           (Some a, {| store := w; replies := replies c |}).

(** [await update.message.reply_text(text)] *)
Definition reply_text `{Messenger} (text : CommandText) : H unit :=
  fun c => if reply_text_ok text
           then (Some tt, {| store := store c; replies := replies c ++ [text] |})
           else (None, c).

Declare Scope handler_scope.
Delimit Scope handler_scope with handler.
Notation "x <- c ;; k" := (and_then c (fun x => k))
  (at level 100, c at next level, right associativity) : handler_scope.
Notation "c ;;; k" := (and_then c (fun _ => k))
  (at level 100, right associativity) : handler_scope.
Local Open Scope handler_scope.

(** The loop of [start_command] over the claimed notifications:
    [html.escape] raises on a sender without a username. *)
Fixpoint send_notifications `{Messenger} (notifications : list Notification) : H unit :=
  match notifications with
  | [] => done tt
  | notif :: rest =>
      (if String.eqb (n_type notif) "payment_received"
       then match n_sender_username notif with
            | Some _ => reply_text (TxtYouReceived notif)
            | None => raise
            end
       else done tt) ;;;
      send_notifications rest
  end.

(** [start_command(update, context)] *)
Definition start_command `{Secrets} `{CryptoLib} `{Messenger}
    (user : TelegramUser) : H unit :=
  try_except
    (let telegram_id := user_id user in
     let username := normalize_username (display_name user) in
     claim_result <- call (claim_pending_wallet telegram_id username) ;;
     match claim_result with
     | ClaimSuccess wallet_address private_key notifications =>
         reply_text (TxtWalletSetUp username wallet_address private_key) ;;;
         send_notifications notifications
     | ClaimFailed _ =>
         db_user <- call (get_user telegram_id) ;;
         db_user <- match db_user with
                    | Some _ => done db_user
                    | None =>
                        call (create_user telegram_id (Some username)) ;;;
                        call (get_user telegram_id)
                    end ;;
         has_wallet <- call (user_has_wallet telegram_id) ;;
         if negb has_wallet then reply_text (TxtWelcome username)
         else
           match db_user with
           | None => raise
           | Some u =>
               stats <- call (get_user_statistics telegram_id) ;;
               match stats with
               | None => raise
               | Some _ => reply_text (TxtWelcomeBack username (wallet_address u))
               end
           end
     end)
    (reply_text TxtStartError).

(** [create_wallet_command(update, context)] *)
Definition create_wallet_command `{Secrets} `{CryptoLib} `{Environment} `{Messenger}
    (user : TelegramUser) : H unit :=
  try_except
    (let telegram_id := user_id user in
     has_wallet <- call (user_has_wallet telegram_id) ;;
     if has_wallet then reply_text TxtAlreadyConnected
     else
       let username := username_or_first_name user in
       claim_result <- call (claim_pending_wallet telegram_id username) ;;
       match claim_result with
       | ClaimSuccess wallet_address private_key _ =>
           reply_text (TxtAlreadyCreated wallet_address private_key)
       | ClaimFailed _ =>
           reply_text TxtCreatingWallet ;;;
           wallet_data <- call create_new_wallet ;;
           match wallet_data with
           | WalletCreated address private_key =>
               db_user <- call (get_user telegram_id) ;;
               match db_user with
               | Some _ => done tt
               | None =>
                   let username := normalize_username (display_name user) in
                   call (create_user telegram_id (Some username)) ;;; done tt
               end ;;;
               success <- call (save_wallet telegram_id address private_key "created") ;;
               if success then reply_text (TxtWalletReady address private_key)
               else reply_text TxtErrorSaving
           | WalletError error => reply_text (TxtErrorCreating error)
           end
       end)
    (reply_text TxtFailedToCreate).

(** What holds of the value and of the chat in which a handler ends. *)
Definition hwp {A} (h : H A) (Q : option A -> Chat -> Prop) (c : Chat) : Prop :=
  Q (fst (h c)) (snd (h c)).

End Commands.

(* ===================================================================== *)
(** * core/bot_handlers.py: the masked phone number                      *)
(* ===================================================================== *)

Module Phone.

(** The characters that stay readable in front: [3 if len(phone_number) > 12 else 2]. *)
Definition country_code_end (n : nat) : nat :=
  if (12 <? n)%nat then 3%nat else 2%nat.

(** [_mask_phone_number(phone_number)], a [str] as the list of its
    characters. *)
Definition _mask_phone_number (phone_number : list ascii) : list ascii :=
  let n := length phone_number in
  if (n <=? 6)%nat then phone_number
  else
    (take (country_code_end n) phone_number
     ++ replicate (n - country_code_end n - 4) "X"%char
     ++ drop (n - 4) phone_number)%list.

End Phone.

(* ===================================================================== *)
(** * services/alchemy_transfer.py: reading a status response            *)
(* ===================================================================== *)

Module Rpc.
Import Py Store Services.

(** A value of [response.json()]; a dict as the list of its items. *)
#[warnings="-register-all"]
Inductive Json :=
| JNull
| JBool (b : bool)
| JInt (z : Z)
| JFloat (x : float)
| JStr (s : string)
| JList (elements : list Json)
| JDict (items : list (string * Json)).

(** [d.get(key)] on the items of a dict; [None] for a missing key. *)
Fixpoint dict_get (key : string) (items : list (string * Json)) : option Json :=
  match items with
  | [] => None
  | (k, v) :: rest => if String.eqb k key then Some v else dict_get key rest
  end.

(** [bool(v)] *)
Definition truthy (v : Json) : bool :=
  match v with
  | JNull => false
  | JBool b => b
  | JInt z => negb (z =? 0)%Z
  | JFloat x => negb (x =? 0)%float
  | JStr EmptyString | JList [] | JDict [] => false
  | JStr _ | JList _ | JDict _ => true
  end.

(** [v in ["confirmed", "finalized"]] for the value of a [.get]. *)
Definition is_confirmation (v : option Json) : bool :=
  match v with
  | Some (JStr s) => String.eqb s "confirmed" || String.eqb s "finalized"
  | _ => false
  end.

(** [get_transaction_status] from the parsed response on.  [None] is a
    request or a [response.json()] that raises.  Every lookup that
    raises, on a value that is not a dict or not a list where one is
    expected, ends in the [except] clause; a response that is not a dict
    answers "error" on either branch of the ["error" in data] test. *)
Definition status_of_response (data : option Json) : TxStatus :=
  match data with
  | Some (JDict d) =>
      match dict_get "error" d with
      | Some _ => st_error
      | None =>
          match default (JDict []) (dict_get "result" d) with
          | JDict r =>
              let result := default (JList []) (dict_get "value" r) in
              if negb (truthy result) then st_pending
              else
                match result with
                | JList (JNull :: _) => st_pending
                | JList (JDict status_info :: _) =>
                    if truthy (default JNull (dict_get "err" status_info))
                    then st_failed
                    else if is_confirmation (dict_get "confirmationStatus" status_info)
                    then st_confirmed
                    else st_pending
                | _ => st_error
                end
          | _ => st_error
          end
      end
  | _ => st_error
  end.

(** A response that reports the transaction at the commitment
    "confirmed" or "finalized", with no error. *)
Definition confirms (data : option Json) : Prop :=
  exists d r status_info rest s,
    data = Some (JDict d)
    /\ dict_get "error" d = None
    /\ dict_get "result" d = Some (JDict r)
    /\ dict_get "value" r = Some (JList (JDict status_info :: rest))
    /\ truthy (default JNull (dict_get "err" status_info)) = false
    /\ dict_get "confirmationStatus" status_info = Some (JStr s)
    /\ (s = "confirmed" \/ s = "finalized").

(** A response that reports an error of the transaction. *)
Definition reports_failure (data : option Json) : Prop :=
  exists d r status_info rest,
    data = Some (JDict d)
    /\ dict_get "error" d = None
    /\ dict_get "result" d = Some (JDict r)
    /\ dict_get "value" r = Some (JList (JDict status_info :: rest))
    /\ truthy (default JNull (dict_get "err" status_info)) = true.

(** The node behind [environment], with its answers to
    [getSignatureStatuses] given as responses. *)
Definition reading (environment : Environment)
    (responses : string -> nat -> option Json) : Environment :=
  {| rpc_sol_balance := @rpc_sol_balance environment;
     rpc_wallet_balances := @rpc_wallet_balances environment;
     rpc_sol_transfer := @rpc_sol_transfer environment;
     rpc_spl_transfer := @rpc_spl_transfer environment;
     rpc_transaction_status := fun signature attempt =>
       status_of_response (responses signature attempt);
     keypair_generate := @keypair_generate environment;
     python_float := @python_float environment |}.

End Rpc.

(* ===================================================================== *)
(** * Further scenarios: payees and commands                             *)
(* ===================================================================== *)

Module FurtherScenarios.
Import Py Store Database Services AiHandler BotHandlers Commands Scenario.

(** The chat platform when every reply goes through. *)
#[export] Instance replies_pass : Messenger := {|
  reply_text_ok := fun _ => true
|}.

(** The chat platform when only "Processing payment..." goes through:
    editing the quote message and sending a new one both raise for every
    other text. *)
Definition chat_drops_reports : Telegram := {|
  edit_message_text_ok := fun text =>
    match text with TxtProcessing => true | _ => false end;
  send_message_ok := fun text =>
    match text with TxtProcessing => true | _ => false end
|}.

(** An account without a username, whose first name is Dave. *)
Definition dave_by_first_name : TelegramUser :=
  {| user_id := 9; user_username := None; user_first_name := "Dave" |}.

(** The store after alice's payment of 1 SOL to the unknown handle dave
    has been confirmed. *)
Definition paid_world : World :=
  snd (@execute_payment_secure secrets tagging prompt_network 1 pd_dave
         (world_of [alice; bob])).

(** The notification of that payment. *)
Definition dave_note : Notification :=
  {| n_type := "payment_received"; n_amount := 1%float; n_token := "SOL";
     n_sender_username := Some "alice"; n_sender_wallet := Some "AliceWallet";
     n_signature := "sig-1"; n_timestamp := 103 |}.

(** The accounts of alice, who has a wallet, and of frank, who is new. *)
Definition alice_account : TelegramUser :=
  {| user_id := 1; user_username := Some "Alice"; user_first_name := "Alice" |}.

Definition frank_account : TelegramUser :=
  {| user_id := 6; user_username := Some "Frank"; user_first_name := "Frank" |}.

(** A preview for 1 SOL to the active handle bob. *)
Definition pd_bob : PaymentData :=
  {| pd_recipient_username := "bob"; pd_recipient_wallet := Some "BobWallet";
     pd_recipient_status := active; pd_recipient_telegram_id := Some 2%Z;
     pd_amount := 1%float; pd_token := "SOL"; pd_token_mint := Config.SOL_MINT;
     pd_token_decimals := 9; pd_network_fee := 0.000005%float;
     pd_needs_wallet_creation := false;
     pd_sender_username := Some "alice"; pd_sender_wallet := Some "AliceWallet" |}.

(** A preview for 0.0005 USDC to the active handle bob. *)
Definition pd_bob_usdc : PaymentData :=
  {| pd_recipient_username := "bob"; pd_recipient_wallet := Some "BobWallet";
     pd_recipient_status := active; pd_recipient_telegram_id := Some 2%Z;
     pd_amount := 0.0005%float; pd_token := "USDC"; pd_token_mint := Config.USDC_MINT;
     pd_token_decimals := 6; pd_network_fee := 0.000005%float;
     pd_needs_wallet_creation := false;
     pd_sender_username := Some "alice"; pd_sender_wallet := Some "AliceWallet" |}.

(** A preview for 1 SOL to the handle carol, whose wallet is pending. *)
Definition pd_carol : PaymentData :=
  {| pd_recipient_username := "carol"; pd_recipient_wallet := Some "CarolWallet";
     pd_recipient_status := pending_wallet; pd_recipient_telegram_id := None;
     pd_amount := 1%float; pd_token := "SOL"; pd_token_mint := Config.SOL_MINT;
     pd_token_decimals := 9; pd_network_fee := 0.000005%float;
     pd_needs_wallet_creation := false;
     pd_sender_username := Some "alice"; pd_sender_wallet := Some "AliceWallet" |}.

(** A node that answers the first two status queries with an empty
    status and the later ones with a finalized one. *)
Definition slow_responses (signature : string) (attempt : nat) : option Rpc.Json :=
  Some (Rpc.JDict [("result",
    Rpc.JDict [("value",
      Rpc.JList [if (attempt <? 2)%nat then Rpc.JNull
                 else Rpc.JDict [("err", Rpc.JNull);
                                 ("confirmationStatus", Rpc.JStr "finalized")]])])]).

End FurtherScenarios.

(* ===================================================================== *)
(** * Properties                                                         *)
(* ===================================================================== *)

(** ** Comparisons of binary64 numbers *)

Section FloatOrder.

Lemma SFcompare_antisym (a b : spec_float) :
  SFcompare b a = option_map CompOpp (SFcompare a b).
Proof.
  destruct a as [sa | sa | | sa ma ea], b as [sb | sb | | sb mb eb];
    cbn [SFcompare option_map]; try reflexivity;
    try (destruct sa; reflexivity); try (destruct sb; reflexivity);
    try (destruct sa, sb; reflexivity).
  assert (He : (eb ?= ea)%Z = CompOpp (ea ?= eb)%Z)
    by apply Z.compare_antisym.
  assert (Hm : PosDef.Pos.compare_cont Eq mb ma
               = CompOpp (PosDef.Pos.compare_cont Eq ma mb))
    by apply (Pos.compare_antisym ma mb).
  rewrite He, Hm.
  destruct sa, sb, (ea ?= eb)%Z, (PosDef.Pos.compare_cont Eq ma mb); reflexivity.
Qed.

Lemma is_number_comparable (x y : float) :
  Py.is_number x = true -> Py.is_number y = true ->
  exists c, SFcompare (Prim2SF x) (Prim2SF y) = Some c.
Proof.
  unfold Py.is_number. rewrite !FloatAxioms.eqb_spec. unfold SFeqb.
  destruct (Prim2SF x) as [sa | sa | | sa ma ea], (Prim2SF y) as [sb | sb | | sb mb eb];
    cbn [SFcompare]; intros Hx Hy; try discriminate; eauto.
Qed.

(** On numbers, [x < y] is the negation of [y <= x]. *)
Lemma ltb_negb_leb (x y : float) :
  Py.is_number x = true -> Py.is_number y = true ->
  (x <? y)%float = negb (y <=? x)%float.
Proof.
  intros Hx Hy. destruct (is_number_comparable x y Hx Hy) as [c Hc].
  rewrite FloatAxioms.ltb_spec, FloatAxioms.leb_spec. unfold SFltb, SFleb.
  rewrite (SFcompare_antisym (Prim2SF x) (Prim2SF y)), Hc.
  destruct c; reflexivity.
Qed.

End FloatOrder.

(** ** Fee estimation *)

Section FeeEstimation.
Import Config FeeEstimator.

(** C9. For the native asset, the estimate with account creation minus
    the estimate without it is the rent-exemption constant, exactly, in
    binary64 arithmetic. *)
Theorem rent_exemption_is_the_fee_difference :
  (_estimate_network_fee true "SOL" - _estimate_network_fee false "SOL")%float
  = RENT_EXEMPTION_FEE.
Proof. vm_compute. reflexivity. Qed.

(** The two estimates themselves. *)
Lemma estimate_native_without_creation :
  _estimate_network_fee false "SOL" = BASE_TRANSACTION_FEE.
Proof. reflexivity. Qed.

Lemma estimate_native_with_creation :
  _estimate_network_fee true "SOL"
  = (BASE_TRANSACTION_FEE + RENT_EXEMPTION_FEE)%float.
Proof. reflexivity. Qed.

End FeeEstimation.

(** ** Sender balance validation *)

Section BalanceValidation.
Import Py Store Database Services AiHandler Requirements.
Context `{Environment}.

(** The check on a sender with a wallet and numeric quantities. *)
Lemma check_with_wallet
    (id : Z) (amount : float) (token : string) (network_fee : float)
    (w : World) (u : UserDoc) :
  List.find (by_telegram_id id) (users w) = Some u ->
  truthy_str (wallet_address u) = true ->
  let balances := rpc_wallet_balances (default EmptyString (wallet_address u)) in
  is_number amount = true ->
  is_number network_fee = true ->
  is_number (amount + network_fee)%float = true ->
  is_number (balance_of balances "SOL") = true ->
  is_number (balance_of balances token) = true ->
  let r := fst (_check_payment_balance id amount token network_fee w) in
  (r = None <-> funds_suffice balances amount token network_fee = true)
  /\ (r = None \/ exists e, r = Some e /\ is_insufficient_funds e = true).
Proof.
  intros Hfind Hwallet balances Ha Hf Hsum Hsol Htok r.
  subst r. unfold _check_payment_balance, get_user, find_one, get_users,
    _get_wallet_balance_alchemy, emit, bind, ret, funds_suffice.
  cbn. rewrite Hfind, Hwallet. cbn. fold balances.
  destruct (String.eqb token "SOL").
  - rewrite (ltb_negb_leb _ _ Hsol Hsum).
    destruct (amount + network_fee <=? balance_of balances "SOL")%float; cbn.
    + split; [tauto | now left].
    + split; [split; discriminate | right; eexists; split; reflexivity].
  - rewrite (ltb_negb_leb _ _ Htok Ha), (ltb_negb_leb _ _ Hsol Hf).
    destruct (amount <=? balance_of balances token)%float; cbn.
    + destruct (network_fee <=? balance_of balances "SOL")%float; cbn.
      * split; [tauto | now left].
      * split; [split; discriminate | right; eexists; split; reflexivity].
    + split; [split; discriminate | right; eexists; split; reflexivity].
Qed.

(** The check on a sender that is unknown or has no wallet: the guard
    answers before any balance is read. *)
Lemma check_without_wallet
    (id : Z) (amount : float) (token : string) (network_fee : float) (w : World) :
  (forall u, List.find (by_telegram_id id) (users w) = Some u ->
             truthy_str (wallet_address u) = false) ->
  _check_payment_balance id amount token network_fee w = (Some ErrWalletNotFound, w).
Proof.
  intros Hnone.
  unfold _check_payment_balance, get_user, find_one, get_users, bind, ret.
  cbn. destruct (List.find (by_telegram_id id) (users w)) as [u|]; [|reflexivity].
  now rewrite (Hnone u eq_refl).
Qed.

(** C6, amended. For a sender with a wallet and numeric (non-NaN)
    amount, fee and balances, the balance check succeeds exactly when
    the funds suffice: native balance at least amount plus fee for SOL;
    token balance at least the amount and native balance at least the
    fee for a token; every other answer is an insufficient-funds error.
    For a sender that is unknown or has no wallet, the check answers
    "Wallet not found" whatever the amount and the fee, and reads no
    balance. *)
Theorem check_payment_balance_exact
    (id : Z) (amount : float) (token : string) (network_fee : float) (w : World) :
  let out := _check_payment_balance id amount token network_fee w in
  (forall u,
     List.find (by_telegram_id id) (users w) = Some u ->
     truthy_str (wallet_address u) = true ->
     let balances := rpc_wallet_balances (default EmptyString (wallet_address u)) in
     is_number amount = true ->
     is_number network_fee = true ->
     is_number (amount + network_fee)%float = true ->
     is_number (balance_of balances "SOL") = true ->
     is_number (balance_of balances token) = true ->
     (fst out = None <-> funds_suffice balances amount token network_fee = true)
     /\ (fst out = None \/ exists e, fst out = Some e /\ is_insufficient_funds e = true))
  /\ ((forall u, List.find (by_telegram_id id) (users w) = Some u ->
                 truthy_str (wallet_address u) = false) ->
      fst out = Some ErrWalletNotFound
      /\ is_insufficient_funds ErrWalletNotFound = false
      /\ snd out = w).
Proof.
  intros out. subst out. split.
  - intros u Hfind Hwallet balances Ha Hf Hsum Hsol Htok.
    exact (check_with_wallet id amount token network_fee w u Hfind Hwallet
             Ha Hf Hsum Hsol Htok).
  - intros Hnone.
    rewrite (check_without_wallet id amount token network_fee w Hnone).
    repeat split.
Qed.

End BalanceValidation.

Section BalanceValidationWitness.
Import Py Store Database Services AiHandler Requirements Scenario.

Lemma check_payment_balance_exact_witness :
  let w := world_of [alice; erin] in
  let balances := rpc_wallet_balances "AliceWallet" in
  let r := fst (_check_payment_balance 1 1%float "SOL" 0.00095%float w) in
  (List.find (by_telegram_id 1) (users w) = Some alice
   /\ truthy_str (wallet_address alice) = true
   /\ is_number (1 + 0.00095)%float = true
   /\ is_number (balance_of balances "SOL") = true)
  /\ (r = None <-> funds_suffice balances 1%float "SOL" 0.00095%float = true)
  /\ (r = None \/ exists e, r = Some e /\ is_insufficient_funds e = true)
  /\ fst (_check_payment_balance 3 1%float "SOL" 0.00095%float w)
     = Some ErrWalletNotFound.
Proof.
  split; [repeat split; vm_compute; reflexivity|].
  destruct (check_payment_balance_exact 1 1%float "SOL" 0.00095%float
              (world_of [alice; erin])) as (Hrule & _).
  destruct (check_payment_balance_exact 3 1%float "SOL" 0.00095%float
              (world_of [alice; erin])) as (_ & Hguard).
  destruct (Hrule alice) as (Hexact & Hother); try (vm_compute; reflexivity).
  destruct Hguard as (Hanswer & _).
  { intros u. vm_compute. now intros [= <-]. }
  split; [exact Hexact|]. split; [exact Hother | exact Hanswer].
Defined.

(** C6 as stated fails. erin is registered and has no wallet: her check
    for 1 SOL is refused, but with "Wallet not found", which is not an
    insufficient-funds error. And a NaN amount is outside the rule
    altogether: every comparison with NaN is false, so alice's check
    answers it as covered although the funds do not suffice for it. *)
Lemma check_payment_balance_outside_the_rule :
  let w := world_of [alice; erin] in
  (List.find (by_telegram_id 3) (users w) = Some erin
   /\ fst (_check_payment_balance 3 1%float "SOL" 0.00095%float w)
      = Some ErrWalletNotFound
   /\ is_insufficient_funds ErrWalletNotFound = false)
  /\ (fst (_check_payment_balance 1 PrimFloat.nan "SOL" 0.00095%float w) = None
      /\ funds_suffice (rpc_wallet_balances "AliceWallet") PrimFloat.nan "SOL"
           0.00095%float = false).
Proof. repeat split; vm_compute; reflexivity. Qed.

End BalanceValidationWitness.

(** ** Handles *)

Section Handles.
Import Py.

Lemma lower_ascii_idem (c : ascii) : lower_ascii (lower_ascii c) = lower_ascii c.
Proof. destruct c as [[] [] [] [] [] [] [] []]; vm_compute; reflexivity. Qed.

Lemma lower_idem (s : string) : lower (lower s) = lower s.
Proof.
  induction s as [|c r IH]; cbn [lower]; [reflexivity|].
  now rewrite lower_ascii_idem, IH.
Qed.

Lemma lstrip_at_lower (s : string) : lstrip_at (lower s) = lower (lstrip_at s).
Proof.
  induction s as [|c r IH]; [reflexivity|].
  destruct c as [[] [] [] [] [] [] [] []]; try reflexivity.
  exact IH.
Qed.

Lemma lstrip_at_idem (s : string) : lstrip_at (lstrip_at s) = lstrip_at s.
Proof.
  induction s as [|c r IH]; [reflexivity|].
  destruct c as [[] [] [] [] [] [] [] []]; try reflexivity.
  exact IH.
Qed.

(** Normalising a handle twice is normalising it once:
    [get_user_by_username] may be given a handle that the caller has
    normalised already. *)
Lemma normalize_username_idem (s : string) :
  normalize_username (normalize_username s) = normalize_username s.
Proof.
  unfold normalize_username.
  now rewrite lstrip_at_lower, lower_idem, lstrip_at_idem.
Qed.

End Handles.

(** ** Characters and white space *)

Section Characters.
Import Py.

(** The characters of a text, joined, are the text. *)
Lemma join_characters (s : string) : join (characters s) = s.
Proof.
  induction s as [|c r IH]; [reflexivity|].
  cbn [characters]. destruct r as [|d r']; [reflexivity|].
  destruct (is_continuation d).
  - destruct (characters (String d r')) as [|h t]; [discriminate IH|].
    change (String c (join (h :: t)) = String c (String d r')).
    now rewrite IH.
  - change (String c (join (characters (String d r'))) = String c (String d r')).
    now rewrite IH.
Qed.

(** White space is dropped at both ends and kept inside. The second
    text is a no-break space (U+00A0), "k", an e with acute accent
    (U+00E9), and an em space (U+2003): two characters are left, in
    three bytes. *)
Example strip_keeps_the_inside :
  strip "  ab c   " = "ab c"
  /\ strip (String "194" (String "160" (String "k" (String "195" (String "169"
              (String "226" (String "128" (String "131" EmptyString))))))))
     = String "k" (String "195" (String "169" EmptyString))
  /\ len (String "k" (String "195" (String "169" EmptyString))) = 2%nat.
Proof. repeat split; vm_compute; reflexivity. Qed.

End Characters.

(** ** Payment preview: validation before any submission *)

Section PaymentPreview.
Import Py Config Store Database Services AiHandler FeeEstimator Requirements.
Context `{Environment}.

(** The balance check reads the store and asks the balance oracle; it
    writes nothing. *)
Lemma check_payment_balance_world
    (id : Z) (amount : float) (token : string) (network_fee : float) (w : World) :
  let w' := snd (_check_payment_balance id amount token network_fee w) in
  users w' = users w /\ exists extra, trace w' = (trace w ++ extra)%list.
Proof.
  unfold _check_payment_balance, get_user, find_one, get_users,
    _get_wallet_balance_alchemy, emit, bind, ret.
  cbn. destruct (List.find (by_telegram_id id) (users w)) as [u|].
  2:{ cbn. split; [reflexivity | exists []; now rewrite app_nil_r]. }
  destruct (truthy_str (wallet_address u)); cbn.
  2:{ split; [reflexivity | exists []; now rewrite app_nil_r]. }
  destruct (String.eqb token "SOL").
  - destruct (_ <? _)%float; cbn; eauto.
  - destruct (_ <? _)%float; cbn; eauto.
    destruct (_ <? _)%float; cbn; eauto.
Qed.

(** C8. A native-asset payment below the new-account floor to a handle
    with no record is rejected, and the world is left as it was: no call
    reached the network and nothing was written. When the amount is
    positive and the sender has a wallet, the rejection is the
    minimum-transfer (recipient funding) error. *)
Theorem new_handle_below_floor_rejected
    (id : Z) (recipient_username amount token : string) (w : World) (a : float) :
  upper token = "SOL" ->
  python_float amount = Some a ->
  (a <? MINIMUM_SOL_TRANSFER_NEW_USER)%float = true ->
  List.find (by_username (normalize_username recipient_username)) (users w) = None ->
  let out := _send_payment id recipient_username amount token w in
  snd out = w
  /\ (exists e, fst out = PreviewError e)
  /\ ((a <=? 0)%float = false ->
      (exists s, List.find (by_telegram_id id) (users w) = Some s
                 /\ truthy_str (wallet_address s) = true) ->
      fst out = PreviewError ErrMinimumTransferNewUser
      /\ is_insufficient_funds ErrMinimumTransferNewUser = true).
Proof.
  intros Htoken Hamount Hfloor Hnew out. subst out.
  unfold _send_payment. rewrite Htoken, Hamount.
  destruct (a <=? 0)%float eqn:Hpos.
  { cbn. split; [reflexivity|]. split; [eauto|]. discriminate. }
  cbn [token_lookup SUPPORTED_PAYMENT_TOKENS String.eqb Ascii.eqb Bool.eqb].
  unfold get_user, find_one, get_users, bind, ret.
  destruct (List.find (by_telegram_id id) (users w)) as [s|] eqn:Hsender.
  2:{ cbn. split; [reflexivity|]. split; [eauto|].
      intros _ (s & Hs & _). discriminate. }
  destruct (truthy_str (wallet_address s)) eqn:Hwallet; cbn [negb].
  2:{ cbn. split; [reflexivity|]. split; [eauto|].
      intros _ (s' & Hs & Hw). congruence. }
  unfold get_user_by_username, find_one, get_users, bind, ret.
  rewrite normalize_username_idem, Hnew. cbn [recipient_state].
  rewrite Hfloor. cbn.
  split; [reflexivity|]. split; [eauto|]. split; reflexivity.
Qed.

(** Step 7.5 for the native asset. For a SOL payment to a recipient
    stored as active with a wallet, the preview reads the recipient's
    live balance before anything else and never writes to the store; if
    that balance is below the rent-exemption threshold and the amount is
    below the new-account floor, the payment is rejected with the
    remediation message, and that balance read is the only call that was
    made. *)
Lemma native_payment_reads_recipient_balance
    (id : Z) (recipient_username amount token : string) (w : World)
    (a : float) (s r : UserDoc) :
  upper token = "SOL" ->
  python_float amount = Some a ->
  (a <=? 0)%float = false ->
  List.find (by_telegram_id id) (users w) = Some s ->
  truthy_str (wallet_address s) = true ->
  List.find (by_username (normalize_username recipient_username)) (users w) = Some r ->
  truthy_int (telegram_id r) = true ->
  truthy_str (wallet_address r) = true ->
  let address := default EmptyString (wallet_address r) in
  let out := _send_payment id recipient_username amount token w in
  (exists rest, trace (snd out) = (trace w ++ EvGetSolBalance address :: rest)%list)
  /\ users (snd out) = users w
  /\ ((rpc_sol_balance address <? 0.00089088)%float = true ->
      (a <? MINIMUM_SOL_TRANSFER_NEW_USER)%float = true ->
      fst out = PreviewError ErrRecipientWalletEmpty
      /\ new_events w (snd out) = [EvGetSolBalance address]).
Proof.
  intros Htoken Hamount Hpos Hsender Hwallet Hrecipient Hid Hactive address out.
  subst out. unfold _send_payment. rewrite Htoken, Hamount, Hpos.
  cbn [token_lookup SUPPORTED_PAYMENT_TOKENS String.eqb Ascii.eqb Bool.eqb].
  unfold get_user, get_user_by_username, find_one, get_users, bind, ret.
  rewrite Hsender, Hwallet. cbn [negb].
  rewrite normalize_username_idem, Hrecipient.
  unfold recipient_state. rewrite Hid, Hactive.
  cbn [andb negb]. rewrite bool_decide_eq_true_2 by reflexivity.
  rewrite Hactive. cbn [andb].
  unfold get_sol_balance, emit, bind, ret. fold address.
  set (w1 := {| users := users w; trace := trace w ++ [EvGetSolBalance address];
                clock := clock w; rng := rng w |}).
  destruct (rpc_sol_balance address <? 0.00089088)%float eqn:Hlow;
    destruct (a <? MINIMUM_SOL_TRANSFER_NEW_USER)%float eqn:Hfloor; cbn [andb].
  1:{ cbn. split; [eexists; reflexivity|]. split; [reflexivity|].
      intros _ _. split; [reflexivity|]. unfold new_events. cbn.
      now rewrite drop_app_length. }
  all: split; [|split; [|discriminate]].
  all: destruct (check_payment_balance_world id a "SOL"
                   (_estimate_network_fee false "SOL") w1) as [Hu [extra Ht]];
    destruct (_check_payment_balance id a "SOL" _ w1) as [[e|] w2]; cbn in *.
  all: try (rewrite Ht; subst w1; cbn; rewrite <- app_assoc; eexists; reflexivity).
  all: exact Hu.
Qed.

End PaymentPreview.

Section PaymentPreviewScenarios.
Import Py Config Store Database Services AiHandler FeeEstimator Requirements Scenario.

Lemma new_handle_below_floor_rejected_witness :
  let w := world_of [alice; bob] in
  let out := _send_payment 1 "@dave" "0.0005" "sol" w in
  (upper "sol" = "SOL"
   /\ python_float "0.0005" = Some 0.0005%float
   /\ (0.0005 <? MINIMUM_SOL_TRANSFER_NEW_USER)%float = true
   /\ List.find (by_username (normalize_username "@dave")) (users w) = None)
  /\ snd out = w
  /\ fst out = PreviewError ErrMinimumTransferNewUser.
Proof.
  split; [repeat split; vm_compute; reflexivity|].
  destruct (new_handle_below_floor_rejected 1 "@dave" "0.0005" "sol"
              (world_of [alice; bob]) 0.0005%float) as (Hw & _ & Herr);
    try (vm_compute; reflexivity).
  split; [exact Hw|].
  apply Herr; [vm_compute; reflexivity|].
  exists alice. split; vm_compute; reflexivity.
Defined.

(** C7 as stated fails for a token: bob is stored as active with a
    wallet, the live balance of that wallet is 0 and the amount 0.0005 is
    below the floor, yet a USDC payment gets its preview, and the
    recipient's balance was never read. For SOL the same payment is
    rejected, and the balance read is itself the one call that reached
    the network. *)
Lemma token_payment_to_empty_active_wallet_previewed :
  let w := world_of [alice; bob] in
  let out := _send_payment 1 "@Bob" "0.0005" "usdc" w in
  recipient_state (fst (get_user_by_username "bob" w))
    = Some (active, Some 2%Z, Some "BobWallet", false, false)
  /\ (rpc_sol_balance "BobWallet" <? 0.00089088)%float = true
  /\ (0.0005 <? MINIMUM_SOL_TRANSFER_NEW_USER)%float = true
  /\ token_lookup SUPPORTED_PAYMENT_TOKENS (upper "usdc") <> None
  /\ (exists pd, fst out = PreviewOk pd)
  /\ new_events w (snd out) = [EvGetWalletBalance "AliceWallet"]
  /\ fst (_send_payment 1 "@Bob" "0.0005" "sol" w)
     = PreviewError ErrRecipientWalletEmpty
  /\ List.filter is_network_call
       (new_events w (snd (_send_payment 1 "@Bob" "0.0005" "sol" w)))
     = [EvGetSolBalance "BobWallet"].
Proof.
  repeat split; try (vm_compute; reflexivity).
  - vm_compute. discriminate.
  - eexists. vm_compute. reflexivity.
Qed.

End PaymentPreviewScenarios.

(** ** Wallet store *)

Section WalletStore.
Import Py Store Database.
Context `{Secrets} `{CryptoLib}.

Lemma find_update_first (f : UserDoc -> bool) (upd : UserDoc -> UserDoc)
    (c : list UserDoc) (d : UserDoc) :
  List.find f c = Some d -> f (upd d) = true ->
  List.find f (update_first f upd c) = Some (upd d).
Proof.
  induction c as [|e rest IH]; cbn [List.find update_first]; [discriminate|].
  destruct (f e) eqn:He.
  - intros [= ->] Hd. cbn [List.find]. now rewrite Hd.
  - intros Hfind Hd. cbn [List.find]. rewrite He. now apply IH.
Qed.

Lemma find_update_first_other (f g : UserDoc -> bool) (upd : UserDoc -> UserDoc)
    (c : list UserDoc) :
  (forall d, f d = true -> g d = false) ->
  (forall d, f d = true -> g (upd d) = false) ->
  List.find g (update_first f upd c) = List.find g c.
Proof.
  intros Hdis Hupd. induction c as [|e rest IH]; [reflexivity|].
  cbn [update_first]. destruct (f e) eqn:He; cbn [List.find].
  - now rewrite (Hdis e He), (Hupd e He).
  - now rewrite IH.
Qed.

(** After [save_wallet], the document of the identity is the old one
    with the wallet fields set. *)
Lemma save_wallet_stored
    (id : Z) (address private_key type_ : string) (w : World) (u : UserDoc) :
  List.find (by_telegram_id id) (users w) = Some u ->
  let out := save_wallet id address private_key type_ w in
  let token := fernet_encrypt (derive_key_from_telegram_id id) (rng w) (clock w)
                              private_key in
  fst out = true
  /\ users (snd out)
     = update_first (by_telegram_id id)
         (set_wallet address token type_ (clock w)) (users w)
  /\ List.find (by_telegram_id id) (users (snd out))
     = Some (set_wallet address token type_ (clock w) u).
Proof.
  intros Hfind out token. subst out.
  unfold save_wallet, encrypt_private_key, update_one, fresh, now, get_users,
    put_users, bind, ret.
  cbn [fst snd users clock rng trace]. fold token.
  rewrite Hfind. cbn [matched_count modified_count Nat.eqb].
  assert (Hid : by_telegram_id id u = true)
    by (apply (List.find_some _ _ Hfind)).
  destruct (decide (set_wallet address token type_ (clock w) u = u));
    cbn [Nat.ltb Nat.leb fst snd users].
  all: split; [reflexivity|]; split; [reflexivity|].
  all: apply find_update_first; [exact Hfind | exact Hid].
Qed.

(** C3, amended. For an identity that has a document, [save_wallet]
    answers success and stores the given address with a fresh encryption
    of the given key: the same address stays, a different address
    replaces the stored one, and no other identity is touched. *)
Theorem save_wallet_overwrites
    (id : Z) (address private_key type_ : string) (w : World) (u : UserDoc) :
  List.find (by_telegram_id id) (users w) = Some u ->
  let out := save_wallet id address private_key type_ w in
  let token := fernet_encrypt (derive_key_from_telegram_id id) (rng w) (clock w)
                              private_key in
  fst out = true
  /\ List.find (by_telegram_id id) (users (snd out))
     = Some (set_wallet address token type_ (clock w) u)
  /\ (wallet_address <$> List.find (by_telegram_id id) (users (snd out)))
     = Some (Some address)
  /\ (wallet_address u = Some address ->
      (wallet_address <$> List.find (by_telegram_id id) (users (snd out)))
      = Some (wallet_address u))
  /\ (forall other, other <> id ->
      List.find (by_telegram_id other) (users (snd out))
      = List.find (by_telegram_id other) (users w)).
Proof.
  intros Hfind out token.
  destruct (save_wallet_stored id address private_key type_ w u Hfind)
    as (Hok & Husers & Hstored).
  fold out token in Hok, Husers, Hstored.
  split; [exact Hok|]. split; [exact Hstored|]. rewrite Hstored.
  split; [reflexivity|]. split; [intros Hsame; cbn; now rewrite Hsame|].
  intros other Hother. rewrite Husers. apply find_update_first_other;
    unfold by_telegram_id; cbn [telegram_id set_wallet]; intros d Hd;
    apply bool_decide_eq_true in Hd; apply bool_decide_eq_false; congruence.
Qed.

End WalletStore.

Section WalletStoreScenarios.
Import Py Store Database Scenario.

(** C3 as stated fails: bob has the wallet BobWallet; saving a different
    address is accepted and replaces it; and saving the identical wallet
    again rewrites the document (its timestamps). *)
Lemma save_wallet_replaces_a_different_address :
  let w := world_of [alice; bob] in
  let out := save_wallet 2 "OtherWallet" "other-key" "imported" w in
  let again := save_wallet 2 "BobWallet" "bob-key" "imported" w in
  (wallet_address <$> fst (get_user 2 w)) = Some (Some "BobWallet")
  /\ fst out = true
  /\ (wallet_address <$> fst (get_user 2 (snd out))) = Some (Some "OtherWallet")
  /\ fst (get_user 2 (snd again)) <> fst (get_user 2 w).
Proof.
  repeat split; try (vm_compute; reflexivity).
  vm_compute. discriminate.
Qed.

Lemma save_wallet_overwrites_witness :
  let w := world_of [alice; bob] in
  let out := save_wallet 2 "OtherWallet" "other-key" "imported" w in
  List.find (by_telegram_id 2) (users w) = Some bob
  /\ fst out = true
  /\ (wallet_address <$> List.find (by_telegram_id 2) (users (snd out)))
     = Some (Some "OtherWallet").
Proof.
  split; [vm_compute; reflexivity|].
  destruct (save_wallet_overwrites 2 "OtherWallet" "other-key" "imported"
              (world_of [alice; bob]) bob) as (Hok & _ & Haddr & _);
    [vm_compute; reflexivity|].
  split; [exact Hok | exact Haddr].
Defined.

End WalletStoreScenarios.

(** ** Claiming a pending wallet *)

Section PendingClaims.
Import Py Store Database Concurrency.
Context `{Secrets} `{CryptoLib}.
Local Open Scope monad_scope.

Lemma claim_is_two_store_operations (id : Z) (name : string) (w : World) :
  (c <- caller_step (Calling id name) ;; caller_step c) w
  = (r <- claim_pending_wallet id name ;; ret (Finished r)) w.
Proof.
  unfold claim_pending_wallet, caller_step, bind, ret.
  destruct (claim_lookup name w) as [p w1].
  destruct (claim_commit id name p w1) as [r w2]. reflexivity.
Qed.

Lemma update_first_no_match (f : UserDoc -> bool) (upd : UserDoc -> UserDoc)
    (c : list UserDoc) :
  List.find f c = None -> update_first f upd c = c.
Proof.
  induction c as [|e rest IH]; [reflexivity|].
  cbn [List.find update_first]. destruct (f e); [discriminate|].
  intros Hnone. now rewrite IH.
Qed.

Lemma find_none_intro (f : UserDoc -> bool) (c : list UserDoc) :
  (forall d, In d c -> f d = false) -> List.find f c = None.
Proof.
  induction c as [|e rest IH]; [reflexivity|].
  intros Hall. cbn [List.find]. rewrite (Hall e (or_introl eq_refl)).
  apply IH. intros d Hd. apply Hall. now right.
Qed.

Lemma unclaimed_gone_after_claim (n : string) (upd : UserDoc -> UserDoc)
    (c : list UserDoc) :
  (forall d, username (upd d) = username d) ->
  (forall d, telegram_id (upd d) <> None) ->
  (length (List.filter (by_username n) c) <= 1)%nat ->
  List.find (by_unclaimed_username n)
            (update_first (by_unclaimed_username n) upd c) = None.
Proof.
  intros Hname Hbound. induction c as [|e rest IH]; [reflexivity|].
  cbn [List.filter update_first]. intros Huniq.
  assert (Hrest : by_username n e = true ->
                  List.find (by_unclaimed_username n) rest = None).
  { intros He. rewrite He in Huniq. cbn [length] in Huniq.
    assert (Hnil : List.filter (by_username n) rest = [])
      by (destruct (List.filter (by_username n) rest); [reflexivity | cbn in Huniq; lia]).
    apply find_none_intro. intros d Hd.
    destruct (by_unclaimed_username n d) eqn:Hu; [|reflexivity].
    assert (Hin : In d (List.filter (by_username n) rest)).
    { apply List.filter_In. split; [exact Hd|].
      unfold by_unclaimed_username in Hu. now apply andb_true_iff in Hu. }
    rewrite Hnil in Hin. contradiction. }
  destruct (by_unclaimed_username n e) eqn:He.
  - cbn [List.find].
    assert (Hn : by_username n e = true)
      by (unfold by_unclaimed_username in He; now apply andb_true_iff in He).
    replace (by_unclaimed_username n (upd e)) with false.
    + now apply Hrest.
    + symmetry. unfold by_unclaimed_username. apply andb_false_iff. right.
      apply bool_decide_eq_false. apply Hbound.
  - cbn [List.find]. rewrite He.
    destruct (by_username n e) eqn:Hn.
    + rewrite update_first_no_match; now apply Hrest.
    + apply IH. exact Huniq.
Qed.

(** C4, amended. Two claims of a handle, one after the other (the order
    in which the bot, which handles one update at a time, makes them),
    in a collection where at most one document bears the handle: once a
    claim has returned the key, a later claim of that handle, by the
    same or by another identity, finds no unclaimed record; it fails
    without a key and without an error, and leaves the store and the
    rest of the world as they were. *)
Theorem later_claim_fails_cleanly (id id' : Z) (name name' : string) (w : World) :
  normalize_username name' = normalize_username name ->
  (length (List.filter (by_username (normalize_username name)) (users w)) <= 1)%nat ->
  got_key (Finished (fst (claim_pending_wallet id name w))) <> None ->
  let w1 := snd (claim_pending_wallet id name w) in
  claim_pending_wallet id' name' w1 = (ClaimFailed None, w1).
Proof.
  intros Hsame Huniq Hkey w1. subst w1.
  unfold claim_pending_wallet at 1. unfold claim_lookup, find_one, get_users, bind, ret.
  rewrite Hsame.
  assert (Hgone :
    List.find (by_unclaimed_username (normalize_username name))
              (users (snd (claim_pending_wallet id name w))) = None).
  { revert Hkey. unfold claim_pending_wallet, claim_lookup, claim_commit,
      encrypt_private_key, update_one_indexed, update_one, find_one, fresh, now,
      get_users, put_users, bind, ret. cbn [fst snd users clock rng trace].
    destruct (List.find _ (users w)) as [p|] eqn:Hpending; [|intros []; reflexivity].
    destruct (truthy_str (pending_wallet_address p)); cbn [negb];
      [|intros []; reflexivity].
    destruct (pending_private_key p) as [token|]; [|intros []; reflexivity].
    destruct (decrypt_private_key token _) as [key|]; [|intros []; reflexivity].
    cbn [fst snd users]. rewrite Hpending.
    destruct (violates_unique_index _ _); cbn [fst snd users];
      [intros []; reflexivity|].
    intros _.
    apply unclaimed_gone_after_claim; [reflexivity | discriminate | exact Huniq]. }
  cbn [fst snd]. rewrite Hgone. reflexivity.
Qed.

End PendingClaims.

Section PendingClaimScenarios.
Import Py Store Database Concurrency Scenario.

(** C4 as stated fails. Two callers claim the pending wallet of carol
    and the store runs their operations alternately: both lookups, then
    both updates. The conditional update binds the wallet to the first
    caller only, but both callers return success with the plaintext key:
    the loser's update matched nothing and its result was never read.
    Nothing in [claim_pending_wallet] orders two racing callers; what
    orders them is that the bot never runs two claims at once. *)
Lemma racing_claims_both_return_the_key :
  let w := world_of [alice; carol_pending] in
  let out := run [true; false; true; false] (Calling 7 "carol") (Calling 8 "carol") w in
  got_key (fst (fst out)) = Some "carol-key"
  /\ got_key (snd (fst out)) = Some "carol-key"
  /\ (telegram_id <$> fst (get_user_by_username "carol" (snd out))) = Some (Some 7%Z).
Proof. repeat split; vm_compute; reflexivity. Qed.

(** A caller whose identity already has a document cannot be bound to
    the pending one: the unique index refuses the update, the claim
    fails, and the pending record stays. *)
Example claim_by_registered_identity_refused :
  let w := world_of [alice; carol_pending] in
  let out := claim_pending_wallet 1 "carol" w in
  fst out = ClaimFailed (Some "DuplicateKeyError")
  /\ users (snd out) = users w.
Proof. split; vm_compute; reflexivity. Qed.

Lemma later_claim_fails_cleanly_witness :
  let w := world_of [alice; carol_pending] in
  let w1 := snd (claim_pending_wallet 7 "carol" w) in
  got_key (Finished (fst (claim_pending_wallet 7 "carol" w))) = Some "carol-key"
  /\ claim_pending_wallet 8 "@Carol" w1 = (ClaimFailed None, w1).
Proof.
  split; [vm_compute; reflexivity|].
  apply (later_claim_fails_cleanly 7 8 "carol" "@Carol" (world_of [alice; carol_pending]));
    [vm_compute; reflexivity | vm_compute; lia | vm_compute; discriminate].
Defined.

End PendingClaimScenarios.

(** ** The poll window *)

Section PollWindow.
Import Services BotHandlers Requirements.
Context `{Environment}.

(** The verdict is "confirmed" exactly when some attempt of the window
    sees the transaction confirmed and every earlier attempt saw it
    neither confirmed nor failed. *)
Lemma poll_verdict_confirmed (signature : string) (remaining attempt : nat) :
  poll_verdict signature remaining attempt = PollConfirmed <->
  exists k, (k < remaining)%nat
    /\ rpc_transaction_status signature (attempt + k) = st_confirmed
    /\ forall j, (j < k)%nat ->
         rpc_transaction_status signature (attempt + j) <> st_confirmed
         /\ rpc_transaction_status signature (attempt + j) <> st_failed.
Proof.
  revert attempt. induction remaining as [|n IH]; intros attempt; cbn [poll_verdict].
  - split; [discriminate | intros (k & Hk & _); lia].
  - destruct (rpc_transaction_status signature attempt) eqn:Hs.
    + split; [intros _|reflexivity]. exists 0%nat.
      rewrite Nat.add_0_r. repeat split; [lia | exact Hs | lia | lia].
    + split; [discriminate|]. intros (k & Hk & Hc & Hbefore).
      destruct k as [|k]; [rewrite Nat.add_0_r in Hc; congruence|].
      destruct (Hbefore 0%nat) as [_ Hf]; [lia|]. rewrite Nat.add_0_r in Hf. contradiction.
    + rewrite IH. split.
      * intros (k & Hk & Hc & Hbefore). exists (S k).
        split; [lia|]. split; [now rewrite Nat.add_succ_r|].
        intros [|j] Hj; [rewrite Nat.add_0_r, Hs; split; discriminate|].
        rewrite Nat.add_succ_r. apply Hbefore. lia.
      * intros (k & Hk & Hc & Hbefore).
        destruct k as [|k]; [rewrite Nat.add_0_r in Hc; congruence|].
        exists k. split; [lia|]. rewrite Nat.add_succ_r in Hc. split; [exact Hc|].
        intros j Hj. specialize (Hbefore (S j)). rewrite Nat.add_succ_r in Hbefore.
        apply Hbefore. lia.
    + rewrite IH. split.
      * intros (k & Hk & Hc & Hbefore). exists (S k).
        split; [lia|]. split; [now rewrite Nat.add_succ_r|].
        intros [|j] Hj; [rewrite Nat.add_0_r, Hs; split; discriminate|].
        rewrite Nat.add_succ_r. apply Hbefore. lia.
      * intros (k & Hk & Hc & Hbefore).
        destruct k as [|k]; [rewrite Nat.add_0_r in Hc; congruence|].
        exists k. split; [lia|]. rewrite Nat.add_succ_r in Hc. split; [exact Hc|].
        intros j Hj. specialize (Hbefore (S j)). rewrite Nat.add_succ_r in Hbefore.
        apply Hbefore. lia.
Qed.

(** The verdict is "timeout" exactly when no attempt of the window sees
    the transaction confirmed or failed. *)
Lemma poll_verdict_timeout (signature : string) (remaining attempt : nat) :
  poll_verdict signature remaining attempt = PollTimeout <->
  forall k, (k < remaining)%nat ->
    rpc_transaction_status signature (attempt + k) <> st_confirmed
    /\ rpc_transaction_status signature (attempt + k) <> st_failed.
Proof.
  revert attempt. induction remaining as [|n IH]; intros attempt; cbn [poll_verdict].
  - split; [intros _ k Hk; lia | reflexivity].
  - destruct (rpc_transaction_status signature attempt) eqn:Hs.
    1,2: split; [discriminate|]; intros Hall; destruct (Hall 0%nat) as [Hc Hf];
      [lia|]; rewrite Nat.add_0_r in Hc, Hf; congruence.
    all: rewrite IH; split.
    all: try (intros Hall [|k] Hk;
              [rewrite Nat.add_0_r, Hs; split; discriminate
              | rewrite Nat.add_succ_r; apply Hall; lia]).
    all: intros Hall k Hk; specialize (Hall (S k));
      rewrite Nat.add_succ_r in Hall; apply Hall; lia.
Qed.

End PollWindow.

(** ** Execution: what is written, and when *)

Section ProgramLogic.
Import Py Store Database Services AiHandler BotHandlers Requirements Hoare.
Local Open Scope monad_scope.

Lemma wp_bind {A B} (c : M A) (k : A -> M B) (Q : B -> World -> Prop) (w : World) :
  wp c (fun a w1 => wp (k a) Q w1) w -> wp (bind c k) Q w.
Proof. unfold wp, bind. destruct (c w) as [a w1]. cbn. auto. Qed.

Lemma allowed_weaken (sig : option string) (e : Event) :
  allowed None e -> allowed sig e.
Proof. destruct e; cbn; try tauto. discriminate. Qed.

Lemma extends_refl (sig : option string) (w : World) : extends sig w w.
Proof. exists []. split; [now rewrite app_nil_r | constructor]. Qed.

Lemma extends_trans (sig : option string) (w1 w2 w3 : World) :
  extends sig w1 w2 -> extends sig w2 w3 -> extends sig w1 w3.
Proof.
  intros (e1 & H1 & F1) (e2 & H2 & F2). exists (e1 ++ e2)%list. split.
  - rewrite H2, H1. now rewrite app_assoc.
  - apply Forall_app. now split.
Qed.

Lemma extends_weaken (sig : option string) (w w' : World) :
  extends None w w' -> extends sig w w'.
Proof.
  intros (evs & Ht & Hall). exists evs. split; [exact Ht|].
  eapply Forall_impl; [exact Hall|]. intros e. apply allowed_weaken.
Qed.

Lemma same_books_refl (w : World) : same_books w w.
Proof. split; reflexivity. Qed.

Lemma same_books_trans (w1 w2 w3 : World) :
  same_books w1 w2 -> same_books w2 w3 -> same_books w1 w3.
Proof. intros [L1 N1] [L2 N2]. split; congruence. Qed.

Lemma extends_polled (sig : option string) (w w' : World) (s : string) (k : nat) :
  extends sig w w' -> In (EvGetStatus s k) (new_events w w') -> sig = Some s.
Proof.
  intros (evs & Ht & Hall) Hin. unfold new_events in Hin.
  rewrite Ht, drop_app_length in Hin.
  rewrite Forall_forall in Hall. apply list_elem_of_In in Hin.
  exact (Hall _ Hin).
Qed.

(** *** Closure of [quiet] and [silent] *)

Lemma quiet_ret {A} (a : A) : quiet (ret a).
Proof. intros w. split; [apply same_books_refl | apply extends_refl]. Qed.

Lemma quiet_bind {A B} (c : M A) (k : A -> M B) :
  quiet c -> (forall a, quiet (k a)) -> quiet (bind c k).
Proof.
  intros Hc Hk w. unfold bind. destruct (Hc w) as [Hb He].
  destruct (c w) as [a w1]. cbn in *. destruct (Hk a w1) as [Hb' He'].
  split; [eapply same_books_trans | eapply extends_trans]; eassumption.
Qed.

Lemma quiet_silent {A} (c : M A) : quiet c -> silent c.
Proof. intros Hc w. apply Hc. Qed.

Lemma silent_ret {A} (a : A) : silent (ret a).
Proof. intros w. apply extends_refl. Qed.

Lemma silent_bind {A B} (c : M A) (k : A -> M B) :
  silent c -> (forall a, silent (k a)) -> silent (bind c k).
Proof.
  intros Hc Hk w. unfold bind. pose proof (Hc w) as He.
  destruct (c w) as [a w1]. cbn in *. eapply extends_trans; [exact He | apply Hk].
Qed.

(** *** The primitive operations *)

Lemma quiet_emit (e : Event) : allowed None e -> quiet (emit e).
Proof.
  intros He w. split; [split; reflexivity|].
  exists [e]. split; [reflexivity | now repeat constructor].
Qed.

Lemma quiet_now : quiet now.
Proof. intros w. split; [split; reflexivity | exists []; split; [cbn; now rewrite app_nil_r | constructor]]. Qed.

Lemma quiet_fresh : quiet fresh.
Proof. intros w. split; [split; reflexivity | exists []; split; [cbn; now rewrite app_nil_r | constructor]]. Qed.

Lemma quiet_get_users : quiet get_users.
Proof. intros w. split; [split; reflexivity | exists []; split; [cbn; now rewrite app_nil_r | constructor]]. Qed.

Lemma quiet_sleep (s : Z) : quiet (sleep s).
Proof.
  intros w. split; [split; reflexivity|].
  exists [EvSleep s]. split; [reflexivity | now repeat constructor].
Qed.

Lemma silent_put_users (method : string) (c : list UserDoc) :
  silent (put_users method c).
Proof.
  intros w. exists [EvStoreWrite method]. split; [reflexivity | now repeat constructor].
Qed.

Lemma quiet_find_one (f : UserDoc -> bool) : quiet (find_one f).
Proof. intros w. split; [split; reflexivity | exists []; split; [cbn; now rewrite app_nil_r | constructor]]. Qed.

Lemma silent_update_one (method : string) (f : UserDoc -> bool)
    (upd : UserDoc -> UserDoc) : silent (update_one method f upd).
Proof.
  intros w. exists [EvStoreWrite method]. split; [reflexivity | now repeat constructor].
Qed.

Lemma books_update_first (f : UserDoc -> bool) (upd : UserDoc -> UserDoc)
    (c : list UserDoc) :
  (forall d, transactions (upd d) = transactions d
             /\ total_payments_sent (upd d) = total_payments_sent d
             /\ total_payments_received (upd d) = total_payments_received d
             /\ pending_notifications (upd d) = pending_notifications d) ->
  ledger (update_first f upd c) = ledger c
  /\ notifications (update_first f upd c) = notifications c.
Proof.
  intros Hupd. induction c as [|e rest [IHl IHn]]; [split; reflexivity|].
  cbn [update_first]. destruct (f e); unfold ledger, notifications in *; cbn [map].
  - destruct (Hupd e) as (-> & -> & -> & ->). split; reflexivity.
  - rewrite IHl, IHn. split; reflexivity.
Qed.

Lemma quiet_update_one (method : string) (f : UserDoc -> bool)
    (upd : UserDoc -> UserDoc) :
  (forall d, transactions (upd d) = transactions d
             /\ total_payments_sent (upd d) = total_payments_sent d
             /\ total_payments_received (upd d) = total_payments_received d
             /\ pending_notifications (upd d) = pending_notifications d) ->
  quiet (update_one method f upd).
Proof.
  intros Hupd w. split; [|apply silent_update_one].
  unfold same_books, update_one, get_users, put_users, bind, ret. cbn.
  now apply books_update_first.
Qed.

Lemma silent_insert_one (method : string) (d : UserDoc) : silent (insert_one method d).
Proof.
  intros w. unfold insert_one, get_users, put_users, bind, ret. cbn.
  destruct (violates_unique_index (users w) d); cbn;
    (exists [EvStoreWrite method]; split; [reflexivity | now repeat constructor]).
Qed.

End ProgramLogic.

Import Py Store Database Services AiHandler BotHandlers Requirements Hoare.

Create HintDb quiet.

Ltac quiet_step :=
  match goal with
  | |- quiet (bind _ _) => apply quiet_bind; [|intros ?]
  | |- quiet (ret _) => apply quiet_ret
  | |- quiet (emit _) => apply quiet_emit; exact I
  | |- quiet now => apply quiet_now
  | |- quiet fresh => apply quiet_fresh
  | |- quiet get_users => apply quiet_get_users
  | |- quiet (find_one _) => apply quiet_find_one
  | |- quiet (update_one _ _ _) => apply quiet_update_one; intros ?; repeat split
  | |- quiet (match ?x with _ => _ end) => destruct x
  | |- silent (bind _ _) => apply silent_bind; [|intros ?]
  | |- silent (ret _) => apply silent_ret
  | |- silent (update_one _ _ _) => apply silent_update_one
  | |- silent (insert_one _ _) => apply silent_insert_one
  | |- silent now => apply quiet_silent, quiet_now
  | |- silent (find_one _) => apply quiet_silent, quiet_find_one
  | |- silent (match ?x with _ => _ end) => destruct x
  | |- silent _ => apply quiet_silent
  end.

Ltac solve_quiet := repeat first [ solve [eauto with quiet] | quiet_step ].

Section OperationsAreQuiet.
Import Py Store Database Services AiHandler BotHandlers Requirements Hoare.
Local Open Scope monad_scope.
Context `{Secrets} `{CryptoLib} `{Environment}.

Lemma quiet_get_user (id : Z) : quiet (get_user id).
Proof. unfold get_user. repeat quiet_step. Qed.

Lemma quiet_get_decrypted_private_key (id : Z) :
  quiet (get_decrypted_private_key id).
Proof. unfold get_decrypted_private_key, get_user. repeat quiet_step. Qed.

Lemma quiet_encrypt_private_key (key : string) (id : Z) :
  quiet (encrypt_private_key key id).
Proof. unfold encrypt_private_key. repeat quiet_step. Qed.

Lemma quiet_get_sol_balance (address : string) : quiet (get_sol_balance address).
Proof. unfold get_sol_balance. repeat quiet_step. Qed.

Lemma quiet_create_new_wallet : quiet create_new_wallet.
Proof. unfold create_new_wallet. repeat quiet_step. Qed.

Lemma quiet_execute_sol_transfer (key : string) (recipient : option string)
    (amount : float) : quiet (execute_sol_transfer key recipient amount).
Proof. unfold execute_sol_transfer. repeat quiet_step. Qed.

Lemma quiet_execute_spl_transfer (key : string) (recipient : option string)
    (token_mint : string) (amount : float) (decimals : nat) :
  quiet (execute_spl_transfer key recipient token_mint amount decimals).
Proof. unfold execute_spl_transfer. repeat quiet_step. Qed.

(** Activating a wallet touches neither the ledger nor the
    notifications. *)
Lemma quiet_activate_pending_wallet (id : Z) (address encrypted_key : string) :
  quiet (activate_pending_wallet id address encrypted_key).
Proof. unfold activate_pending_wallet. repeat quiet_step. Qed.

Lemma silent_save_payment_transaction (id : Z) (tx_data : TxRecord) (is_sender : bool) :
  silent (save_payment_transaction id tx_data is_sender).
Proof. unfold save_payment_transaction. repeat quiet_step. Qed.

Lemma silent_add_pending_notification (id : Z) (n : Notification) :
  silent (add_pending_notification id n).
Proof. unfold add_pending_notification. repeat quiet_step. Qed.

Lemma silent_add_pending_notification_by_username (name : string) (n : Notification) :
  silent (add_pending_notification_by_username name n).
Proof. unfold add_pending_notification_by_username. repeat quiet_step. Qed.

Lemma silent_create_pending_user_by_username
    (name address encrypted_key : string) (n : Notification) :
  silent (create_pending_user_by_username name address encrypted_key n).
Proof.
  unfold create_pending_user_by_username.
  repeat first [ apply silent_add_pending_notification
               | apply silent_add_pending_notification_by_username
               | quiet_step ].
Qed.

(** The polling loop answers the verdict of the window; it writes
    nothing and polls its own signature only. *)
Lemma poll_confirmation_spec (signature : string) (remaining attempt : nat) (w : World) :
  let out := poll_confirmation signature remaining attempt w in
  fst out = poll_verdict signature remaining attempt
  /\ same_books w (snd out)
  /\ extends (Some signature) w (snd out).
Proof.
  revert attempt w. induction remaining as [|n IH]; intros attempt w.
  - cbn. split; [reflexivity|]. split; [apply same_books_refl | apply extends_refl].
  - cbn [poll_confirmation poll_verdict].
    unfold bind, sleep, get_transaction_status, emit, ret. cbn [fst snd].
    set (w1 := {| users := users w;
                  trace := (trace w ++ [EvSleep 1]) ++ [EvGetStatus signature attempt];
                  clock := (clock w + 1)%Z; rng := rng w |}).
    assert (Hstep : extends (Some signature) w w1).
    { exists [EvSleep 1; EvGetStatus signature attempt]. split.
      - subst w1. cbn. now rewrite <- app_assoc.
      - repeat constructor. }
    destruct (rpc_transaction_status signature attempt); cbn [fst snd].
    1,2: split; [reflexivity|]; split; [split; reflexivity | exact Hstep].
    all: destruct (IH (S attempt) w1) as (Hv & Hb & He);
      split; [exact Hv|]; split;
      [eapply same_books_trans; [split; reflexivity | exact Hb]
      | eapply extends_trans; [exact Hstep | exact He]].
Qed.

End OperationsAreQuiet.

#[global] Hint Resolve quiet_get_user quiet_get_decrypted_private_key
  quiet_encrypt_private_key quiet_get_sol_balance quiet_create_new_wallet
  quiet_execute_sol_transfer quiet_execute_spl_transfer
  quiet_activate_pending_wallet silent_save_payment_transaction
  silent_add_pending_notification silent_add_pending_notification_by_username
  silent_create_pending_user_by_username : quiet.

Section ExecutionSettles.
Import Py Store Database Services AiHandler BotHandlers Requirements Hoare.
Local Open Scope monad_scope.
Context `{Secrets} `{CryptoLib} `{Environment}.

(** Stepping over a quiet operation, over a silent one, and over the
    polling loop. *)
Lemma wp_bind_quiet {A B} (c : M A) (k : A -> M B) (Q : B -> World -> Prop)
    (w0 w : World) :
  quiet c -> same_books w0 w -> extends None w0 w ->
  (forall a w1, same_books w0 w1 -> extends None w0 w1 -> wp (k a) Q w1) ->
  wp (bind c k) Q w.
Proof.
  intros Hc Hb He Hk. apply wp_bind. unfold wp at 1.
  destruct (Hc w) as [Hb' He']. apply Hk.
  - eapply same_books_trans; eassumption.
  - eapply extends_trans; eassumption.
Qed.

Lemma wp_bind_silent {A B} (c : M A) (k : A -> M B) (Q : B -> World -> Prop)
    (sig : option string) (w0 w : World) :
  silent c -> extends sig w0 w ->
  (forall a w1, extends sig w0 w1 -> wp (k a) Q w1) ->
  wp (bind c k) Q w.
Proof.
  intros Hc He Hk. apply wp_bind. unfold wp at 1. apply Hk.
  eapply extends_trans; [exact He | apply extends_weaken, Hc].
Qed.

(** The three ways an execution ends. *)
Lemma post_failed (w0 w : World) (e : ExecError) :
  same_books w0 w -> extends None w0 w ->
  wp (ret (ExecFailed e)) (settles_only_when_confirmed w0) w.
Proof.
  intros Hb He. unfold wp, ret. cbn [fst snd]. split; [intros _; exact Hb|].
  split; [discriminate|]. intros sig k Hin.
  now pose proof (extends_polled _ _ _ _ _ He Hin).
Qed.

Lemma post_polled (w0 w : World) (sig : string) (e : ExecError) :
  same_books w0 w -> extends (Some sig) w0 w ->
  (poll_verdict sig 30 0 = PollTimeout -> e = ErrConfirmationTimeout) ->
  (poll_verdict sig 30 0 = PollFailed -> e = ErrFailedOnChain) ->
  wp (ret (ExecFailed e)) (settles_only_when_confirmed w0) w.
Proof.
  intros Hb He Ht Hf. unfold wp, ret. cbn [fst snd]. split; [intros _; exact Hb|].
  split; [discriminate|]. intros s k Hin.
  pose proof (extends_polled _ _ _ _ _ He Hin) as [= <-].
  split; intros Hv; f_equal; auto.
Qed.

Lemma post_success (w0 w : World) (sig : string) (r : Receipt) :
  extends (Some sig) w0 w ->
  poll_verdict sig 30 0 = PollConfirmed ->
  rc_signature r = sig ->
  wp (ret (ExecSuccess r)) (settles_only_when_confirmed w0) w.
Proof.
  intros He Hv Hr. unfold wp, ret. cbn [fst snd]. split; [discriminate|].
  split; [intros r' [= <-]; now rewrite Hr|]. intros s k Hin.
  pose proof (extends_polled _ _ _ _ _ He Hin) as [= <-].
  rewrite Hv. split; discriminate.
Qed.

Lemma wp_bind_poll {B} (sig : string) (n a : nat) (k : PollOutcome -> M B)
    (Q : B -> World -> Prop) (w0 w : World) :
  same_books w0 w -> extends None w0 w ->
  (forall w', same_books w0 w' -> extends (Some sig) w0 w' ->
              wp (k (poll_verdict sig n a)) Q w') ->
  wp (bind (poll_confirmation sig n a) k) Q w.
Proof.
  intros Hb He Hk. apply wp_bind. unfold wp at 1.
  destruct (poll_confirmation_spec sig n a w) as (-> & Hb' & He').
  apply Hk.
  - eapply same_books_trans; eassumption.
  - eapply extends_trans; [apply extends_weaken, He | exact He'].
Qed.

Ltac exec_step :=
  match goal with
  | Hb : same_books ?w0 ?w, He : extends None ?w0 ?w
    |- wp (bind ?c ?k) ?Q ?w =>
      apply (wp_bind_quiet c k Q w0 w);
      [solve [solve_quiet] | exact Hb | exact He | clear Hb He; intros ? ? Hb He]
  | Hb : same_books ?w0 ?w, He : extends None ?w0 ?w
    |- wp (ret (ExecFailed _)) _ ?w => exact (post_failed w0 w _ Hb He)
  | |- wp (match ?x with _ => _ end) _ _ => destruct x
  end.

Ltac settle_step :=
  match goal with
  | He : extends (Some ?sig) ?w0 ?w |- wp (bind ?c ?k) ?Q ?w =>
      apply (wp_bind_silent c k Q (Some sig) w0 w);
      [solve [solve_quiet] | exact He | clear He; intros ? ? He]
  | |- wp (match ?x with _ => _ end) _ _ => destruct x
  end.

Lemma execute_payment_secure_from (sender : Z) (pd : PaymentData) (w0 w : World) :
  same_books w0 w -> extends None w0 w ->
  wp (execute_payment_secure sender pd) (settles_only_when_confirmed w0) w.
Proof.
  intros Hb He. unfold execute_payment_secure.
  repeat exec_step.
  apply (wp_bind_poll signature 30 0 _ _ w0 w5 Hb He).
  clear Hb He. intros w6 Hb6 He6.
  destruct (poll_verdict signature 30 0) eqn:Hverdict.
  - clear Hb6. repeat settle_step.
    all: apply (post_success _ _ signature); [exact He6 | exact Hverdict | reflexivity].
  - apply (post_polled _ _ signature); [exact Hb6 | exact He6 | | reflexivity].
    rewrite Hverdict. discriminate.
  - apply (post_polled _ _ signature); [exact Hb6 | exact He6 | reflexivity |].
    rewrite Hverdict. discriminate.
Qed.

(** Every execution settles only when confirmed. *)
Theorem execute_payment_secure_settles (sender : Z) (pd : PaymentData) (w : World) :
  wp (execute_payment_secure sender pd) (settles_only_when_confirmed w) w.
Proof.
  apply execute_payment_secure_from; [apply same_books_refl | apply extends_refl].
Qed.

End ExecutionSettles.

Section PaymentCallback.
Local Open Scope monad_scope.
Context `{Secrets} `{CryptoLib} `{Environment} `{Telegram}.

Lemma reply_reaches (text : ChatText) (b : Bot) :
  edit_message_text_ok text || send_message_ok text = true ->
  reply text b = (true, post text b).
Proof.
  unfold reply. destruct (edit_message_text_ok text); [reflexivity|].
  cbn. now intros ->.
Qed.

(** Reporting a success only talks to the chat. *)
Lemma handle_success_world (query : CallbackQuery) (payment_id : string)
    (result : ExecResult) (r : Receipt) (b2 : Bot) :
  world (snd (handle_success query payment_id result r b2)) = world b2.
Proof.
  unfold handle_success, on_exception, reply, _send_recipient_notification, try_send.
  repeat match goal with
         | |- context [if ?c then _ else _] => destruct c; cbn [negb fst snd]
         end; reflexivity.
Qed.

(** A confirmed click on a pending payment runs one execution, and
    (the replies of the handler reaching the chat):
    - a failed execution leaves the ledger and the queued notifications
      as they were;
    - a successful execution comes with a signature that was seen
      confirmed within the 30 attempts of the poll window;
    - when a signature was polled and the window ended in a timeout or
      in an on-chain failure, the execution answers that error;
    - after a failed execution the handler reports the failure, sends
      no recipient notice, deletes the pending payment id, and a second
      click on the same id is answered as expired without touching the
      world. *)
Lemma ledger_only_after_confirmation
    (query : CallbackQuery) (b : Bot) (action payment_id : string)
    (info : PaymentInfo) (pd : PaymentData) :
  nth_error (split "_" (q_data query)) 1 = Some action ->
  nth_error (split "_" (q_data query)) 2 = Some payment_id ->
  String.eqb action "cancel" = false ->
  pending_payments b !! payment_id = Some info ->
  q_from_user query = pi_telegram_id info ->
  pi_payment_data info = Some pd ->
  (forall text, edit_message_text_ok text || send_message_ok text = true) ->
  let exec := execute_payment_secure (pi_telegram_id info) pd (world b) in
  let out := payment_callback_handler query b in
  let again := payment_callback_handler query (snd out) in
  world (snd out) = snd exec
  /\ (is_success (fst exec) = false -> same_books (world b) (snd exec))
  /\ (forall r, fst exec = ExecSuccess r ->
       poll_verdict (rc_signature r) 30 0 = PollConfirmed)
  /\ (forall sig k, In (EvGetStatus sig k) (new_events (world b) (snd exec)) ->
       (poll_verdict sig 30 0 = PollTimeout ->
        fst exec = ExecFailed ErrConfirmationTimeout)
       /\ (poll_verdict sig 30 0 = PollFailed ->
           fst exec = ExecFailed ErrFailedOnChain))
  /\ (forall e, fst exec = ExecFailed e ->
       fst out = HExecuted (ExecFailed e)
       /\ outbox (snd out) = (outbox b ++ [TxtProcessing; TxtPaymentFailed e])%list
       /\ pending_payments (snd out) !! payment_id = None
       /\ fst again = HExpired
       /\ world (snd again) = world (snd out)).
Proof.
  intros Haction Hid Hcancel Hlookup Howner Hdata Hchat exec out again.
  pose proof (execute_payment_secure_settles (pi_telegram_id info) pd (world b))
    as (Hbooks & Hconfirmed & Hpolled).
  fold exec in Hbooks, Hconfirmed, Hpolled.
  assert (Hrun : out =
    let (result, w) := exec in
    let b2 := set_world w (post TxtProcessing b) in
    match result with
    | ExecSuccess r => handle_success query payment_id result r b2
    | ExecFailed e =>
        (HExecuted result, del_pending payment_id (post (TxtPaymentFailed e) b2))
    end).
  { subst out exec. unfold payment_callback_handler, handle_success.
    rewrite Haction, Hid, Hlookup, Howner, Z.eqb_refl, Hcancel. cbn [negb].
    rewrite (reply_reaches _ _ (Hchat _)). cbn [negb]. rewrite Hdata.
    cbn [world post].
    destruct (execute_payment_secure (pi_telegram_id info) pd (world b))
      as [[e|r] w]; [|reflexivity].
    now rewrite (reply_reaches _ _ (Hchat _)). }
  assert (Hworld : world (snd out) = snd exec).
  { rewrite Hrun. destruct exec as [[e|r] w]; cbn [fst snd]; [reflexivity|].
    apply handle_success_world. }
  split; [exact Hworld|]. split; [exact Hbooks|]. split; [exact Hconfirmed|].
  split; [exact Hpolled|].
  intros e Hfailed.
  assert (Hout : out = (HExecuted (ExecFailed e),
                        del_pending payment_id
                          (post (TxtPaymentFailed e)
                             (set_world (snd exec) (post TxtProcessing b))))).
  { rewrite Hrun. destruct exec as [result w]. cbn [fst snd] in *. now subst result. }
  assert (Hgone : pending_payments (snd out) !! payment_id = None).
  { rewrite Hout. cbn. apply lookup_delete_eq. }
  split; [now rewrite Hout|].
  split; [rewrite Hout; cbn; now rewrite <- app_assoc|].
  split; [exact Hgone|].
  subst again. unfold payment_callback_handler.
  rewrite Haction, Hid, Hgone, (reply_reaches _ _ (Hchat _)).
  split; reflexivity.
Qed.

End PaymentCallback.

Section PaymentCallbackScenarios.
Import Scenario.

Lemma ledger_only_after_confirmation_witness :
  let exec := execute_payment_secure 1 pd_dave (world bot0) in
  let out := payment_callback_handler confirm_click bot0 in
  let again := payment_callback_handler confirm_click (snd out) in
  (pending_payments bot0 !! "ab12cd34"
   = Some {| pi_telegram_id := 1; pi_payment_data := Some pd_dave;
             pi_timestamp := 99 |}
   /\ fst exec = ExecFailed ErrConfirmationTimeout)
  /\ fst out = HExecuted (ExecFailed ErrConfirmationTimeout)
  /\ same_books (world bot0) (world (snd out))
  /\ pending_payments (snd out) !! "ab12cd34" = None
  /\ fst again = HExpired.
Proof.
  split; [split; vm_compute; reflexivity|].
  destruct (ledger_only_after_confirmation confirm_click bot0 "confirm" "ab12cd34"
              {| pi_telegram_id := 1; pi_payment_data := Some pd_dave;
                 pi_timestamp := 99 |} pd_dave)
    as (Hworld & Hbooks & _ & _ & Hfailed); try (vm_compute; reflexivity).
  destruct (Hfailed ErrConfirmationTimeout) as (Hout & _ & Hgone & Hagain & _);
    [vm_compute; reflexivity|].
  split; [exact Hout|]. split; [|split; [exact Hgone | exact Hagain]].
  rewrite Hworld. apply Hbooks. vm_compute. reflexivity.
Defined.

End PaymentCallbackScenarios.

(** ** Wallet creation and the transfer *)

Section WalletBeforeTransfer.
Import Scenario.

(** C1, evaluated on the code. For the unregistered handle dave the
    wallet is generated in memory and the transfer to it is submitted
    before any write to the store. When confirmation does not arrive the
    execution ends in a timeout with the store unchanged: the wallet
    that was paid, and its key, are recorded nowhere. When confirmation
    arrives, the pending wallet record is written after the transfer. *)
Theorem new_user_transfer_precedes_wallet_record :
  let w := world_of [alice; bob] in
  let out := execute_payment_secure 1 pd_dave w in
  let settled := @execute_payment_secure secrets tagging prompt_network 1 pd_dave w in
  fst out = ExecFailed ErrConfirmationTimeout
  /\ transfers_and_writes (trace (snd out))
     = [EvTransfer "SOL" (Some "FreshWallet") 1%float]
  /\ users (snd out) = users w
  /\ is_success (fst settled) = true
  /\ transfers_and_writes (trace (snd settled))
     = [EvTransfer "SOL" (Some "FreshWallet") 1%float;
        EvStoreWrite "save_payment_transaction";
        EvStoreWrite "create_pending_user_by_username"]
  /\ (pending_wallet_address <$> fst (get_user_by_username "dave" (snd settled)))
     = Some (Some "FreshWallet").
Proof. repeat split; vm_compute; reflexivity. Qed.

(** The sibling path: for a registered identity without a wallet the
    wallet is activated in the store before the transfer is submitted,
    and stays there when the payment times out. *)
Lemma registered_recipient_wallet_precedes_transfer :
  let w := world_of [alice; bob; erin] in
  let out := execute_payment_secure 1 pd_erin w in
  fst out = ExecFailed ErrConfirmationTimeout
  /\ transfers_and_writes (trace (snd out))
     = [EvStoreWrite "activate_pending_wallet";
        EvTransfer "SOL" (Some "FreshWallet") 1%float]
  /\ (wallet_address <$> fst (get_user 3 (snd out))) = Some (Some "FreshWallet").
Proof. repeat split; vm_compute; reflexivity. Qed.

End WalletBeforeTransfer.

(** ** A payment to an unregistered handle that does not settle *)

Section UnregisteredRecipient.
Local Open Scope monad_scope.
Context `{Secrets} `{CryptoLib} `{Environment}.

Lemma untouched_ret {A} (a : A) : untouched (ret a).
Proof. intros w. reflexivity. Qed.

Lemma untouched_bind {A B} (c : M A) (k : A -> M B) :
  untouched c -> (forall a, untouched (k a)) -> untouched (bind c k).
Proof.
  intros Hc Hk w. unfold bind. specialize (Hc w).
  destruct (c w) as [a w1]. cbn in *. now rewrite Hk.
Qed.

Ltac untouched_step :=
  match goal with
  | |- untouched (bind _ _) => apply untouched_bind; [|intros ?]
  | |- untouched (ret _) => apply untouched_ret
  | |- untouched (match ?x with _ => _ end) => destruct x
  | |- untouched _ => intros ?; reflexivity
  end.

Lemma untouched_poll_confirmation (signature : string) (remaining attempt : nat) :
  untouched (poll_confirmation signature remaining attempt).
Proof.
  revert attempt. induction remaining as [|n IH]; intros attempt;
    cbn [poll_confirmation]; [apply untouched_ret|].
  unfold sleep, get_transaction_status, emit.
  repeat untouched_step. all: apply IH.
Qed.

Lemma wp_bind_untouched {A B} (c : M A) (k : A -> M B) (Q : B -> World -> Prop)
    (w0 w : World) :
  untouched c -> users w = users w0 ->
  (forall a w1, users w1 = users w0 -> wp (k a) Q w1) ->
  wp (bind c k) Q w.
Proof.
  intros Hc Hw Hk. apply wp_bind. unfold wp at 1. apply Hk. now rewrite Hc.
Qed.

Lemma wp_bind_any {A B} (c : M A) (k : A -> M B) (Q : B -> World -> Prop)
    (w : World) :
  (forall a w1, wp (k a) Q w1) -> wp (bind c k) Q w.
Proof. intros Hk. apply wp_bind. unfold wp at 1. apply Hk. Qed.

Ltac solve_untouched :=
  first
    [ apply untouched_poll_confirmation
    | unfold get_decrypted_private_key, get_user, find_one, get_sol_balance,
        create_new_wallet, encrypt_private_key, execute_sol_transfer,
        execute_spl_transfer;
      repeat untouched_step ].

Ltac keep_step :=
  match goal with
  | Hw : users ?w = users ?w0 |- wp (bind ?c ?k) ?Q ?w =>
      apply (wp_bind_untouched c k Q w0 w);
      [solve [solve_untouched] | exact Hw | clear Hw; intros ? ? Hw]
  | Hw : users ?w = users ?w0 |- wp (ret (ExecFailed _)) _ ?w =>
      intros _; exact Hw
  | |- wp (ret (ExecSuccess _)) _ _ => discriminate
  | |- wp (bind ?c ?k) ?Q ?w => apply (wp_bind_any c k Q w); intros ? ?
  | |- wp (match ?x with _ => _ end) _ _ => destruct x
  end.

Lemma unsettled_new_user_from (sender : Z) (pd : PaymentData) (w0 w : World) :
  pd_recipient_status pd = new_user ->
  users w = users w0 ->
  wp (execute_payment_secure sender pd)
     (fun r w' => is_success r = false -> users w' = users w0) w.
Proof.
  intros Hstatus Hw. unfold execute_payment_secure. rewrite Hstatus.
  repeat keep_step.
Qed.

(** For an unregistered recipient, an execution that does not succeed
    leaves the collection exactly as it was, whether or not the transfer
    had been submitted: the generated wallet is stored nowhere. *)
Theorem unsettled_payment_to_new_user_leaves_no_record
    (sender : Z) (pd : PaymentData) (w : World) :
  pd_recipient_status pd = new_user ->
  let out := execute_payment_secure sender pd w in
  is_success (fst out) = false -> users (snd out) = users w.
Proof.
  intros Hstatus. now apply (unsettled_new_user_from sender pd w w).
Qed.

End UnregisteredRecipient.

(** ** Import of a private key *)

Section WalletImport.
Import Py Database WalletManager.
Context `{KeyCodec}.

(** C10. The import always answers a result. It succeeds only if the
    input, stripped of the white space around it, decodes, as base58 or
    failing that as hex, to exactly 64 bytes; and whenever the stripped
    input does not so decode, the answer is a failure with a non-empty
    error message and no wallet. *)
Theorem import_from_private_key_total (private_key : string) :
  let result := import_from_private_key private_key in
  let decoded := decode_private_key (strip private_key) in
  ((exists address key, result = ImportOk address key)
   \/ (exists error, result = ImportError error /\ error <> EmptyString))
  /\ (forall address key, result = ImportOk address key ->
      exists bytes, decoded = Some bytes /\ String.length bytes = 64%nat)
  /\ ((forall bytes, decoded = Some bytes -> String.length bytes <> 64%nat) ->
      exists error, result = ImportError error /\ error <> EmptyString).
Proof.
  intros result decoded. subst result decoded. unfold import_from_private_key.
  destruct (decode_private_key (strip private_key)) as [bytes|].
  2:{ split; [right; eexists; split; [reflexivity | discriminate]|].
      split; [discriminate|]. intros _. eexists; split; [reflexivity | discriminate]. }
  destruct (String.length bytes =? 64)%nat eqn:Hlen; cbn [negb].
  2:{ split; [right; eexists; split; [reflexivity | discriminate]|].
      split; [discriminate|]. intros _. eexists; split; [reflexivity | discriminate]. }
  apply Nat.eqb_eq in Hlen.
  destruct (keypair_pubkey bytes) as [public_key|exc].
  - split; [left; eauto|]. split; [intros ? ? _; eauto|].
    intros Hno. now destruct (Hno bytes eq_refl).
  - split; [right; eexists; split; [reflexivity | discriminate]|].
    split; [discriminate|]. intros _. eexists; split; [reflexivity | discriminate].
Qed.

End WalletImport.

(** ** The import on concrete keys *)

Section WalletImportExamples.
Import Py Database WalletManager Codec.
Variable keypair : string -> Outcome string.

(** A base58 string of 64 bytes reaches [Keypair.from_bytes] with the
    spaces around it stripped, and is kept as typed when the keypair is
    accepted. *)
Example import_base58_keypair :
  import_with keypair
    " 2Ana1pUpv2ZbMVkwF5FXapYeBEjdxDatLn7nvJkhgTSXbs59SyZSx866bXirPgj8QQVB57uxHJBG1YFvkRbFj4T "
  = answer_for keypair one_to_sixty_four
      "2Ana1pUpv2ZbMVkwF5FXapYeBEjdxDatLn7nvJkhgTSXbs59SyZSx866bXirPgj8QQVB57uxHJBG1YFvkRbFj4T".
Proof. vm_compute. reflexivity. Qed.

(** The same key behind a no-break space (U+00A0, the bytes 194 and 160)
    and before an ideographic space (U+3000, the bytes 227, 128 and
    128): [strip] removes both. *)
Example import_behind_a_no_break_space :
  import_with keypair
    (String "194" (String "160"
       ("2Ana1pUpv2ZbMVkwF5FXapYeBEjdxDatLn7nvJkhgTSXbs59SyZSx866bXirPgj8QQVB57uxHJBG1YFvkRbFj4T"
        ++ String "227" (String "128" (String "128" EmptyString)))))
  = answer_for keypair one_to_sixty_four
      "2Ana1pUpv2ZbMVkwF5FXapYeBEjdxDatLn7nvJkhgTSXbs59SyZSx866bXirPgj8QQVB57uxHJBG1YFvkRbFj4T".
Proof. vm_compute. reflexivity. Qed.

(** A hexadecimal string of 64 bytes reaches [Keypair.from_bytes] when
    base58 refuses it (here for its digit 0). *)
Example import_hex_keypair :
  import_with keypair
    "0102030405060708090a0b0c0d0e0f101112131415161718191a1b1c1d1e1f202122232425262728292a2b2c2d2e2f303132333435363738393a3b3c3d3e3f40"
  = answer_for keypair one_to_sixty_four
      "0102030405060708090a0b0c0d0e0f101112131415161718191a1b1c1d1e1f202122232425262728292a2b2c2d2e2f303132333435363738393a3b3c3d3e3f40".
Proof. vm_compute. reflexivity. Qed.

(** Hexadecimal digits that are all base58 characters are read as
    base58, and the length test refuses what comes out. *)
Example import_hex_read_as_base58 :
  import_with keypair
    "1122334455667788991122334455667788991122334455667788991122334455667788991122334455667788991122334455667788991122334455667788aabb"
  = ImportError "Invalid private key length".
Proof. vm_compute. reflexivity. Qed.

Example import_not_a_key :
  import_with keypair "0" = ImportError "Invalid private key format"
  /\ import_with keypair EmptyString = ImportError "Invalid private key length"
  /\ import_with keypair "zz" = ImportError "Invalid private key length".
Proof. repeat split; vm_compute; reflexivity. Qed.

End WalletImportExamples.

(** ** Key custody *)

Section KeyCustody.
Context `{Secrets} `{CryptoLib}.

(** What the Fernet library promises of its own tokens: decrypting with
    the key that encrypted gives the data back. *)
Hypothesis fernet_correct : forall key iv t data,
  fernet_decrypt key (fernet_encrypt key iv t data) = Some data.

(** Under that promise, a key encrypted for an identity decrypts for
    that identity, whatever IV and timestamp the encryption drew. *)
Lemma decrypt_encrypt_round_trip (private_key : string) (id : Z) (w : World) :
  decrypt_private_key (fst (encrypt_private_key private_key id w)) id
  = Some private_key.
Proof.
  unfold decrypt_private_key, encrypt_private_key, fresh, now, bind, ret.
  cbn. apply fernet_correct.
Qed.

(** The same for the stored wallet: after [save_wallet], the key that
    [get_decrypted_private_key] returns is the key that was saved. *)
Lemma saved_key_is_returned
    (id : Z) (address private_key type_ : string) (w : World) (u : UserDoc) :
  List.find (by_telegram_id id) (users w) = Some u ->
  fst (get_decrypted_private_key id
         (snd (save_wallet id address private_key type_ w)))
  = match fernet_encrypt (derive_key_from_telegram_id id) (rng w) (clock w)
            private_key with
    | EmptyString => Returned None
    | _ => Returned (Some private_key)
    end.
Proof.
  intros Hfind.
  destruct (save_wallet_stored id address private_key type_ w u Hfind)
    as (_ & _ & Hstored).
  unfold get_decrypted_private_key, get_user, find_one, get_users, bind, ret.
  cbn [fst snd]. rewrite Hstored. cbn [encrypted_private_key set_wallet truthy_str].
  destruct (fernet_encrypt _ _ _ _) as [|c token] eqn:Htoken; [reflexivity|].
  cbn [negb]. unfold decrypt_private_key. cbn [from_option]. unfold Datatypes.id.
  rewrite <- Htoken, fernet_correct. reflexivity.
Qed.

End KeyCustody.

Section KeyCustodyScenario.
Import Scenario.

Lemma prefix_app (k d : string) : String.prefix k (k ++ d) = true.
Proof.
  induction k as [|c r IH]; [now destruct d|].
  change (String.prefix (String c r) (String c (r ++ d)) = true).
  cbn [String.prefix]. destruct (ascii_dec c c); [exact IH | contradiction].
Qed.

Lemma substring_all (d : string) : String.substring 0 (String.length d) d = d.
Proof. induction d as [|c r IH]; cbn; [reflexivity | now rewrite IH]. Qed.

Lemma substring_after (k d : string) :
  String.substring (String.length k)
                   (String.length (k ++ d) - String.length k) (k ++ d) = d.
Proof.
  induction k as [|c r IH].
  - change (EmptyString ++ d) with d. cbn [String.length].
    rewrite Nat.sub_0_r. apply substring_all.
  - change (String c r ++ d) with (String c (r ++ d)).
    cbn [String.length String.substring Nat.sub]. exact IH.
Qed.

Lemma append_assoc (a b c : string) : (a ++ b) ++ c = a ++ b ++ c.
Proof.
  induction a as [|x r IH]; [reflexivity|].
  change (String x ((r ++ b) ++ c) = String x (r ++ b ++ c)). now rewrite IH.
Qed.

(** The stand-in cipher of the scenarios keeps Fernet's promise. *)
Lemma tagging_is_correct (key : string) (iv : nat) (t : Z) (data : string) :
  fernet_decrypt key (fernet_encrypt key iv t data) = Some data.
Proof.
  cbn. unfold tag_decrypt, tag_encrypt.
  rewrite <- append_assoc.
  now rewrite prefix_app, substring_after.
Qed.

Lemma decrypt_encrypt_round_trip_witness :
  decrypt_private_key
    (fst (encrypt_private_key "alice-key" 1 (world_of [alice; bob]))) 1
  = Some "alice-key".
Proof.
  apply (decrypt_encrypt_round_trip tagging_is_correct).
Defined.

End KeyCustodyScenario.

(** ** The confirmation callback as a gate *)

Section CallbackGate.
Context `{Secrets} `{CryptoLib} `{Environment} `{Telegram}.

Lemma reply_world (text : ChatText) (b : Bot) :
  world (snd (reply text b)) = world b
  /\ pending_payments (snd (reply text b)) = pending_payments b.
Proof.
  unfold reply. destruct (edit_message_text_ok text); [split; reflexivity|].
  destruct (send_message_ok text); split; reflexivity.
Qed.

Lemma on_exception_world (b : Bot) :
  world (snd (on_exception b)) = world b
  /\ pending_payments (snd (on_exception b)) = pending_payments b.
Proof.
  unfold on_exception. pose proof (reply_world TxtHandlerError b) as Hr.
  destruct (reply TxtHandlerError b) as [ok b']. exact Hr.
Qed.

(** X1. A click changes the world only when it is the confirm click of
    the user who requested a pending payment that carries its payment
    data; the world it leaves is then the one that the execution of that
    payment leaves. Every other click (unknown or expired id, another
    user, cancel, malformed data, a failed reply) leaves the world as it
    was. *)
Theorem only_the_owner_confirm_reaches_the_store (query : CallbackQuery) (b : Bot) :
  let out := payment_callback_handler query b in
  world (snd out) = world b
  \/ exists action payment_id info pd,
       nth_error (split "_" (q_data query)) 1 = Some action
       /\ nth_error (split "_" (q_data query)) 2 = Some payment_id
       /\ pending_payments b !! payment_id = Some info
       /\ q_from_user query = pi_telegram_id info
       /\ String.eqb action "cancel" = false
       /\ pi_payment_data info = Some pd
       /\ world (snd out)
          = snd (execute_payment_secure (pi_telegram_id info) pd (world b)).
Proof.
  intros out. subst out. unfold payment_callback_handler.
  destruct (nth_error (split "_" (q_data query)) 1) as [action|] eqn:Ha;
    [|left; apply on_exception_world].
  destruct (nth_error (split "_" (q_data query)) 2) as [payment_id|] eqn:Hp;
    [|left; apply on_exception_world].
  destruct (pending_payments b !! payment_id) as [info|] eqn:Hinfo.
  2:{ left. pose proof (reply_world TxtExpired b) as [Hw _].
      destruct (reply TxtExpired b) as [[] b1]; cbn [snd] in *; [exact Hw|].
      rewrite (proj1 (on_exception_world b1)). exact Hw. }
  destruct (q_from_user query =? pi_telegram_id info)%Z eqn:Howner; cbn [negb];
    [|left; reflexivity].
  apply Z.eqb_eq in Howner.
  destruct (String.eqb action "cancel") eqn:Hcancel.
  { left. pose proof (reply_world TxtCancelled b) as [Hw _].
    destruct (reply TxtCancelled b) as [[] b1]; cbn [snd] in *; [exact Hw|].
    rewrite (proj1 (on_exception_world b1)). exact Hw. }
  pose proof (reply_world TxtProcessing b) as [Hw _].
  destruct (reply TxtProcessing b) as [[] b1]; cbn [snd negb] in *.
  2:{ left. rewrite (proj1 (on_exception_world b1)). exact Hw. }
  destruct (pi_payment_data info) as [pd|] eqn:Hpd.
  2:{ left. rewrite (proj1 (on_exception_world b1)). exact Hw. }
  right. exists action, payment_id, info, pd. repeat (split; [assumption || reflexivity|]).
  rewrite Hw.
  destruct (execute_payment_secure (pi_telegram_id info) pd (world b)) as [result w].
  cbn [snd].
  change (world (snd (match result with
                      | ExecSuccess r => handle_success query payment_id result r (set_world w b1)
                      | ExecFailed e =>
                          let (ok, b3) := reply (TxtPaymentFailed e) (set_world w b1) in
                          if negb ok then on_exception b3
                          else (HExecuted result, del_pending payment_id b3)
                      end)) = w).
  destruct result as [e|r].
  - pose proof (reply_world (TxtPaymentFailed e) (set_world w b1)) as [Hw3 _].
    destruct (reply (TxtPaymentFailed e) (set_world w b1)) as [[] b3]; cbn [snd negb] in *.
    + exact Hw3.
    + rewrite (proj1 (on_exception_world b3)). exact Hw3.
  - apply handle_success_world.
Qed.

Lemma reply_pending (text : ChatText) (b : Bot) :
  pending_payments (snd (reply text b)) = pending_payments b.
Proof.
  unfold reply. destruct (edit_message_text_ok text); [reflexivity|].
  destruct (send_message_ok text); reflexivity.
Qed.

Lemma on_exception_pending (b : Bot) :
  pending_payments (snd (on_exception b)) = pending_payments b.
Proof.
  unfold on_exception. pose proof (reply_pending TxtHandlerError b) as Hr.
  destruct (reply TxtHandlerError b) as [ok b']. exact Hr.
Qed.

Lemma handle_success_pending (query : CallbackQuery) (payment_id : string)
    (result : ExecResult) (r : Receipt) (b2 : Bot) :
  let out := handle_success query payment_id result r b2 in
  pending_payments (snd out) = pending_payments b2
  \/ pending_payments (snd out) = delete payment_id (pending_payments b2).
Proof.
  unfold handle_success, on_exception, reply, _send_recipient_notification, try_send.
  repeat match goal with
         | |- context [if ?c then _ else _] => destruct c; cbn [negb fst snd]
         end; auto.
Qed.

(** X2. The handler never adds or alters a pending payment: what is
    pending after a click was pending before, with the same content, and
    the only entry that can disappear is the one the click names. *)
Theorem callback_only_removes_the_clicked_payment
    (query : CallbackQuery) (b : Bot) :
  let out := payment_callback_handler query b in
  pending_payments (snd out) = pending_payments b
  \/ exists payment_id,
       nth_error (split "_" (q_data query)) 2 = Some payment_id
       /\ pending_payments (snd out) = delete payment_id (pending_payments b).
Proof.
  intros out. subst out. unfold payment_callback_handler.
  destruct (nth_error (split "_" (q_data query)) 1) as [action|];
    [|left; apply on_exception_pending].
  destruct (nth_error (split "_" (q_data query)) 2) as [payment_id|];
    [|left; apply on_exception_pending].
  destruct (pending_payments b !! payment_id) as [info|].
  2:{ left. pose proof (reply_pending TxtExpired b) as Hp.
      destruct (reply TxtExpired b) as [[] b1]; cbn [snd] in *; [exact Hp|].
      now rewrite on_exception_pending. }
  destruct (q_from_user query =? pi_telegram_id info)%Z; cbn [negb];
    [|left; reflexivity].
  destruct (String.eqb action "cancel").
  { pose proof (reply_pending TxtCancelled b) as Hp.
    destruct (reply TxtCancelled b) as [[] b1]; cbn [snd] in *.
    - right. exists payment_id. split; [reflexivity|].
      cbn [pending_payments del_pending]. now rewrite Hp.
    - left. now rewrite on_exception_pending. }
  pose proof (reply_pending TxtProcessing b) as Hp.
  destruct (reply TxtProcessing b) as [[] b1]; cbn [snd negb] in *.
  2:{ left. now rewrite on_exception_pending. }
  destruct (pi_payment_data info) as [pd|].
  2:{ left. now rewrite on_exception_pending. }
  destruct (execute_payment_secure (pi_telegram_id info) pd (world b1)) as [result w].
  change (let out := match result with
                     | ExecSuccess r => handle_success query payment_id result r (set_world w b1)
                     | ExecFailed e =>
                         let (ok, b3) := reply (TxtPaymentFailed e) (set_world w b1) in
                         if negb ok then on_exception b3
                         else (HExecuted result, del_pending payment_id b3)
                     end in
          pending_payments (snd out) = pending_payments b
          \/ exists payment_id0, Some payment_id = Some payment_id0
               /\ pending_payments (snd out) = delete payment_id0 (pending_payments b)).
  destruct result as [e|r]; cbn zeta.
  - pose proof (reply_pending (TxtPaymentFailed e) (set_world w b1)) as Hp3.
    destruct (reply (TxtPaymentFailed e) (set_world w b1)) as [[] b3]; cbn [snd negb] in *.
    + right. exists payment_id. split; [reflexivity|].
      cbn [pending_payments del_pending]. rewrite Hp3. cbn [pending_payments set_world].
      now rewrite Hp.
    + left. rewrite on_exception_pending, Hp3. exact Hp.
  - destruct (handle_success_pending query payment_id (ExecSuccess r) r (set_world w b1))
      as [Hs|Hs]; cbn zeta in Hs; rewrite Hs; cbn [pending_payments set_world].
    + left. exact Hp.
    + right. exists payment_id. split; [reflexivity|]. now rewrite Hp.
Qed.

(** X3. A click by anyone but the user who requested the payment leaves
    the process exactly as it was: nothing is executed, nothing is
    deleted, nothing is sent to the chat. *)
Theorem click_by_another_user_changes_nothing
    (query : CallbackQuery) (b : Bot) (action payment_id : string) (info : PaymentInfo) :
  nth_error (split "_" (q_data query)) 1 = Some action ->
  nth_error (split "_" (q_data query)) 2 = Some payment_id ->
  pending_payments b !! payment_id = Some info ->
  q_from_user query <> pi_telegram_id info ->
  payment_callback_handler query b = (HNotOwner, b).
Proof.
  intros Ha Hp Hinfo Hother. unfold payment_callback_handler.
  rewrite Ha, Hp, Hinfo.
  destruct (q_from_user query =? pi_telegram_id info)%Z eqn:Heq; [|reflexivity].
  apply Z.eqb_eq in Heq. contradiction.
Qed.

(** X4. Cancelling: the owner's cancel click removes the pending payment
    without executing anything, and any later click on that id, confirm
    included, is answered as expired with the world untouched. *)
Theorem cancel_discards_the_pending_payment
    (query later : CallbackQuery) (b : Bot) (payment_id action : string)
    (info : PaymentInfo) :
  nth_error (split "_" (q_data query)) 1 = Some "cancel" ->
  nth_error (split "_" (q_data query)) 2 = Some payment_id ->
  pending_payments b !! payment_id = Some info ->
  q_from_user query = pi_telegram_id info ->
  nth_error (split "_" (q_data later)) 1 = Some action ->
  nth_error (split "_" (q_data later)) 2 = Some payment_id ->
  (forall text, edit_message_text_ok text || send_message_ok text = true) ->
  let out := payment_callback_handler query b in
  let again := payment_callback_handler later (snd out) in
  fst out = HCancelled
  /\ world (snd out) = world b
  /\ pending_payments (snd out) = delete payment_id (pending_payments b)
  /\ outbox (snd out) = (outbox b ++ [TxtCancelled])%list
  /\ fst again = HExpired
  /\ world (snd again) = world b.
Proof.
  intros Ha Hp Hinfo Howner Hla Hlp Hchat out again.
  assert (Hout : out = (HCancelled, del_pending payment_id (post TxtCancelled b))).
  { subst out. unfold payment_callback_handler.
    rewrite Ha, Hp, Hinfo, Howner, Z.eqb_refl. cbn [negb String.eqb Ascii.eqb Bool.eqb].
    now rewrite (reply_reaches _ _ (Hchat _)). }
  subst again. rewrite Hout. cbn [fst snd].
  split; [reflexivity|]. split; [reflexivity|]. split; [reflexivity|].
  split; [reflexivity|].
  unfold payment_callback_handler. rewrite Hla, Hlp.
  cbn [pending_payments del_pending post]. rewrite lookup_delete_eq.
  rewrite (reply_reaches _ _ (Hchat _)). split; reflexivity.
Qed.

End CallbackGate.

Section CallbackGateScenarios.
Import Scenario.

Lemma click_by_another_user_changes_nothing_witness :
  q_from_user {| q_data := "pay_confirm_ab12cd34"; q_from_user := 2; q_chat_type := "group" |}
    <> 1%Z
  /\ payment_callback_handler
       {| q_data := "pay_confirm_ab12cd34"; q_from_user := 2; q_chat_type := "group" |} bot0
     = (HNotOwner, bot0).
Proof.
  split; [cbn; discriminate|].
  apply (click_by_another_user_changes_nothing _ bot0 "confirm" "ab12cd34"
           {| pi_telegram_id := 1; pi_payment_data := Some pd_dave; pi_timestamp := 99 |});
    try (vm_compute; reflexivity).
  cbn. discriminate.
Defined.

Lemma cancel_discards_the_pending_payment_witness :
  let cancel := {| q_data := "pay_cancel_ab12cd34"; q_from_user := 1; q_chat_type := "private" |} in
  let out := payment_callback_handler cancel bot0 in
  let again := payment_callback_handler confirm_click (snd out) in
  pending_payments bot0 !! "ab12cd34"
    = Some {| pi_telegram_id := 1; pi_payment_data := Some pd_dave; pi_timestamp := 99 |}
  /\ fst out = HCancelled
  /\ pending_payments (snd out) !! "ab12cd34" = None
  /\ fst again = HExpired
  /\ world (snd again) = world bot0.
Proof.
  split; [vm_compute; reflexivity|].
  destruct (cancel_discards_the_pending_payment
              {| q_data := "pay_cancel_ab12cd34"; q_from_user := 1; q_chat_type := "private" |}
              confirm_click bot0 "ab12cd34" "confirm"
              {| pi_telegram_id := 1; pi_payment_data := Some pd_dave; pi_timestamp := 99 |})
    as (Hout & _ & Hgone & _ & Hagain & Hworld); try (vm_compute; reflexivity).
  split; [exact Hout|]. split; [rewrite Hgone; apply lookup_delete_eq|].
  split; [exact Hagain | exact Hworld].
Defined.

End CallbackGateScenarios.

(** ** The preview: what validation touches and what it promises *)

Section ReadOnly.
Import Traces.
Local Open Scope monad_scope.

Lemma world_eta (w : World) :
  w = {| users := users w; trace := trace w ++ []; clock := clock w; rng := rng w |}.
Proof. destruct w. cbn. now rewrite app_nil_r. Qed.

Lemma reads_only_ret {A} (P : Event -> bool) (a : A) : reads_only P (ret a).
Proof. intros w. exists []. split; [apply world_eta | reflexivity]. Qed.

Lemma reads_only_bind {A B} (P : Event -> bool) (c : M A) (k : A -> M B) :
  reads_only P c -> (forall a, reads_only P (k a)) -> reads_only P (bind c k).
Proof.
  intros Hc Hk w. unfold bind. destruct (Hc w) as (e1 & H1 & F1).
  destruct (c w) as [a w1]. cbn [snd] in H1. subst w1.
  destruct (Hk a {| users := users w; trace := trace w ++ e1;
                    clock := clock w; rng := rng w |}) as (e2 & H2 & F2).
  exists (e1 ++ e2)%list. split.
  - rewrite H2. cbn. now rewrite app_assoc.
  - rewrite forallb_app, F1, F2. reflexivity.
Qed.

Lemma reads_only_emit (P : Event -> bool) (e : Event) :
  P e = true -> reads_only P (emit e).
Proof. intros He w. exists [e]. split; [reflexivity | cbn; now rewrite He]. Qed.

Lemma reads_only_get_users (P : Event -> bool) : reads_only P get_users.
Proof. intros w. exists []. split; [apply world_eta | reflexivity]. Qed.

End ReadOnly.

Ltac reads_only_step :=
  match goal with
  | |- Traces.reads_only _ (bind _ _) => apply reads_only_bind; [|intros ?]
  | |- Traces.reads_only _ (ret _) => apply reads_only_ret
  | |- Traces.reads_only _ (emit _) => apply reads_only_emit; reflexivity
  | |- Traces.reads_only _ get_users => apply reads_only_get_users
  | |- Traces.reads_only _ (match ?x with _ => _ end) => destruct x
  | |- Traces.reads_only _ (let (_, _) := ?x in _) => destruct x
  end.

Section PreviewReadsOnly.
Import Traces Config FeeEstimator.
Local Open Scope monad_scope.
Context `{Environment}.

Lemma reads_only_send_payment (id : Z) (recipient_username amount token : string) :
  reads_only is_balance_read (_send_payment id recipient_username amount token).
Proof.
  unfold _send_payment, _check_payment_balance, get_user, get_user_by_username,
    find_one, get_sol_balance, _get_wallet_balance_alchemy.
  cbv zeta.
  repeat reads_only_step.
Qed.

Lemma balance_reads_are_not_transfers (evs : list Event) :
  forallb is_balance_read evs = true ->
  List.filter is_transfer evs = [] /\ List.filter is_store_write evs = [].
Proof.
  induction evs as [|e rest IH]; [split; reflexivity|].
  cbn [forallb]. intros Hall. apply andb_true_iff in Hall as [He Hrest].
  destruct (IH Hrest) as [Ht Hs].
  destruct e; cbn in He; try discriminate; cbn; now rewrite ?Ht, ?Hs.
Qed.

(** X5. Validation only reads: whatever it is asked and whatever it answers,
    [_send_payment] leaves the collection, the clock and the random
    counter as they were, and the only calls it makes are balance reads:
    it submits no transfer and writes nothing to the store. *)
Theorem preview_only_reads
    (id : Z) (recipient_username amount token : string) (w : World) :
  let out := _send_payment id recipient_username amount token w in
  exists reads,
    snd out = {| users := users w; trace := trace w ++ reads;
                 clock := clock w; rng := rng w |}
    /\ forallb is_balance_read reads = true
    /\ submitted w (snd out) = []
    /\ List.filter is_store_write (new_events w (snd out)) = [].
Proof.
  intros out. subst out.
  destruct (reads_only_send_payment id recipient_username amount token w)
    as (reads & Hw & Hall).
  exists reads. split; [exact Hw|]. split; [exact Hall|].
  unfold submitted, new_events. rewrite Hw. cbn [trace].
  rewrite drop_app_length. now apply balance_reads_are_not_transfers.
Qed.

End PreviewReadsOnly.

Section PreviewContents.
Import Traces Previews Config FeeEstimator.
Local Open Scope monad_scope.
Context `{Environment}.

Lemma recipient_state_coherent (recipient : option UserDoc)
    (status : RecipientStatus) (rid : option Z) (wallet : option string)
    (creation rent : bool) :
  recipient_state recipient = Some (status, rid, wallet, creation, rent) ->
  rent = creation
  /\ match status with
     | new_user => wallet = None /\ rid = None /\ creation = true
     | active => truthy_str wallet = true /\ truthy_int rid = true /\ creation = false
     | user_no_wallet => wallet = None /\ truthy_int rid = true /\ creation = true
     | pending_wallet => truthy_str wallet = true /\ rid = None /\ creation = false
     end.
Proof.
  unfold recipient_state. destruct recipient as [r|].
  - destruct (truthy_int (telegram_id r)) eqn:Hid;
      destruct (truthy_str (wallet_address r)) eqn:Hw; cbn [andb negb].
    + intros [= <- <- <- <- <-]. auto.
    + intros [= <- <- <- <- <-]. auto.
    + destruct (truthy_str (pending_wallet_address r)) eqn:Hp; [|discriminate].
      intros [= <- <- <- <- <-]. auto.
    + destruct (truthy_str (pending_wallet_address r)) eqn:Hp; [|discriminate].
      intros [= <- <- <- <- <-]. auto.
  - intros [= <- <- <- <- <-]. auto.
Qed.

(** X6. What a preview carries. When [_send_payment] answers a preview,
    its amount is the parsed amount and is not zero or negative, its
    token is one of the table, with the mint and decimals of the table
    (for a token typed in ASCII, the upper-cased input), its recipient
    is, for a handle typed in ASCII, the normalised handle, and its
    recipient fields agree with the state found in the store for its
    recipient: a wallet exactly for an active or pending recipient, an
    identity exactly for an active or wallet-less one, wallet creation
    exactly for a new or wallet-less one. The sender has a wallet, and
    the fee is the estimate for that token with or without account
    creation. *)
Theorem preview_is_coherent
    (id : Z) (recipient_username amount token : string) (w : World)
    (pd : PaymentData) :
  fst (_send_payment id recipient_username amount token w) = PreviewOk pd ->
  python_float amount = Some (pd_amount pd)
  /\ (pd_amount pd <=? 0)%float = false
  /\ (is_ascii token = true -> pd_token pd = upper token)
  /\ (exists config, token_lookup SUPPORTED_PAYMENT_TOKENS (pd_token pd) = Some config
        /\ pd_token_mint pd = mint config
        /\ pd_token_decimals pd = decimals config)
  /\ (is_ascii recipient_username = true ->
      pd_recipient_username pd = normalize_username recipient_username)
  /\ coherent pd
  /\ recipient_state (List.find (by_username (pd_recipient_username pd)) (users w))
     = Some (pd_recipient_status pd, pd_recipient_telegram_id pd,
             pd_recipient_wallet pd, pd_needs_wallet_creation pd,
             pd_needs_wallet_creation pd)
  /\ (exists sender, List.find (by_telegram_id id) (users w) = Some sender
        /\ truthy_str (wallet_address sender) = true
        /\ pd_sender_wallet pd = wallet_address sender
        /\ pd_sender_username pd = username sender)
  /\ pd_network_fee pd
     = _estimate_network_fee (pd_needs_wallet_creation pd) (pd_token pd).
Proof.
  unfold _send_payment. cbv zeta.
  destruct (python_float amount) as [a|]; [|discriminate].
  destruct (a <=? 0)%float eqn:Hpos; [discriminate|].
  destruct (token_lookup SUPPORTED_PAYMENT_TOKENS (upper token)) as [config|] eqn:Hcfg;
    [|discriminate].
  unfold get_user, get_user_by_username, find_one, get_users, bind, ret.
  cbn [fst snd].
  destruct (List.find (by_telegram_id id) (users w)) as [s|] eqn:Hs; [|discriminate].
  destruct (truthy_str (wallet_address s)) eqn:Hsw; cbn [negb]; [|discriminate].
  rewrite normalize_username_idem.
  destruct (recipient_state _) as [[[[[status rid] wallet] creation] rent]|] eqn:Hstate;
    [|discriminate].
  destruct (recipient_state_coherent _ _ _ _ _ _ Hstate) as [-> Hcoherent].
  destruct (creation && String.eqb (upper token) "SOL"
            && (a <? MINIMUM_SOL_TRANSFER_NEW_USER)%float); [discriminate|].
  match goal with
  | |- fst (let (_, _) := ?c in _) = _ -> _ => destruct c as [rejected w1]
  end.
  destruct rejected; [discriminate|].
  destruct (_check_payment_balance id a (upper token) _ w1) as [[e|] w2];
    [discriminate|].
  cbn [fst]. intros [= <-]. cbn.
  repeat split; try reflexivity; try assumption.
  - exists config. auto.
  - exists s. auto.
Qed.

End PreviewContents.

Section PreviewFunds.
Import Traces Previews Config FeeEstimator.
Local Open Scope monad_scope.
Context `{Environment}.

Lemma estimate_is_a_number (creation : bool) (token : string) :
  is_number (_estimate_network_fee creation token) = true.
Proof.
  unfold _estimate_network_fee.
  destruct creation, (is_spl_token token); vm_compute; reflexivity.
Qed.

Lemma check_payment_balance_passed
    (id : Z) (amount : float) (token : string) (network_fee : float)
    (w : World) (sender : UserDoc) :
  List.find (by_telegram_id id) (users w) = Some sender ->
  fst (_check_payment_balance id amount token network_fee w) = None ->
  let balances := rpc_wallet_balances (default EmptyString (wallet_address sender)) in
  if String.eqb token "SOL"
  then (balance_of balances "SOL" <? amount + network_fee)%float = false
  else (balance_of balances token <? amount)%float = false
       /\ (balance_of balances "SOL" <? network_fee)%float = false.
Proof.
  intros Hfind. unfold _check_payment_balance, get_user, find_one, get_users,
    _get_wallet_balance_alchemy, emit, bind, ret. cbn. rewrite Hfind.
  destruct (truthy_str (wallet_address sender)); cbn; [|discriminate].
  destruct (String.eqb token "SOL").
  - destruct (_ <? _)%float; [discriminate | reflexivity].
  - destruct (_ <? amount)%float; [discriminate|].
    destruct (_ <? network_fee)%float; [discriminate | split; reflexivity].
Qed.

(** X7. A preview is issued only to a sender whose funds cover it: for
    numeric amounts and balances, the balances read for the sender's
    wallet cover amount plus fee (SOL), or the amount in the token and
    the fee in SOL. *)
Theorem preview_means_funds_suffice
    (id : Z) (recipient_username amount token : string) (w : World)
    (pd : PaymentData) (sender : UserDoc) :
  fst (_send_payment id recipient_username amount token w) = PreviewOk pd ->
  List.find (by_telegram_id id) (users w) = Some sender ->
  let balances := rpc_wallet_balances (default EmptyString (wallet_address sender)) in
  is_number (pd_amount pd) = true ->
  is_number (pd_amount pd + pd_network_fee pd)%float = true ->
  is_number (balance_of balances "SOL") = true ->
  is_number (balance_of balances (pd_token pd)) = true ->
  funds_suffice balances (pd_amount pd) (pd_token pd) (pd_network_fee pd) = true.
Proof.
  intros Hok Hsender balances. revert Hok.
  unfold _send_payment. cbv zeta.
  destruct (python_float amount) as [a|]; [|discriminate].
  destruct (a <=? 0)%float eqn:Hpos; [discriminate|].
  destruct (token_lookup SUPPORTED_PAYMENT_TOKENS (upper token)) as [config|] eqn:Hcfg;
    [|discriminate].
  unfold get_user, get_user_by_username, find_one, get_users, bind, ret.
  cbn [fst snd]. rewrite Hsender.
  destruct (truthy_str (wallet_address sender)) eqn:Hsw; cbn [negb]; [|discriminate].
  destruct (recipient_state _) as [[[[[status rid] wallet] creation] rent]|] eqn:Hstate;
    [|discriminate].
  destruct (rent && String.eqb (upper token) "SOL"
            && (a <? MINIMUM_SOL_TRANSFER_NEW_USER)%float); [discriminate|].
  set (fee := _estimate_network_fee rent (upper token)).
  assert (Hcheck : forall w1, users w1 = users w ->
            fst (_check_payment_balance id a (upper token) fee w1) = None ->
            is_number a = true ->
            is_number (a + fee)%float = true ->
            is_number (balance_of balances "SOL") = true ->
            is_number (balance_of balances (upper token)) = true ->
            funds_suffice balances a (upper token) fee = true).
  { intros w1 Hu Hnone Ha Hsum Hsol Htok.
    assert (Hfind1 : List.find (by_telegram_id id) (users w1) = Some sender)
      by (now rewrite Hu).
    pose proof (check_payment_balance_passed id a (upper token) fee w1 sender
                  Hfind1 Hnone) as Hpassed.
    cbv zeta in Hpassed. fold balances in Hpassed. unfold funds_suffice.
    destruct (String.eqb (upper token) "SOL").
    - rewrite (ltb_negb_leb _ _ Hsol Hsum) in Hpassed.
      now apply negb_false_iff in Hpassed.
    - destruct Hpassed as [Ht Hf].
      rewrite (ltb_negb_leb _ _ Htok Ha) in Ht.
      rewrite (ltb_negb_leb _ _ Hsol
                 (estimate_is_a_number rent (upper token) : is_number fee = true)) in Hf.
      apply negb_false_iff in Ht, Hf. now rewrite Ht, Hf. }
  destruct (bool_decide (status = active) && truthy_str wallet
            && String.eqb (upper token) "SOL").
  - unfold get_sol_balance, emit, bind, ret. cbn [fst snd].
    destruct (_ && _); [discriminate|].
    match goal with
    | |- context [_check_payment_balance id a (upper token) fee ?w1] =>
        specialize (Hcheck w1 eq_refl);
        destruct (_check_payment_balance id a (upper token) fee w1) as [[e|] w2];
        [discriminate|]
    end.
    cbn [fst]. intros [= <-]. cbn [pd_amount pd_token pd_network_fee].
    now apply Hcheck.
  - cbn [fst snd].
    match goal with
    | |- context [_check_payment_balance id a (upper token) fee ?w1] =>
        specialize (Hcheck w1 eq_refl);
        destruct (_check_payment_balance id a (upper token) fee w1) as [[e|] w2];
        [discriminate|]
    end.
    cbn [fst]. intros [= <-]. cbn [pd_amount pd_token pd_network_fee].
    now apply Hcheck.
Qed.

End PreviewFunds.

Section PreviewScenarios.
Import Traces Previews Config FeeEstimator Scenario.

Lemma preview_is_coherent_witness :
  exists pd,
    fst (_send_payment 1 "@Bob" "1.0" "sol" (world_of [alice; bob])) = PreviewOk pd
    /\ pd_recipient_status pd = active
    /\ pd_recipient_wallet pd = Some "BobWallet"
    /\ coherent pd.
Proof.
  eexists. split; [vm_compute; reflexivity|].
  split; [reflexivity|]. split; [reflexivity|].
  eapply (preview_is_coherent 1 "@Bob" "1.0" "sol" (world_of [alice; bob])).
  vm_compute. reflexivity.
Defined.

Lemma preview_means_funds_suffice_witness :
  exists pd,
    fst (_send_payment 1 "@Bob" "1.0" "sol" (world_of [alice; bob])) = PreviewOk pd
    /\ funds_suffice (rpc_wallet_balances "AliceWallet")
         (pd_amount pd) (pd_token pd) (pd_network_fee pd) = true.
Proof.
  eexists. split; [vm_compute; reflexivity|].
  apply (preview_means_funds_suffice 1 "@Bob" "1.0" "sol" (world_of [alice; bob]) _ alice);
    vm_compute; reflexivity.
Defined.

End PreviewScenarios.

(** ** Execution: which calls were made *)

Section EmitsClosure.
Import Traces.
Local Open Scope monad_scope.

Lemma emits_ret {A} (P : Event -> bool) (a : A) : emits P (ret a).
Proof. intros w. exists []. split; [cbn; now rewrite app_nil_r | reflexivity]. Qed.

Lemma emits_bind {A B} (P : Event -> bool) (c : M A) (k : A -> M B) :
  emits P c -> (forall a, emits P (k a)) -> emits P (bind c k).
Proof.
  intros Hc Hk w. unfold bind. destruct (Hc w) as (e1 & H1 & F1).
  destruct (c w) as [a w1]. cbn [snd] in H1.
  destruct (Hk a w1) as (e2 & H2 & F2).
  exists (e1 ++ e2)%list. split.
  - rewrite H2, H1. now rewrite app_assoc.
  - rewrite forallb_app, F1, F2. reflexivity.
Qed.

Lemma emits_emit (P : Event -> bool) (e : Event) : P e = true -> emits P (emit e).
Proof. intros He w. exists [e]. split; [reflexivity | cbn; now rewrite He]. Qed.

Lemma emits_now (P : Event -> bool) : emits P now.
Proof. intros w. exists []. split; [cbn; now rewrite app_nil_r | reflexivity]. Qed.

Lemma emits_fresh (P : Event -> bool) : emits P fresh.
Proof. intros w. exists []. split; [cbn; now rewrite app_nil_r | reflexivity]. Qed.

Lemma emits_get_users (P : Event -> bool) : emits P get_users.
Proof. intros w. exists []. split; [cbn; now rewrite app_nil_r | reflexivity]. Qed.

Lemma emits_put_users (P : Event -> bool) (method : string) (c : list UserDoc) :
  P (EvStoreWrite method) = true -> emits P (put_users method c).
Proof.
  intros He w. exists [EvStoreWrite method].
  split; [reflexivity | cbn; now rewrite He].
Qed.

Lemma emits_sleep (P : Event -> bool) (seconds : Z) :
  P (EvSleep seconds) = true -> emits P (sleep seconds).
Proof.
  intros He w. exists [EvSleep seconds]. split; [reflexivity | cbn; now rewrite He].
Qed.

Lemma reads_only_emits {A} (P : Event -> bool) (c : M A) : reads_only P c -> emits P c.
Proof.
  intros Hc w. destruct (Hc w) as (evs & Hw & Hall). exists evs.
  split; [now rewrite Hw | exact Hall].
Qed.

Lemma emits_weaken {A} (P Q : Event -> bool) (c : M A) :
  (forall e, P e = true -> Q e = true) -> emits P c -> emits Q c.
Proof.
  intros HPQ Hc w. destruct (Hc w) as (evs & Hw & Hall). exists evs.
  split; [exact Hw|]. rewrite forallb_forall in *. auto.
Qed.

End EmitsClosure.

Ltac emits_step :=
  match goal with
  | |- Traces.emits _ (bind _ _) => apply emits_bind; [|intros ?]
  | |- Traces.emits _ (ret _) => apply emits_ret
  | |- Traces.emits _ (emit _) => apply emits_emit; reflexivity
  | |- Traces.emits _ now => apply emits_now
  | |- Traces.emits _ fresh => apply emits_fresh
  | |- Traces.emits _ get_users => apply emits_get_users
  | |- Traces.emits _ (put_users _ _) => apply emits_put_users; reflexivity
  | |- Traces.emits _ (sleep _) => apply emits_sleep; reflexivity
  | |- Traces.emits _ (match ?x with _ => _ end) => destruct x
  end.

Ltac unfold_store_operations :=
  unfold get_decrypted_private_key, get_user, get_user_by_username, user_has_wallet,
    encrypt_private_key, save_wallet, save_payment_transaction,
    create_pending_user_by_username, add_pending_notification,
    add_pending_notification_by_username, activate_pending_wallet,
    insert_one, update_one, find_one,
    get_sol_balance, _get_wallet_balance_alchemy, create_new_wallet,
    get_transaction_status.

Ltac solve_emits := unfold_store_operations; repeat emits_step.

Section ExecutionStages.
Import Traces Stages.
Local Open Scope monad_scope.
Context `{Secrets} `{CryptoLib} `{Environment}.

Lemma filter_implied {A} (p q : A -> bool) (l : list A) :
  (forall x, q x = true -> p x = true) ->
  List.filter q (List.filter p l) = List.filter q l.
Proof.
  intros Himp. induction l as [|x rest IH]; [reflexivity|].
  cbn [List.filter]. destruct (p x) eqn:Hp; cbn [List.filter].
  - destruct (q x); now rewrite IH.
  - destruct (q x) eqn:Hq; [|exact IH]. apply Himp in Hq. congruence.
Qed.

Lemma filter_none {A} (p : A -> bool) (l : list A) :
  forallb (fun x => negb (p x)) l = true -> List.filter p l = [].
Proof.
  induction l as [|x rest IH]; [reflexivity|].
  cbn. destruct (p x); cbn; [discriminate | exact IH].
Qed.

Lemma submitted_of (w0 w : World) (evs : list Event) :
  trace w = (trace w0 ++ evs)%list -> submitted w0 w = List.filter is_transfer evs.
Proof. intros Ht. unfold submitted, new_events. now rewrite Ht, drop_app_length. Qed.

Lemma polled_of (w0 w : World) (evs : list Event) :
  trace w = (trace w0 ++ evs)%list -> polled w0 w = List.filter is_status_query evs.
Proof. intros Ht. unfold polled, new_events. now rewrite Ht, drop_app_length. Qed.

Lemma milestone_transfers (evs : list Event) :
  List.filter is_transfer (List.filter is_milestone evs) = List.filter is_transfer evs.
Proof.
  apply filter_implied. intros e He. unfold is_milestone. now rewrite He.
Qed.

Lemma milestone_polls (evs : list Event) :
  List.filter is_status_query (List.filter is_milestone evs)
  = List.filter is_status_query evs.
Proof.
  apply filter_implied. intros e He. unfold is_milestone. rewrite He.
  apply orb_true_r.
Qed.

Lemma before_transfer_refl (w : World) : before_transfer w w.
Proof. exists []. split; [now rewrite app_nil_r | reflexivity]. Qed.

Lemma before_transfer_nothing (w0 w : World) :
  before_transfer w0 w -> submitted w0 w = [] /\ polled w0 w = [].
Proof.
  intros (evs & Ht & Hm). rewrite (submitted_of _ _ _ Ht), (polled_of _ _ _ Ht).
  rewrite <- milestone_transfers, <- milestone_polls, Hm. split; reflexivity.
Qed.

Lemma transfer_sent_one (w0 w : World) (recipient : option string)
    (asset : string) (amount : float) :
  transfer_sent w0 (EvTransfer asset recipient amount) w ->
  submitted w0 w = [EvTransfer asset recipient amount] /\ polled w0 w = [].
Proof.
  intros (evs & Ht & Hm). rewrite (submitted_of _ _ _ Ht), (polled_of _ _ _ Ht).
  rewrite <- milestone_transfers, <- milestone_polls, Hm. split; reflexivity.
Qed.

Lemma transfer_sent_settling (w0 w : World) (recipient : option string)
    (asset : string) (amount : float) :
  transfer_sent w0 (EvTransfer asset recipient amount) w ->
  transfer_settling w0 (EvTransfer asset recipient amount) w.
Proof.
  intros (evs & Ht & Hm). exists evs. split; [exact Ht|].
  now rewrite <- milestone_transfers, Hm.
Qed.

(** *** What each kind of operation keeps *)

Lemma emits_keeps_before_transfer {A} (c : M A) (w0 : World) :
  emits not_milestone c -> preserves (before_transfer w0) c.
Proof.
  intros Hc w (evs & Ht & Hm). destruct (Hc w) as (more & Ht' & Hall).
  exists (evs ++ more)%list. split; [rewrite Ht', Ht; now rewrite app_assoc|].
  rewrite List.filter_app, Hm. cbn. now apply filter_none.
Qed.

Lemma emits_keeps_transfer_sent {A} (c : M A) (w0 : World) (e : Event) :
  emits not_milestone c -> preserves (transfer_sent w0 e) c.
Proof.
  intros Hc w (evs & Ht & Hm). destruct (Hc w) as (more & Ht' & Hall).
  exists (evs ++ more)%list. split; [rewrite Ht', Ht; now rewrite app_assoc|].
  rewrite List.filter_app, Hm, (filter_none is_milestone more Hall). reflexivity.
Qed.

Lemma emits_keeps_transfer_settling {A} (c : M A) (w0 : World) (e : Event) :
  emits not_transfer c -> preserves (transfer_settling w0 e) c.
Proof.
  intros Hc w (evs & Ht & Hm). destruct (Hc w) as (more & Ht' & Hall).
  exists (evs ++ more)%list. split; [rewrite Ht', Ht; now rewrite app_assoc|].
  rewrite List.filter_app, Hm, (filter_none is_transfer more Hall). reflexivity.
Qed.

Lemma reads_only_keeps_nothing_done {A} (c : M A) (w0 : World) :
  reads_only not_milestone c -> preserves (nothing_done w0) c.
Proof.
  intros Hc w (Hu & Hr & Hb). destruct (Hc w) as (evs & Hw & Hall).
  split; [now rewrite Hw|]. split; [now rewrite Hw|].
  apply (emits_keeps_before_transfer c w0 (reads_only_emits _ _ Hc) w Hb).
Qed.

Lemma wp_bind_preserves {A B} (I : World -> Prop) (c : M A) (k : A -> M B)
    (Q : B -> World -> Prop) (w : World) :
  preserves I c -> I w -> (forall a w1, I w1 -> wp (k a) Q w1) -> wp (bind c k) Q w.
Proof. intros Hc HI Hk. apply wp_bind. unfold wp at 1. apply Hk, Hc, HI. Qed.

Lemma emits_poll_confirmation (signature : string) (remaining attempt : nat) :
  emits not_transfer (poll_confirmation signature remaining attempt).
Proof.
  revert attempt. induction remaining as [|n IH]; intros attempt;
    cbn [poll_confirmation]; [apply emits_ret|].
  unfold get_transaction_status. repeat emits_step. all: apply IH.
Qed.

Lemma stage_early (pd : PaymentData) (w0 w : World) (e : ExecError) :
  users w = users w0 -> before_transfer w0 w ->
  match e with
  | ErrSenderWalletNotFound | ErrRecipientInsufficient _ | ErrCreateWallet
  | ErrException _ => True
  | _ => False
  end ->
  wp (ret (ExecFailed e)) (accounted pd w0) w.
Proof.
  intros Hu Hb He. unfold wp, ret. cbn [fst snd].
  destruct (before_transfer_nothing _ _ Hb) as [Hs Hp].
  split; [|discriminate].
  destruct e; try contradiction; cbn; auto.
Qed.

Lemma stage_late (pd : PaymentData) (w0 w : World) (wallet : option string)
    (result : ExecResult) :
  let e := EvTransfer (transfer_asset pd) wallet (pd_amount pd) in
  transfer_settling w0 e w -> pays_to pd w0 wallet ->
  match result with
  | ExecFailed ErrFailedOnChain | ExecFailed ErrConfirmationTimeout => True
  | ExecSuccess r =>
      rc_recipient_wallet r = wallet /\ rc_amount r = pd_amount pd
      /\ rc_token r = pd_token pd
      /\ rc_recipient_username r = pd_recipient_username pd
  | _ => False
  end ->
  wp (ret result) (accounted pd w0) w.
Proof.
  intros e (evs & Ht & Hf) Hpays Hlate. unfold wp, ret. cbn [fst snd].
  assert (Hs : submitted w0 w = [e]) by (now rewrite (submitted_of _ _ _ Ht)).
  assert (Hthe : the_transfer pd w0 e) by (exists wallet; split; [reflexivity | exact Hpays]).
  split.
  - destruct result as [[]|]; try contradiction; cbn; eauto.
  - intros r ->. destruct Hlate as (<- & Ha & Htok & Hname). auto.
Qed.

End ExecutionStages.

Ltac reads_only_quiet :=
  unfold get_decrypted_private_key, get_user, find_one, get_sol_balance;
  repeat reads_only_step.

Ltac stage_step :=
  match goal with
  | HI : Stages.nothing_done ?w0 ?w |- wp (bind ?c ?k) ?Q ?w =>
      apply (wp_bind_preserves (Stages.nothing_done w0) c k Q w);
      [apply reads_only_keeps_nothing_done; solve [reads_only_quiet]
      | exact HI | clear HI; intros ? ? HI]
  | HI : Stages.before_transfer ?w0 ?w |- wp (bind ?c ?k) ?Q ?w =>
      apply (wp_bind_preserves (Stages.before_transfer w0) c k Q w);
      [apply emits_keeps_before_transfer; solve [solve_emits]
      | exact HI | clear HI; intros ? ? HI]
  | HI : Stages.transfer_settling ?w0 ?e ?w |- wp (bind ?c ?k) ?Q ?w =>
      apply (wp_bind_preserves (Stages.transfer_settling w0 e) c k Q w);
      [apply emits_keeps_transfer_settling;
       first [apply emits_poll_confirmation | solve [solve_emits]]
      | exact HI | clear HI; intros ? ? HI]
  | HI : Stages.nothing_done ?w0 ?w |- wp (ret (ExecFailed _)) _ ?w =>
      destruct HI as (? & ? & ?); apply stage_early; [assumption | assumption | exact I]
  | |- wp (match ?x with _ => _ end) _ _ => destruct x
  end.

Section ExecutionStagesMain.
Import Traces Stages.
Local Open Scope monad_scope.
Context `{Secrets} `{CryptoLib} `{Environment}.

Lemma execute_payment_secure_stage_from (sender : Z) (pd : PaymentData) (w0 w : World) :
  nothing_done w0 w ->
  wp (execute_payment_secure sender pd) (accounted pd w0) w.
Proof.
  intros HI. unfold execute_payment_secure.
  repeat stage_step.
  apply wp_bind. unfold wp at 1.
  match goal with
  | |- wp _ _ (snd (?c ?w)) =>
      assert (Hcreated :
        before_transfer w0 (snd (c w))
        /\ match fst (c w) with
           | None => users (snd (c w)) = users w0
           | Some (wallet, _) => pays_to pd w0 wallet
           end);
      [| destruct (c w) as [[[wallet key]|] w4]; cbn [fst snd] in Hcreated |- *;
         destruct Hcreated as [HB Hpays] ]
  end.
  { destruct HI as (Hu & Hr & Hb). split.
    - revert Hb. apply emits_keeps_before_transfer.
      destruct (pd_recipient_status pd); solve_emits.
    - unfold pays_to. destruct (pd_recipient_status pd);
        unfold create_new_wallet, encrypt_private_key, activate_pending_wallet,
          update_one, get_users, put_users, fresh, now, bind, ret;
        cbn [fst snd rng users]; rewrite ?Hr;
        try destruct (keypair_generate (rng w0)) as [address private_key|error];
        cbn [fst snd users]; eauto. }
  2:{ apply stage_early; [exact Hpays | exact HB | exact I]. }
  set (e := EvTransfer (transfer_asset pd) wallet (pd_amount pd)).
  assert (Hthe : the_transfer pd w0 e) by (exists wallet; split; [reflexivity | exact Hpays]).
  apply wp_bind. unfold wp at 1.
  match goal with
  | |- wp _ _ (snd (?c ?w)) =>
      assert (Hsent : transfer_sent w0 e (snd (c w)));
      [| destruct (c w) as [transfer_result w5]; cbn [fst snd] in Hsent |- * ]
  end.
  { destruct HB as (evs & Ht & Hm). subst e.
    unfold transfer_asset, execute_sol_transfer, execute_spl_transfer, emit, bind, ret.
    destruct (String.eqb (pd_token pd) "SOL"); cbn [snd trace]; eexists;
      (split; [rewrite Ht, <- app_assoc; reflexivity
              | rewrite List.filter_app, Hm; reflexivity]). }
  destruct transfer_result as [signature|error].
  2:{ unfold wp, ret. cbn [fst snd].
      destruct (transfer_sent_one _ _ _ _ _ Hsent) as [Hs Hp].
      split; [|discriminate]. cbn [stage].
      split; [exact Hp|]. exists e. split; [exact Hs | exact Hthe]. }
  apply transfer_sent_settling in Hsent. fold e in Hsent.
  repeat stage_step.
  all: apply (stage_late pd w0 _ wallet); [exact Hsent | exact Hpays | cbn; auto].
Qed.

(** X8. The answer of an execution tells how far it went. "Wallet not
    found", the recipient-balance rejection, a failed wallet generation
    and an exception of step 1 mean that no transfer was submitted,
    nothing was polled and the collection is as it was. A transfer error
    means that the one transfer was submitted and refused, and nothing
    was polled. An on-chain failure, a timeout and a success mean that
    exactly the one transfer was submitted. *)
Theorem execution_answer_tells_the_stage (sender : Z) (pd : PaymentData) (w : World) :
  let out := execute_payment_secure sender pd w in
  stage pd w (fst out) (snd out).
Proof.
  apply (execute_payment_secure_stage_from sender pd w w).
  split; [reflexivity|]. split; [reflexivity | apply before_transfer_refl].
Qed.

Lemma stage_at_most_one (pd : PaymentData) (w0 : World) (result : ExecResult)
    (w' : World) :
  stage pd w0 result w' ->
  submitted w0 w' = []
  \/ exists recipient,
       submitted w0 w' = [EvTransfer (transfer_asset pd) recipient (pd_amount pd)]
       /\ pays_to pd w0 recipient.
Proof.
  unfold stage, the_transfer.
  destruct result as [[]|]; intros Hstage;
    try (left; apply Hstage);
    try (destruct Hstage as (e & Hs & recipient & -> & Hpays); right; eauto).
  destruct Hstage as (_ & e & Hs & recipient & -> & Hpays). right. eauto.
Qed.

(** X9. An execution submits at most one transfer, and the one it submits is
    the one of the preview: its asset, its amount, and the wallet of the
    preview or the wallet that was generated for the recipient. The
    receipt of a successful execution names that transfer: its wallet,
    amount, token and recipient. *)
Theorem at_most_one_transfer_as_previewed (sender : Z) (pd : PaymentData) (w : World) :
  let out := execute_payment_secure sender pd w in
  (submitted w (snd out) = []
   \/ exists recipient,
        submitted w (snd out)
        = [EvTransfer (transfer_asset pd) recipient (pd_amount pd)]
        /\ pays_to pd w recipient)
  /\ (forall r, fst out = ExecSuccess r ->
        submitted w (snd out)
        = [EvTransfer (transfer_asset pd) (rc_recipient_wallet r) (pd_amount pd)]
        /\ rc_amount r = pd_amount pd
        /\ rc_token r = pd_token pd
        /\ rc_recipient_username r = pd_recipient_username pd).
Proof.
  intros out.
  destruct (execute_payment_secure_stage_from sender pd w w) as [Hstage Hreceipt].
  { split; [reflexivity|]. split; [reflexivity | apply before_transfer_refl]. }
  split; [exact (stage_at_most_one _ _ _ _ Hstage) | exact Hreceipt].
Qed.

End ExecutionStagesMain.

(** ** The collection: registration, wallets and claims *)

Section Registration.
Import Accounts.
Local Open Scope monad_scope.

Lemma find_app_none (f : UserDoc -> bool) (c : list UserDoc) (d : UserDoc) :
  List.find f c = None -> List.find f (c ++ [d]) = (if f d then Some d else None).
Proof.
  induction c as [|e rest IH]; cbn [List.find app]; [reflexivity|].
  destruct (f e); [discriminate | exact IH].
Qed.

Lemma find_violates (id : Z) (c : list UserDoc) (u d : UserDoc) :
  List.find (by_telegram_id id) c = Some u -> telegram_id d = Some id ->
  violates_unique_index c d = true.
Proof.
  intros Hfind Hd. apply List.find_some in Hfind as [Hin Hu].
  unfold violates_unique_index. apply existsb_exists. exists u. split; [exact Hin|].
  apply bool_decide_eq_true in Hu. rewrite Hu, Hd.
  now rewrite bool_decide_eq_true_2.
Qed.

(** X10. Registration never duplicates an identity. For an identity
    that has a document, [create_user] answers that document and leaves
    the collection as it was: a stored wallet survives any number of
    registrations. For an identity without one it either appends a
    document without a wallet, which [get_user] then finds, or, refused
    by a unique index, answers nothing and changes nothing. *)
Theorem create_user_never_duplicates (id : Z) (name : option string) (w : World) :
  let out := create_user id name w in
  (forall u, List.find (by_telegram_id id) (users w) = Some u ->
     fst out = Some u /\ users (snd out) = users w)
  /\ (List.find (by_telegram_id id) (users w) = None ->
      (fst out = None /\ users (snd out) = users w)
      \/ exists doc,
           fst out = Some doc
           /\ users (snd out) = (users w ++ [doc])%list
           /\ fst (get_user id (snd out)) = Some doc
           /\ telegram_id doc = Some id
           /\ wallet_address doc = None
           /\ fst (user_has_wallet id (snd out)) = false).
Proof.
  intros out. subst out.
  unfold create_user, insert_one, user_has_wallet, get_user, find_one, now,
    get_users, put_users, bind, ret.
  cbn [fst snd users clock].
  set (doc := new_user_doc id _ (clock w)).
  split.
  - intros u Hfind. rewrite (find_violates id (users w) u doc Hfind eq_refl).
    cbn [fst snd users]. now rewrite Hfind.
  - intros Hnone. destruct (violates_unique_index (users w) doc); cbn [fst snd users].
    + left. now rewrite Hnone.
    + right. exists doc.
      assert (Hnew : List.find (by_telegram_id id) (users w ++ [doc]) = Some doc).
      { rewrite (find_app_none _ _ _ Hnone). unfold by_telegram_id. cbn [telegram_id doc new_user_doc].
        now rewrite bool_decide_eq_true_2. }
      rewrite Hnew. repeat split; reflexivity.
Qed.

End Registration.

Section WalletRecords.
Import Accounts.
Local Open Scope monad_scope.
Context `{Secrets} `{CryptoLib}.

(** X11. [save_wallet] answers [True] exactly for an identity that has a
    document; for any other identity it answers [False] and the
    collection is as it was. *)
Theorem save_wallet_needs_a_document
    (id : Z) (address private_key type_ : string) (w : World) :
  let out := save_wallet id address private_key type_ w in
  (fst out = true <-> exists u, List.find (by_telegram_id id) (users w) = Some u)
  /\ (fst out = false -> users (snd out) = users w).
Proof.
  intros out. subst out.
  unfold save_wallet, encrypt_private_key, update_one, fresh, now, get_users,
    put_users, bind, ret.
  cbn [fst snd users clock rng trace].
  destruct (List.find (by_telegram_id id) (users w)) as [u|] eqn:Hfind;
    cbn [matched_count modified_count Nat.eqb].
  - split.
    + destruct (decide _); cbn; split; eauto.
    + destruct (decide _); cbn; discriminate.
  - cbn. split; [split; [discriminate | intros [u Hu]; discriminate]|].
    intros _. now apply update_first_no_match.
Qed.

End WalletRecords.

Section StoredKeys.
Import Accounts.
Local Open Scope monad_scope.
Context `{Secrets} `{CryptoLib}.

(** What the Fernet library promises: a token decrypts under the key
    that made it, and is never the empty string. *)
Hypothesis fernet_round_trip : forall key iv t data,
  fernet_decrypt key (fernet_encrypt key iv t data) = Some data.
Hypothesis fernet_token_not_empty : forall key iv t data,
  truthy_str (Some (fernet_encrypt key iv t data)) = true.

(** A document that holds a wallet and, as its key, a token made under
    the cipher of its identity, reads back as that wallet and that key. *)
Lemma wallet_reads_back (id : Z) (w : World) (d : UserDoc)
    (address : option string) (iv : nat) (t : Z) (private_key : string) :
  List.find (by_telegram_id id) (users w) = Some d ->
  wallet_address d = address -> address <> None ->
  encrypted_private_key d
  = Some (fernet_encrypt (derive_key_from_telegram_id id) iv t private_key) ->
  fst (get_decrypted_private_key id w) = Returned (Some private_key)
  /\ fst (user_has_wallet id w) = true
  /\ (wallet_address <$> fst (get_user id w)) = Some address.
Proof.
  intros Hfind Haddress Hsome Htoken.
  unfold get_decrypted_private_key, user_has_wallet, get_user, find_one, get_users,
    bind, ret.
  cbn [fst snd]. rewrite Hfind, Htoken, fernet_token_not_empty.
  cbn [negb]. unfold decrypt_private_key. cbn [default from_option]. unfold Datatypes.id.
  rewrite fernet_round_trip. cbn [fst fmap option_fmap option_map]. rewrite Haddress.
  split; [reflexivity|]. split; [|reflexivity].
  now apply bool_decide_eq_true_2.
Qed.

(** X12. The key that was saved is the key that comes back: after
    [save_wallet] for an identity that has a document, that identity has
    a wallet and [get_decrypted_private_key] answers the saved key. *)
Theorem saved_key_comes_back
    (id : Z) (address private_key type_ : string) (w : World) (u : UserDoc) :
  List.find (by_telegram_id id) (users w) = Some u ->
  let w' := snd (save_wallet id address private_key type_ w) in
  fst (get_decrypted_private_key id w') = Returned (Some private_key)
  /\ fst (user_has_wallet id w') = true
  /\ (wallet_address <$> fst (get_user id w')) = Some (Some address).
Proof.
  intros Hfind w'.
  destruct (save_wallet_stored id address private_key type_ w u Hfind)
    as (_ & _ & Hstored). fold w' in Hstored.
  now apply (wallet_reads_back id w' _ (Some address) (rng w) (clock w) private_key Hstored).
Qed.

Lemma find_after_indexed_update (f : UserDoc -> bool) (upd : UserDoc -> UserDoc)
    (c : list UserDoc) (p : UserDoc) (id : Z) :
  List.find f c = Some p ->
  violates_unique_index (others f c) (upd p) = false ->
  telegram_id (upd p) = Some id ->
  List.find (by_telegram_id id) (update_first f upd c) = Some (upd p).
Proof.
  intros Hfind Hfree Hid. induction c as [|d rest IH]; [discriminate|].
  cbn [List.find update_first others] in *. destruct (f d).
  - injection Hfind as ->. cbn [List.find]. unfold by_telegram_id at 1.
    now rewrite Hid, bool_decide_eq_true_2.
  - cbn [violates_unique_index existsb] in Hfree.
    apply orb_false_iff in Hfree as [Hd Hrest]. apply orb_false_iff in Hd as [Hd _].
    cbn [List.find]. unfold by_telegram_id at 1.
    rewrite Hid in Hd. rewrite Hd. now apply IH.
Qed.

(** What a successful claim has stored: the pending document of the
    handle, rewritten for the claimer. *)
Lemma claim_success_stores
    (id : Z) (name : string) (w : World)
    (address : option string) (private_key : string) (notes : list Notification) :
  fst (claim_pending_wallet id name w) = ClaimSuccess address private_key notes ->
  exists p iv t t',
    List.find (by_telegram_id id) (users (snd (claim_pending_wallet id name w)))
    = Some (set_claimed id address
              (fernet_encrypt (derive_key_from_telegram_id id) iv t private_key) t' p)
    /\ username p = Some (normalize_username name)
    /\ pending_notifications p = notes
    /\ truthy_str address = true.
Proof.
  unfold claim_pending_wallet, claim_lookup, claim_commit, encrypt_private_key,
    update_one_indexed, update_one, find_one, fresh, now, get_users, put_users,
    bind, ret. cbn [fst snd users clock rng trace].
  destruct (List.find _ (users w)) as [p|] eqn:Hpending; [|discriminate].
  destruct (truthy_str (pending_wallet_address p)) eqn:Haddr; cbn [negb];
    [|discriminate].
  destruct (pending_private_key p) as [token|]; [|discriminate].
  destruct (decrypt_private_key token _) as [key|]; [|discriminate].
  cbn [fst snd users]. rewrite Hpending.
  set (upd := set_claimed id (pending_wallet_address p) _ (clock w)).
  destruct (violates_unique_index _ (upd p)) eqn:Hfree; cbn [fst snd users];
    [discriminate|].
  intros [= <- <- <-].
  exists p, (rng w), (clock w), (clock w).
  split; [apply find_after_indexed_update; [exact Hpending | exact Hfree | reflexivity]|].
  split; [|split; [reflexivity | exact Haddr]].
  apply List.find_some in Hpending as [_ Hp]. unfold by_unclaimed_username in Hp.
  apply andb_true_iff in Hp as [Hp _]. now apply bool_decide_eq_true in Hp.
Qed.

Lemma truthy_is_some (o : option string) : truthy_str o = true -> o <> None.
Proof. destruct o; [discriminate | discriminate]. Qed.

(** X13. A claimed wallet belongs to the claimer. When
    [claim_pending_wallet] answers success, the claimer's identity is
    bound to a document (for a name typed in ASCII, the one of the
    normalised handle) whose wallet is the returned address, whose
    pending fields are cleared, and whose key, read back with
    [get_decrypted_private_key], is the key that was returned. *)
Theorem claimed_wallet_belongs_to_the_claimer
    (id : Z) (name : string) (w : World)
    (address : option string) (private_key : string) (notes : list Notification) :
  fst (claim_pending_wallet id name w) = ClaimSuccess address private_key notes ->
  let w' := snd (claim_pending_wallet id name w) in
  (exists d, fst (get_user id w') = Some d
     /\ (is_ascii name = true -> username d = Some (normalize_username name))
     /\ wallet_address d = address
     /\ pending_wallet_address d = None
     /\ pending_private_key d = None
     /\ pending_notifications d = notes)
  /\ fst (user_has_wallet id w') = true
  /\ fst (get_decrypted_private_key id w') = Returned (Some private_key).
Proof.
  intros Hok w'.
  destruct (claim_success_stores id name w address private_key notes Hok)
    as (p & iv & t & t' & Hbound & Hname & Hnotes & Haddr). fold w' in Hbound.
  destruct (wallet_reads_back id w' _ address iv t private_key Hbound eq_refl
              (truthy_is_some _ Haddr) eq_refl) as (Hkey & Hwallet & _).
  split; [|split; [exact Hwallet | exact Hkey]].
  eexists. split; [exact Hbound|]. repeat split; try assumption.
  intros _. assumption.
Qed.

End StoredKeys.

Section ClaimAnswers.
Local Open Scope monad_scope.
Context `{Secrets} `{CryptoLib}.

(** X14. A claim answers from a pending record and from nothing else.
    A success returns the address, which is not empty, and the
    notifications of a document of the store that has no identity and
    holds a pending key; for a name typed in ASCII that document is the
    first unclaimed one of the normalised handle, and the key returned
    is its pending key decrypted under the hash of that handle. A
    failure, whatever its cause, leaves the collection as it was. *)
Theorem claim_answers_from_the_pending_record (id : Z) (name : string) (w : World) :
  let out := claim_pending_wallet id name w in
  let normalized := normalize_username name in
  match fst out with
  | ClaimFailed _ => users (snd out) = users w
  | ClaimSuccess address private_key notes =>
      exists p token,
        In p (users w)
        /\ telegram_id p = None
        /\ pending_wallet_address p = address
        /\ truthy_str address = true
        /\ pending_private_key p = Some token
        /\ pending_notifications p = notes
        /\ (is_ascii name = true ->
            List.find (by_unclaimed_username normalized) (users w) = Some p
            /\ decrypt_private_key token (username_hash normalized)
               = Some private_key)
  end.
Proof.
  intros out normalized. subst out normalized.
  unfold claim_pending_wallet, claim_lookup, claim_commit, encrypt_private_key,
    update_one_indexed, update_one, find_one, fresh, now, get_users, put_users,
    bind, ret. cbn [fst snd users clock rng trace].
  destruct (List.find _ (users w)) as [p|] eqn:Hpending; [|reflexivity].
  destruct (truthy_str (pending_wallet_address p)) eqn:Haddr; cbn [negb];
    [|reflexivity].
  destruct (pending_private_key p) as [token|] eqn:Htoken; [|reflexivity].
  destruct (decrypt_private_key token _) as [key|] eqn:Hkey; [|reflexivity].
  cbn [fst snd users]. rewrite Hpending.
  destruct (violates_unique_index _ _); cbn [fst snd users]; [reflexivity|].
  destruct (List.find_some _ _ Hpending) as [Hin Hunclaimed].
  unfold by_unclaimed_username in Hunclaimed.
  apply andb_true_iff in Hunclaimed as [_ Hnone].
  apply bool_decide_eq_true in Hnone.
  exists p, token. repeat split; assumption.
Qed.

End ClaimAnswers.

Section StoredKeyScenarios.
Import Accounts Scenario.

Lemma tagging_token_not_empty (key : string) (iv : nat) (t : Z) (data : string) :
  truthy_str (Some (fernet_encrypt key iv t data)) = true.
Proof. cbn. unfold tag_encrypt. destruct key; reflexivity. Qed.

Lemma saved_key_comes_back_witness :
  let w' := snd (save_wallet 2 "OtherWallet" "other-key" "imported" (world_of [alice; bob])) in
  List.find (by_telegram_id 2) (users (world_of [alice; bob])) = Some bob
  /\ fst (get_decrypted_private_key 2 w') = Returned (Some "other-key")
  /\ fst (user_has_wallet 2 w') = true.
Proof.
  split; [vm_compute; reflexivity|].
  destruct (saved_key_comes_back tagging_is_correct tagging_token_not_empty
              2 "OtherWallet" "other-key" "imported" (world_of [alice; bob]) bob)
    as (Hkey & Hwallet & _); [vm_compute; reflexivity|].
  split; [exact Hkey | exact Hwallet].
Defined.

Lemma claim_answers_from_the_pending_record_witness :
  let w := world_of [alice; carol_pending] in
  fst (claim_pending_wallet 7 "@Carol" w) = ClaimSuccess (Some "CarolWallet") "carol-key" []
  /\ exists token,
       pending_private_key carol_pending = Some token
       /\ decrypt_private_key token (username_hash "carol") = Some "carol-key".
Proof.
  split; [vm_compute; reflexivity|].
  pose proof (claim_answers_from_the_pending_record 7 "@Carol"
                (world_of [alice; carol_pending])) as Hclaim.
  cbv zeta in Hclaim.
  change (fst (claim_pending_wallet 7 "@Carol" (world_of [alice; carol_pending])))
    with (ClaimSuccess (Some "CarolWallet") "carol-key" []) in Hclaim.
  destruct Hclaim as (p & token & _ & _ & _ & _ & Htoken & _ & Hpinned).
  destruct (Hpinned eq_refl) as [Hfound Hkey].
  vm_compute in Hfound. injection Hfound as <-.
  exists token. split; [exact Htoken | exact Hkey].
Defined.

Lemma claimed_wallet_belongs_to_the_claimer_witness :
  let w := world_of [alice; carol_pending] in
  let w' := snd (claim_pending_wallet 7 "@Carol" w) in
  fst (claim_pending_wallet 7 "@Carol" w) = ClaimSuccess (Some "CarolWallet") "carol-key" []
  /\ fst (user_has_wallet 7 w') = true
  /\ fst (get_decrypted_private_key 7 w') = Returned (Some "carol-key").
Proof.
  split; [vm_compute; reflexivity|].
  destruct (claimed_wallet_belongs_to_the_claimer tagging_is_correct
              tagging_token_not_empty 7 "@Carol" (world_of [alice; carol_pending])
              (Some "CarolWallet") "carol-key" [])
    as (_ & Hwallet & Hkey); [vm_compute; reflexivity|].
  split; [exact Hwallet | exact Hkey].
Defined.

End StoredKeyScenarios.

(** ** A confirmed payment in the sender's history *)

Section Stability.
Import Traces Books.
Local Open Scope monad_scope.

Lemma stable_ret {A} (J : list UserDoc -> Prop) (a : A) : stable J (ret a).
Proof. intros w Hw. exact Hw. Qed.

Lemma stable_bind {A B} (J : list UserDoc -> Prop) (c : M A) (k : A -> M B) :
  stable J c -> (forall a, stable J (k a)) -> stable J (bind c k).
Proof.
  intros Hc Hk w Hw. unfold bind. specialize (Hc w Hw).
  destruct (c w) as [a w1]. cbn [snd] in *. now apply Hk.
Qed.

Lemma stable_emit (J : list UserDoc -> Prop) (e : Event) : stable J (emit e).
Proof. intros w Hw. exact Hw. Qed.

Lemma stable_now (J : list UserDoc -> Prop) : stable J now.
Proof. intros w Hw. exact Hw. Qed.

Lemma stable_fresh (J : list UserDoc -> Prop) : stable J fresh.
Proof. intros w Hw. exact Hw. Qed.

Lemma stable_sleep (J : list UserDoc -> Prop) (seconds : Z) : stable J (sleep seconds).
Proof. intros w Hw. exact Hw. Qed.

Lemma stable_get_users (J : list UserDoc -> Prop) : stable J get_users.
Proof. intros w Hw. exact Hw. Qed.

Lemma stable_update_one (J : list UserDoc -> Prop) (method : string)
    (f : UserDoc -> bool) (upd : UserDoc -> UserDoc) :
  (forall c, J c -> J (update_first f upd c)) -> stable J (update_one method f upd).
Proof. intros Hupd w Hw. cbn. now apply Hupd. Qed.

Lemma stable_insert_one (J : list UserDoc -> Prop) (method : string) (d : UserDoc) :
  (forall c, J c -> J (c ++ [d])%list) -> stable J (insert_one method d).
Proof.
  intros Hins w Hw. unfold insert_one, get_users, put_users, bind, ret. cbn.
  destruct (violates_unique_index (users w) d); cbn; [exact Hw | now apply Hins].
Qed.

Lemma stable_poll_confirmation `{Environment} (J : list UserDoc -> Prop)
    (signature : string) (remaining attempt : nat) :
  stable J (poll_confirmation signature remaining attempt).
Proof.
  revert attempt. induction remaining as [|n IH]; intros attempt;
    cbn [poll_confirmation]; [apply stable_ret|].
  apply stable_bind; [apply stable_sleep | intros _].
  apply stable_bind; [unfold get_transaction_status;
                      apply stable_bind; [apply stable_emit | intros _; apply stable_ret]|].
  intros status. destruct status; try apply stable_ret; apply IH.
Qed.

Lemma wp_bind_stable {A B} (J : list UserDoc -> Prop) (c : M A) (k : A -> M B)
    (Q : B -> World -> Prop) (w : World) :
  stable J c -> J (users w) ->
  (forall a w1, J (users w1) -> wp (k a) Q w1) -> wp (bind c k) Q w.
Proof. intros Hc HJ Hk. apply wp_bind. unfold wp at 1. apply Hk, Hc, HJ. Qed.

(** *** Looking an identity up after an update *)

Lemma find_update_first_id (id : Z) (f : UserDoc -> bool) (upd : UserDoc -> UserDoc)
    (c : list UserDoc) (s : UserDoc) :
  (forall d, telegram_id (upd d) = telegram_id d) ->
  List.find (by_telegram_id id) c = Some s ->
  List.find (by_telegram_id id) (update_first f upd c) = Some s
  \/ List.find (by_telegram_id id) (update_first f upd c) = Some (upd s).
Proof.
  intros Hid. induction c as [|d rest IH]; [discriminate|].
  assert (Hsame : by_telegram_id id (upd d) = by_telegram_id id d)
    by (unfold by_telegram_id; now rewrite Hid).
  cbn [List.find update_first]. destruct (f d); cbn [List.find].
  - rewrite Hsame. destruct (by_telegram_id id d).
    + intros [= ->]. now right.
    + intros Hrest. now left.
  - destruct (by_telegram_id id d); [intros [= ->]; now left | exact IH].
Qed.

Lemma find_app_some (f : UserDoc -> bool) (c : list UserDoc) (d s : UserDoc) :
  List.find f c = Some s -> List.find f (c ++ [d]) = Some s.
Proof.
  induction c as [|e rest IH]; [discriminate|].
  cbn [List.find app]. destruct (f e); [trivial | exact IH].
Qed.

Lemma grown_refl (d : UserDoc) : grown d d.
Proof. split; [reflexivity | auto]. Qed.

Lemma grown_trans (a b c : UserDoc) : grown a b -> grown b c -> grown a c.
Proof. intros [S1 T1] [S2 T2]. split; [congruence | auto]. Qed.

Lemma still_there_update (id : Z) (before : UserDoc) (f : UserDoc -> bool)
    (upd : UserDoc -> UserDoc) (c : list UserDoc) :
  (forall d, telegram_id (upd d) = telegram_id d) ->
  (forall d, grown d (upd d)) ->
  still_there id before c -> still_there id before (update_first f upd c).
Proof.
  intros Hid Hgrown (after & Hfind & Hg).
  destruct (find_update_first_id id f upd c after Hid Hfind) as [Hf|Hf];
    eexists; (split; [exact Hf|]); [exact Hg|].
  eapply grown_trans; [exact Hg | apply Hgrown].
Qed.

Lemma still_there_insert (id : Z) (before d : UserDoc) (c : list UserDoc) :
  still_there id before c -> still_there id before (c ++ [d]).
Proof.
  intros (after & Hfind & Hg). exists after. split; [|exact Hg].
  now apply find_app_some.
Qed.

Lemma recorded_update (id : Z) (before : UserDoc) (tx : Transaction)
    (f : UserDoc -> bool) (upd : UserDoc -> UserDoc) (c : list UserDoc) :
  (forall d, telegram_id (upd d) = telegram_id d) ->
  (forall d, grown d (upd d)) ->
  recorded id before tx c -> recorded id before tx (update_first f upd c).
Proof.
  intros Hid Hgrown (after & Hfind & Hsent & Htx & Hold).
  destruct (find_update_first_id id f upd c after Hid Hfind) as [Hf|Hf].
  - exists after. auto.
  - exists (upd after). destruct (Hgrown after) as [Hs Ht].
    split; [exact Hf|]. split; [congruence|]. split; auto.
Qed.

Lemma recorded_insert (id : Z) (before d : UserDoc) (tx : Transaction)
    (c : list UserDoc) :
  recorded id before tx c -> recorded id before tx (c ++ [d]).
Proof.
  intros (after & Hfind & Hrest). exists after. split; [|exact Hrest].
  now apply find_app_some.
Qed.

(** The updates of the payment path other than the sender's entry only
    make a history grow. *)
Lemma grown_push_notification (n : Notification) (d : UserDoc) :
  grown d (push_notification n d).
Proof. split; [reflexivity | auto]. Qed.

Lemma grown_set_activated (address key : string) (t : Z) (d : UserDoc) :
  grown d (set_activated address key t d).
Proof. split; [reflexivity | auto]. Qed.

Lemma grown_incoming (tx : Transaction) (t : Z) (d : UserDoc) :
  grown d (push_transaction tx false t d).
Proof.
  split; [reflexivity|]. intros old Hold. cbn. apply in_or_app. now left.
Qed.

End Stability.

Ltac stable_step tac :=
  match goal with
  | |- Books.stable _ (bind _ _) => apply stable_bind; [|intros ?]
  | |- Books.stable _ (ret _) => apply stable_ret
  | |- Books.stable _ (emit _) => apply stable_emit
  | |- Books.stable _ now => apply stable_now
  | |- Books.stable _ fresh => apply stable_fresh
  | |- Books.stable _ (sleep _) => apply stable_sleep
  | |- Books.stable _ get_users => apply stable_get_users
  | |- Books.stable _ (poll_confirmation _ _ _) => apply stable_poll_confirmation
  | |- Books.stable _ (update_one _ _ _) => apply stable_update_one; intros ? ?; tac
  | |- Books.stable _ (insert_one _ _) => apply stable_insert_one; intros ? ?; tac
  | |- Books.stable _ (match ?x with _ => _ end) => destruct x
  end.

Ltac unfold_collection_operations :=
  unfold get_decrypted_private_key, get_user, get_user_by_username, user_has_wallet,
    encrypt_private_key, save_wallet, save_payment_transaction,
    create_pending_user_by_username, add_pending_notification,
    add_pending_notification_by_username, activate_pending_wallet, find_one,
    get_sol_balance, _get_wallet_balance_alchemy, create_new_wallet,
    execute_sol_transfer, execute_spl_transfer, get_transaction_status.

Ltac solve_stable tac := unfold_collection_operations; repeat stable_step tac.

Ltac grow_side :=
  first
    [ apply still_there_update;
      [ reflexivity
      | first [ apply grown_push_notification | apply grown_set_activated
              | apply grown_incoming ]
      | assumption ]
    | apply recorded_update;
      [ reflexivity
      | first [ apply grown_push_notification | apply grown_set_activated
              | apply grown_incoming ]
      | assumption ]
    | apply still_there_insert; assumption
    | apply recorded_insert; assumption ].

Ltac history_step :=
  match goal with
  | HJ : Books.still_there ?id ?s (users ?w) |- wp (bind ?c ?k) ?Q ?w =>
      apply (wp_bind_stable (Books.still_there id s) c k Q w);
      [solve [solve_stable grow_side] | exact HJ | clear HJ; intros ? ? HJ]
  | HJ : Books.recorded ?id ?s ?tx (users ?w) |- wp (bind ?c ?k) ?Q ?w =>
      apply (wp_bind_stable (Books.recorded id s tx) c k Q w);
      [solve [solve_stable grow_side] | exact HJ | clear HJ; intros ? ? HJ]
  | |- wp (ret (ExecFailed _)) _ _ => unfold wp, ret; cbn [fst snd]; discriminate
  | |- wp (match ?x with _ => _ end) _ _ => destruct x
  end.

Section SenderHistory.
Import Traces Books.
Local Open Scope monad_scope.
Context `{Secrets} `{CryptoLib} `{Environment}.

Lemma wp_bind_get_decrypted_private_key {B} (id : Z)
    (k : Outcome (option string) -> M B) (Q : B -> World -> Prop) (w : World) :
  (forall answer,
     (forall key, answer = Returned (Some key) ->
        exists u, List.find (by_telegram_id id) (users w) = Some u) ->
     wp (k answer) Q w) ->
  wp (bind (get_decrypted_private_key id) k) Q w.
Proof.
  intros Hk. apply wp_bind. unfold wp at 1.
  unfold get_decrypted_private_key, get_user, find_one, get_users, bind, ret.
  cbn [fst snd].
  destruct (List.find (by_telegram_id id) (users w)) as [u|];
    [|cbn; apply Hk; discriminate].
  destruct (negb (truthy_str (encrypted_private_key u)));
    [cbn; apply Hk; discriminate|].
  destruct (decrypt_private_key _ id); cbn; apply Hk; eauto; discriminate.
Qed.

Lemma wp_bind_get_user {B} (id : Z) (k : option UserDoc -> M B)
    (Q : B -> World -> Prop) (w : World) :
  wp (k (List.find (by_telegram_id id) (users w))) Q w ->
  wp (bind (get_user id) k) Q w.
Proof. intros Hk. apply wp_bind. exact Hk. Qed.

Lemma save_payment_transaction_records (id : Z) (before : UserDoc)
    (tx_data : TxRecord) (w : World) :
  still_there id before (users w) ->
  recorded id before (payment_transaction tx_data true (clock w))
    (users (snd (save_payment_transaction id tx_data true w))).
Proof.
  intros (after & Hfind & Hsent & Hold).
  unfold save_payment_transaction, update_one, now, get_users, put_users, bind, ret.
  cbn [fst snd users clock].
  exists (push_transaction (payment_transaction tx_data true (clock w)) true (clock w) after).
  split.
  - apply find_update_first; [exact Hfind|].
    apply List.find_some in Hfind as [_ Hid]. exact Hid.
  - cbn. split; [now rewrite Hsent|]. split.
    + apply in_or_app. right. now left.
    + intros old Hin. apply in_or_app. left. auto.
Qed.

(** X15. A confirmed payment is in the sender's history. When an
    execution answers success, the sender's document has one more
    payment sent than before, its history holds an outgoing entry with
    the signature of the receipt and the amount, token, recipient and
    fee of the payment, marked confirmed, and nothing that was in the
    history before is lost. *)
Theorem confirmed_payment_is_recorded
    (sender : Z) (pd : PaymentData) (w : World) (r : Receipt) :
  fst (execute_payment_secure sender pd w) = ExecSuccess r ->
  exists before tx,
    List.find (by_telegram_id sender) (users w) = Some before
    /\ outgoing_entry pd (rc_signature r) tx
    /\ recorded sender before tx (users (snd (execute_payment_secure sender pd w))).
Proof.
  revert r.
  change (wp (execute_payment_secure sender pd)
            (fun result w' => forall r, result = ExecSuccess r ->
               exists before tx,
                 List.find (by_telegram_id sender) (users w) = Some before
                 /\ outgoing_entry pd (rc_signature r) tx
                 /\ recorded sender before tx (users w')) w).
  unfold execute_payment_secure.
  apply wp_bind_get_decrypted_private_key. intros answer Hanswer.
  destruct answer as [[key|]|exc]; [|history_step|history_step].
  destruct (Hanswer key eq_refl) as [before Hbefore]. clear Hanswer.
  history_step; [history_step|].
  apply wp_bind_get_user. rewrite Hbefore.
  assert (HJ : still_there sender before (users w))
    by (exists before; split; [exact Hbefore | apply grown_refl]).
  repeat history_step.
  apply wp_bind. unfold wp at 1.
  match goal with
  | |- wp _ _ (snd (save_payment_transaction _ ?record _ ?w)) =>
      pose proof (save_payment_transaction_records sender before record w HJ) as HR;
      set (tx := payment_transaction record true (clock w)) in HR;
      assert (Htx : outgoing_entry pd signature tx) by (repeat split);
      clearbody tx;
      destruct (save_payment_transaction sender record true w) as [saved w4];
      cbn [fst snd] in HR |- *
  end.
  clear HJ.
  repeat history_step.
  all: unfold wp, ret; cbn [fst snd]; intros r [= <-]; exists before, tx;
    cbn [rc_signature]; auto.
Qed.

End SenderHistory.

Section SenderHistoryScenario.
Import Traces Books Scenario.

Lemma confirmed_payment_is_recorded_witness :
  let out := @execute_payment_secure secrets tagging prompt_network 1 pd_dave
               (world_of [alice; bob]) in
  is_success (fst out) = true
  /\ exists tx, outgoing_entry pd_dave "sig-1" tx
       /\ recorded 1 alice tx (users (snd out)).
Proof.
  split; [vm_compute; reflexivity|].
  edestruct (@confirmed_payment_is_recorded secrets tagging prompt_network 1 pd_dave
               (world_of [alice; bob])) as (before & tx & Hbefore & Htx & Hrecorded);
    [vm_compute; reflexivity|].
  injection Hbefore as <-. exists tx. split; [exact Htx | exact Hrecorded].
Defined.

End SenderHistoryScenario.

(** ** From a payment to an unregistered handle to its claim *)

Section HandoverLemmas.
Import Traces Books Handover.
Local Open Scope monad_scope.
Context `{Secrets} `{CryptoLib}.

Lemma clear_find_username (handle : string) (id : Z) (c : list UserDoc) :
  Forall (clear_of handle id) c -> List.find (by_username handle) c = None.
Proof.
  intros Hall. apply find_none_intro. intros d Hd.
  rewrite Forall_forall in Hall. apply list_elem_of_In in Hd.
  destruct (Hall d Hd) as (Hname & _). now apply bool_decide_eq_false.
Qed.

Lemma clear_find_unclaimed (handle : string) (id : Z) (c : list UserDoc) :
  Forall (clear_of handle id) c ->
  List.find (by_unclaimed_username handle) c = None.
Proof.
  intros Hall. apply find_none_intro. intros d Hd.
  rewrite Forall_forall in Hall. apply list_elem_of_In in Hd.
  destruct (Hall d Hd) as (Hname & _). unfold by_unclaimed_username.
  now rewrite (bool_decide_eq_false_2 _ Hname).
Qed.

Lemma clear_admits (handle : string) (id : Z) (c : list UserDoc) (d : UserDoc) :
  Forall (clear_of handle id) c ->
  username d = Some handle -> (telegram_id d = None \/ telegram_id d = Some id) ->
  violates_unique_index c d = false.
Proof.
  intros Hall Hname Hid. unfold violates_unique_index.
  induction Hall as [|e rest (He1 & He2 & He3) _ IH]; [reflexivity|].
  cbn [existsb]. rewrite IH, Hname.
  rewrite (bool_decide_eq_false_2 _ He1).
  destruct Hid as [-> | ->];
    [rewrite (bool_decide_eq_false_2 _ He2) | rewrite (bool_decide_eq_false_2 _ He3)];
    reflexivity.
Qed.

Lemma others_no_match (f : UserDoc -> bool) (c : list UserDoc) (d : UserDoc) :
  List.find f c = None -> f d = true -> others f (c ++ [d]) = c.
Proof.
  induction c as [|e rest IH]; cbn [List.find app others].
  - intros _ ->. reflexivity.
  - destruct (f e); [discriminate|]. intros Hnone Hd. now rewrite IH.
Qed.

Lemma clear_update_first (handle : string) (id : Z) (f : UserDoc -> bool)
    (upd : UserDoc -> UserDoc) (c : list UserDoc) :
  (forall d, username (upd d) = username d /\ telegram_id (upd d) = telegram_id d) ->
  Forall (clear_of handle id) c -> Forall (clear_of handle id) (update_first f upd c).
Proof.
  intros Hupd Hall. induction Hall as [|e rest He Hrest IH]; [constructor|].
  cbn [update_first]. destruct (f e); constructor; auto.
  unfold clear_of in *. destruct (Hupd e) as [-> ->]. exact He.
Qed.

End HandoverLemmas.

Section HandoverClaim.
Import Traces Books Handover.
Local Open Scope monad_scope.
Context `{Secrets} `{CryptoLib}.

Hypothesis fernet_round_trip : forall key iv t data,
  fernet_decrypt key (fernet_encrypt key iv t data) = Some data.

(** A pending record at the end of a clear collection is claimed in
    full. *)
Lemma claim_of_pending_record (id : Z) (name handle address private_key : string)
    (note : Notification) (w : World) :
  normalize_username name = handle ->
  truthy_str (Some address) = true ->
  holds_pending handle id address private_key note (users w) ->
  fst (claim_pending_wallet id name w) = ClaimSuccess (Some address) private_key [note].
Proof.
  intros Hname Haddr (rest & iv & t & t' & Hc & Hclear).
  destruct w as [c events time draws]. cbn [users] in Hc. subst c.
  set (doc := pending_user_doc handle address _ note t').
  assert (Hdoc : by_unclaimed_username handle doc = true).
  { unfold by_unclaimed_username. cbn. now rewrite !bool_decide_eq_true_2. }
  assert (Hfind : List.find (by_unclaimed_username handle) (rest ++ [doc]) = Some doc).
  { rewrite (find_app_none _ _ _ (clear_find_unclaimed _ _ _ Hclear)).
    now rewrite Hdoc. }
  unfold claim_pending_wallet, claim_lookup, claim_commit, encrypt_private_key,
    update_one_indexed, update_one, find_one, fresh, now, get_users, put_users,
    bind, ret. cbn [fst snd users clock rng trace].
  rewrite Hname, Hfind.
  cbn [pending_wallet_address pending_private_key pending_notifications doc
       pending_user_doc]. rewrite Haddr. cbn [negb].
  unfold decrypt_private_key. rewrite fernet_round_trip.
  cbn [fst snd users]. rewrite Hfind.
  rewrite (others_no_match _ _ _ (clear_find_unclaimed _ _ _ Hclear) Hdoc).
  rewrite (clear_admits handle id rest _ Hclear); [reflexivity | reflexivity | now right].
Qed.

End HandoverClaim.

Ltac clear_side :=
  apply clear_update_first; [intros ?; split; reflexivity | assumption].

Ltac handover_step :=
  match goal with
  | |- wp (bind (bind create_new_wallet _) _) _ _ => apply wp_bind
  | |- wp (ret (Some _)) _ _ => unfold wp at 1; unfold ret at 1; cbn [fst snd]
  | |- wp (ret None) _ _ => unfold wp at 1; unfold ret at 1; cbn [fst snd]
  | HJ : Forall (Handover.clear_of ?handle ?id) (users ?w) |- wp (bind ?c ?k) ?Q ?w =>
      apply (wp_bind_stable (Forall (Handover.clear_of handle id)) c k Q w);
      [solve [solve_stable clear_side] | exact HJ | clear HJ; intros ? ? HJ]
  | |- wp (ret (ExecFailed _)) _ _ => unfold wp, ret; cbn [fst snd]; discriminate
  | |- wp (match ?x with _ => _ end) _ _ => destruct x
  end.

Section HandoverExecution.
Import Traces Books Handover.
Local Open Scope monad_scope.
Context `{Secrets} `{CryptoLib} `{Environment}.

Lemma execute_leaves_pending_record (sender id : Z) (pd : PaymentData) (w : World) :
  pd_recipient_status pd = new_user ->
  normalize_username (pd_recipient_username pd) = pd_recipient_username pd ->
  Forall (clear_of (pd_recipient_username pd) id) (users w) ->
  wp (execute_payment_secure sender pd)
     (fun result w' => forall r, result = ExecSuccess r ->
        exists address private_key note,
          rc_recipient_wallet r = Some address
          /\ rc_recipient_private_key r = Some private_key
          /\ announces pd (rc_signature r) note
          /\ holds_pending (pd_recipient_username pd) id address private_key note
               (users w')) w.
Proof.
  intros Hstatus Hnorm HJ. unfold execute_payment_secure.
  rewrite Hstatus. cbv beta iota.
  repeat handover_step.
  apply wp_bind. unfold wp at 1.
  unfold create_pending_user_by_username, encrypt_private_key, insert_one, find_one,
    fresh, now, get_users, put_users, bind, ret.
  cbn [fst snd users clock rng trace from_option]. unfold Datatypes.id.
  rewrite Hnorm, (clear_find_username _ _ _ HJ).
  cbn [fst snd users clock].
  match goal with
  | |- context [violates_unique_index ?c ?d] =>
      rewrite (clear_admits (pd_recipient_username pd) id c d HJ eq_refl
                 (or_introl eq_refl))
  end.
  cbn [fst snd users]. intros r [= <-].
  eexists address, private_key, _. cbn [rc_recipient_wallet rc_recipient_private_key rc_signature].
  split; [reflexivity|]. split; [reflexivity|]. split; [|do 4 eexists; split; [reflexivity | exact HJ]].
  repeat split.
Qed.

(** What the Fernet library promises of its own tokens. *)
Hypothesis fernet_round_trip : forall key iv t data,
  fernet_decrypt key (fernet_encrypt key iv t data) = Some data.

(** X16. The wallet that was paid can be claimed by its owner. After a
    successful payment to a handle that had no document (in a
    collection where every document has an identity, and none the
    claimer's), the first claim of that handle answers success with the
    address that the transfer was sent to, the private key of the
    receipt, and the one notification of that payment. *)
Theorem paid_wallet_can_be_claimed
    (sender id : Z) (pd : PaymentData) (w : World) (r : Receipt) (name : string) :
  fst (execute_payment_secure sender pd w) = ExecSuccess r ->
  pd_recipient_status pd = new_user ->
  normalize_username (pd_recipient_username pd) = pd_recipient_username pd ->
  normalize_username name = pd_recipient_username pd ->
  Forall (clear_of (pd_recipient_username pd) id) (users w) ->
  truthy_str (rc_recipient_wallet r) = true ->
  let w' := snd (execute_payment_secure sender pd w) in
  exists private_key note,
    rc_recipient_private_key r = Some private_key
    /\ announces pd (rc_signature r) note
    /\ submitted w w'
       = [EvTransfer (transfer_asset pd) (rc_recipient_wallet r) (pd_amount pd)]
    /\ fst (claim_pending_wallet id name w')
       = ClaimSuccess (rc_recipient_wallet r) private_key [note].
Proof.
  intros Hok Hstatus Hnorm Hname Hclear Haddr w'.
  destruct (execute_leaves_pending_record sender id pd w Hstatus Hnorm Hclear r Hok)
    as (address & private_key & note & Hwallet & Hkey & Hnote & Hpending).
  destruct (execute_payment_secure_stage_from sender pd w w) as [_ Hreceipt].
  { split; [reflexivity|]. split; [reflexivity | apply before_transfer_refl]. }
  destruct (Hreceipt r Hok) as (Hsubmitted & _).
  exists private_key, note. split; [exact Hkey|]. split; [exact Hnote|].
  split; [exact Hsubmitted|].
  rewrite Hwallet in Haddr |- *.
  now apply (claim_of_pending_record fernet_round_trip id name
               (pd_recipient_username pd) address private_key note).
Qed.

End HandoverExecution.

Section HandoverScenario.
Import Traces Books Handover Scenario.

Lemma paid_wallet_can_be_claimed_witness :
  let out := @execute_payment_secure secrets tagging prompt_network 1 pd_dave
               (world_of [alice; bob]) in
  is_success (fst out) = true
  /\ exists note,
       n_signature note = "sig-1"
       /\ fst (claim_pending_wallet 9 "@Dave" (snd out))
          = ClaimSuccess (Some "FreshWallet") "fresh-key" [note].
Proof.
  split; [vm_compute; reflexivity|].
  pose proof (@paid_wallet_can_be_claimed secrets tagging prompt_network
                tagging_is_correct 1 9 pd_dave (world_of [alice; bob])) as H.
  specialize (H _ "@Dave" ltac:(vm_compute; reflexivity)).
  destruct H as (private_key & note & Hkey & Hnote & _ & Hclaim).
  - reflexivity.
  - vm_compute. reflexivity.
  - vm_compute. reflexivity.
  - repeat constructor; cbn; discriminate.
  - reflexivity.
  - cbn in Hkey. injection Hkey as <-. exists note.
    split; [apply Hnote | exact Hclaim].
Defined.

End HandoverScenario.

(** ** The commands /start and /createwallet *)

Section CommandSteps.
Import Accounts Commands.
Context `{Secrets} `{CryptoLib} `{Environment} `{Messenger}.

Lemma hwp_and_then {A B} (h : H A) (k : A -> H B) (Q : option B -> Chat -> Prop)
    (c : Chat) :
  hwp h (fun r c' => match r with
                     | Some a => hwp (k a) Q c'
                     | None => Q None c'
                     end) c ->
  hwp (and_then h k) Q c.
Proof.
  unfold hwp, and_then. destruct (h c) as [[a|] c']; cbn [fst snd]; intros Hk; exact Hk.
Qed.

Lemma hwp_try_except {A} (body handler : H A) (Q : option A -> Chat -> Prop) (c : Chat) :
  hwp body (fun r c' => match r with
                        | Some a => Q (Some a) c'
                        | None => hwp handler Q c'
                        end) c ->
  hwp (try_except body handler) Q c.
Proof.
  unfold hwp, try_except. destruct (body c) as [[a|] c']; cbn [fst snd]; intros Hk; exact Hk.
Qed.

Lemma hwp_call {A} (m : M A) (Q : option A -> Chat -> Prop) (w : World)
    (r : list CommandText) :
  Q (Some (fst (m w))) {| store := snd (m w); replies := r |} ->
  hwp (call m) Q {| store := w; replies := r |}.
Proof. unfold hwp, call. cbn [store replies]. now destruct (m w). Qed.

Lemma hwp_reply_text (text : CommandText) (Q : option unit -> Chat -> Prop)
    (c0 : Chat) (w : World) (l : list CommandText) :
  (reply_text_ok text = true ->
   Q (Some tt) {| store := w; replies := replies c0 ++ (l ++ [text]) |}) ->
  (reply_text_ok text = false -> Q None {| store := w; replies := replies c0 ++ l |}) ->
  hwp (reply_text text) Q {| store := w; replies := replies c0 ++ l |}.
Proof.
  unfold hwp, reply_text. cbn [store replies]. rewrite app_assoc.
  destruct (reply_text_ok text); cbn [fst snd]; auto.
Qed.

Lemma hwp_done {A} (a : A) (Q : option A -> Chat -> Prop) (c : Chat) :
  Q (Some a) c -> hwp (done a) Q c.
Proof. intros HQ. exact HQ. Qed.

Lemma hwp_raise {A} (Q : option A -> Chat -> Prop) (c : Chat) :
  Q None c -> hwp raise Q c.
Proof. intros HQ. exact HQ. Qed.

Lemma hwp_from {A} (h : H A) (Q : option A -> Chat -> Prop) (c : Chat) :
  hwp h Q {| store := store c; replies := replies c ++ [] |} -> hwp h Q c.
Proof. destruct c. cbn [store replies]. now rewrite app_nil_r. Qed.

Lemma said_app (c : Chat) (w : World) (l : list CommandText) :
  said c {| store := w; replies := replies c ++ l |} = l.
Proof. unfold said. cbn [replies]. apply drop_app_length. Qed.

(** The loop over the notifications leaves the store alone and shows no
    key. *)
Lemma send_notifications_adds (notifications : list Notification) (c : Chat) :
  exists l,
    snd (send_notifications notifications c)
    = {| store := store c; replies := replies c ++ l |}
    /\ Forall (fun text => wallet_shown text = None) l.
Proof.
  revert c. induction notifications as [|notif rest IH]; intros c.
  - exists []. destruct c. cbn. now rewrite app_nil_r.
  - cbn [send_notifications]. unfold and_then.
    destruct (String.eqb (n_type notif) "payment_received").
    + destruct (n_sender_username notif) as [sender|].
      * unfold reply_text. destruct (reply_text_ok _).
        -- destruct (IH {| store := store c; replies := replies c ++ [TxtYouReceived notif] |})
             as (l & Hl & Hquiet).
           exists (TxtYouReceived notif :: l). rewrite Hl. cbn [store replies].
           rewrite <- app_assoc. split; [reflexivity|]. now constructor.
        -- exists []. destruct c. cbn. now rewrite app_nil_r.
      * exists []. destruct c. cbn. now rewrite app_nil_r.
    + unfold done. apply IH.
Qed.

Lemma hwp_send_notifications (notifications : list Notification)
    (Q : option unit -> Chat -> Prop) (c0 : Chat) (w : World) (l0 : list CommandText) :
  (forall r l, Forall (fun text => wallet_shown text = None) l ->
     Q r {| store := w; replies := replies c0 ++ (l0 ++ l) |}) ->
  hwp (send_notifications notifications) Q {| store := w; replies := replies c0 ++ l0 |}.
Proof.
  intros HQ. unfold hwp.
  destruct (send_notifications_adds notifications
              {| store := w; replies := replies c0 ++ l0 |}) as (l & Hl & Hquiet).
  rewrite Hl. cbn [store replies]. rewrite <- app_assoc. now apply HQ.
Qed.

Lemma save_wallet_without_document
    (id : Z) (address private_key type_ : string) (w : World) :
  List.find (by_telegram_id id) (users w) = None ->
  fst (save_wallet id address private_key type_ w) = false.
Proof.
  intros Hnone.
  unfold save_wallet, encrypt_private_key, update_one, fresh, now, get_users,
    put_users, bind, ret.
  cbn [fst snd users clock rng trace]. now rewrite Hnone.
Qed.

End CommandSteps.

(** One step through a handler. *)
Ltac hstep :=
  lazymatch goal with
  | |- Commands.hwp (Commands.try_except ?b ?h) ?Q ?c =>
      apply (hwp_try_except b h Q c)
  | |- Commands.hwp (Commands.and_then ?h ?k) ?Q ?c =>
      apply (hwp_and_then h k Q c)
  | |- Commands.hwp (Commands.call ?m) ?Q _ =>
      apply (hwp_call m Q); cbv beta iota
  | |- Commands.hwp (Commands.reply_text ?text) ?Q _ =>
      apply (hwp_reply_text text Q); intros ?; cbv beta iota
  | |- Commands.hwp (Commands.send_notifications ?ns) ?Q _ =>
      apply (hwp_send_notifications ns Q); intros [[]|] ? ?; cbv beta iota
  | |- Commands.hwp (Commands.done ?a) ?Q ?c =>
      apply (hwp_done a Q c); cbv beta iota
  | |- Commands.hwp Commands.raise ?Q ?c =>
      apply (hwp_raise Q c); cbv beta iota
  | |- Commands.hwp (if ?b then _ else _) _ _ => destruct b eqn:?
  | |- Commands.hwp (match ?x with _ => _ end) _ _ => destruct x eqn:?
  end.

(** The texts that a run has added, one by one. *)
Ltac said_cases Hin :=
  rewrite said_app in Hin; rewrite ?in_app_iff in Hin; cbn [In] in Hin;
  repeat match type of Hin with
         | _ \/ _ => destruct Hin as [Hin|Hin]
         | False => contradiction
         | _ = _ => subst
         end.

Section ShownKeys.
Import Accounts Commands.
Context `{Secrets} `{CryptoLib} `{Environment} `{Messenger}.

Hypothesis fernet_round_trip : forall key iv t data,
  fernet_decrypt key (fernet_encrypt key iv t data) = Some data.
Hypothesis fernet_token_not_empty : forall key iv t data,
  truthy_str (Some (fernet_encrypt key iv t data)) = true.

Lemma createwallet_shows_the_stored_key
    (user : TelegramUser) (c : Chat) (text : CommandText)
    (address : option string) (private_key : string) :
  let c' := snd (create_wallet_command user c) in
  In text (said c c') ->
  wallet_shown text = Some (address, private_key) ->
  fst (get_decrypted_private_key (user_id user) (store c')) = Returned (Some private_key)
  /\ (wallet_address <$> fst (get_user (user_id user) (store c'))) = Some address.
Proof.
  cbv zeta. revert text address private_key.
  change (hwp (create_wallet_command user)
            (fun _ c' => forall text address private_key,
               In text (said c c') ->
               wallet_shown text = Some (address, private_key) ->
               fst (get_decrypted_private_key (user_id user) (store c'))
               = Returned (Some private_key)
               /\ (wallet_address <$> fst (get_user (user_id user) (store c')))
                  = Some address) c).
  apply hwp_from. unfold create_wallet_command. cbv zeta.
  repeat hstep.
  all: intros text a k Hin Hshown; rewrite said_app in Hin; cbn [app] in Hin.
  all: repeat (destruct Hin as [<-|Hin]; [try discriminate Hshown|]); try contradiction.
  all: cbn [store wallet_shown] in *; injection Hshown as <- <-.
  1, 2: match goal with
        | Hsaved : fst (save_wallet ?id ?a ?k ?ty ?w) = true |- _ =>
            destruct (List.find (by_telegram_id id) (users w)) as [d|] eqn:Hd;
            [|rewrite (save_wallet_without_document id a k ty w Hd) in Hsaved;
              discriminate];
            destruct (save_wallet_stored id a k ty w d Hd) as (_ & _ & Hstored);
            destruct (wallet_reads_back fernet_round_trip fernet_token_not_empty
                        id _ _ (Some a) _ _ k Hstored eq_refl ltac:(discriminate) eq_refl)
              as (Hkey & _ & Hwallet);
            split; [exact Hkey | exact Hwallet]
        end.
  match goal with
  | Hclaimed : fst (claim_pending_wallet ?id ?name ?w) = ClaimSuccess ?a ?k ?notes |- _ =>
      destruct (claim_success_stores id name w a k notes Hclaimed)
        as (p & iv & t & t' & Hbound & _ & _ & Haddr);
      destruct (wallet_reads_back fernet_round_trip fernet_token_not_empty
                  id _ _ a iv t k Hbound eq_refl (truthy_is_some _ Haddr) eq_refl)
        as (Hkey & _ & Hwallet);
      split; [exact Hkey | exact Hwallet]
  end.
Qed.

Lemma start_shows_the_stored_key
    (user : TelegramUser) (c : Chat) (text : CommandText)
    (address : option string) (private_key : string) :
  let c' := snd (start_command user c) in
  In text (said c c') ->
  wallet_shown text = Some (address, private_key) ->
  fst (get_decrypted_private_key (user_id user) (store c')) = Returned (Some private_key)
  /\ (wallet_address <$> fst (get_user (user_id user) (store c'))) = Some address.
Proof.
  cbv zeta. revert text address private_key.
  change (hwp (start_command user)
            (fun _ c' => forall text address private_key,
               In text (said c c') ->
               wallet_shown text = Some (address, private_key) ->
               fst (get_decrypted_private_key (user_id user) (store c'))
               = Returned (Some private_key)
               /\ (wallet_address <$> fst (get_user (user_id user) (store c')))
                  = Some address) c).
  apply hwp_from. unfold start_command. cbv zeta.
  repeat hstep.
  all: intros text a k Hin Hshown; said_cases Hin; try discriminate Hshown.
  all: try match goal with
           | Hquiet : Forall _ ?l, Hl : In _ ?l |- _ =>
               rewrite (proj1 (List.Forall_forall _ _) Hquiet _ Hl) in Hshown;
               discriminate
           end.
  all: cbn [store wallet_shown] in *; injection Hshown as <- <-.
  all: match goal with
       | Hclaimed : fst (claim_pending_wallet ?id ?name ?w) = ClaimSuccess ?a ?k ?notes
         |- _ =>
           destruct (claim_success_stores id name w a k notes Hclaimed)
             as (p & iv & t & t' & Hbound & _ & _ & Haddr);
           destruct (wallet_reads_back fernet_round_trip fernet_token_not_empty
                       id _ _ a iv t k Hbound eq_refl (truthy_is_some _ Haddr) eq_refl)
             as (Hkey & _ & Hwallet);
           split; [exact Hkey | exact Hwallet]
       end.
Qed.

(** X17. The commands show no key but the stored one. Whenever /start
    or /createwallet sends a text that shows a wallet and a private key
    (the wallet set up from a payment, the wallet already created, the
    wallet that is ready), the store in which the command ends binds the
    user's identity to that wallet, and the key read back from the store
    is the key shown. *)
Theorem shown_key_is_the_stored_key
    (user : TelegramUser) (c c' : Chat) (text : CommandText)
    (address : option string) (private_key : string) :
  c' = snd (start_command user c) \/ c' = snd (create_wallet_command user c) ->
  In text (said c c') ->
  wallet_shown text = Some (address, private_key) ->
  fst (get_decrypted_private_key (user_id user) (store c')) = Returned (Some private_key)
  /\ (wallet_address <$> fst (get_user (user_id user) (store c'))) = Some address.
Proof.
  intros [-> | ->] Hin Hshown.
  - (* /start *)
    exact (start_shows_the_stored_key user c text address private_key Hin Hshown).
  - (* /createwallet *)
    exact (createwallet_shows_the_stored_key user c text address private_key Hin Hshown).
Qed.

End ShownKeys.

Section StartHandsOver.
Import Accounts Handover Commands.
Context `{Secrets} `{CryptoLib} `{Messenger}.

Hypothesis fernet_round_trip : forall key iv t data,
  fernet_decrypt key (fernet_encrypt key iv t data) = Some data.

(** X18. /start hands a pending wallet to a newcomer who bears the
    handle. For a user whose username, or first name when there is no
    username, is typed in ASCII and normalises to the handle of the
    pending record that a payment left (the last document of the
    collection, with a non-empty address and the one notification of
    the payment, which names its sender), when the user has no document
    yet and every other document has another handle and an identity,
    /start (with the two replies going through) answers with the
    address and the private key of that record, followed by the
    notification of the payment, and nothing else. *)
Theorem start_hands_over_the_pending_wallet
    (user : TelegramUser) (c : Chat) (handle address private_key sender : string)
    (note : Notification) :
  is_ascii (display_name user) = true ->
  normalize_username (display_name user) = handle ->
  truthy_str (Some address) = true ->
  holds_pending handle (user_id user) address private_key note (users (store c)) ->
  n_type note = "payment_received" ->
  n_sender_username note = Some sender ->
  reply_text_ok (TxtWalletSetUp handle (Some address) private_key) = true ->
  reply_text_ok (TxtYouReceived note) = true ->
  fst (start_command user c) = Some tt
  /\ said c (snd (start_command user c))
     = [TxtWalletSetUp handle (Some address) private_key; TxtYouReceived note].
Proof.
  intros _ Hname Haddr Hpending Htype Hsender Hfirst Hsecond.
  assert (Hclaim : fst (claim_pending_wallet (user_id user) handle (store c))
                   = ClaimSuccess (Some address) private_key [note]).
  { apply (claim_of_pending_record fernet_round_trip (user_id user) handle handle);
      [|exact Haddr | exact Hpending].
    rewrite <- Hname. apply normalize_username_idem. }
  change (hwp (start_command user)
            (fun r c' => r = Some tt
               /\ said c c' = [TxtWalletSetUp handle (Some address) private_key;
                               TxtYouReceived note]) c).
  apply hwp_from. unfold start_command. cbv zeta. rewrite Hname.
  do 3 hstep. rewrite Hclaim.
  hstep. hstep; [|congruence].
  cbn [send_notifications]. rewrite Htype, Hsender. cbn [String.eqb Ascii.eqb Bool.eqb].
  hstep. hstep; [|congruence]. hstep.
  split; [reflexivity|]. now rewrite said_app.
Qed.

End StartHandsOver.

Section RegisteredUsers.
Import Accounts Commands.
Context `{Secrets} `{CryptoLib} `{Environment} `{Messenger}.

Lemma others_keeps (f : UserDoc -> bool) (c : list UserDoc) (u : UserDoc) :
  In u c -> f u = false -> In u (others f c).
Proof.
  intros Hin Hu. induction c as [|d rest IH]; [contradiction|].
  cbn [others]. destruct Hin as [-> | Hin].
  - rewrite Hu. now left.
  - destruct (f d); [exact Hin | right; now apply IH].
Qed.

(** A claim that fails leaves the collection as it was. *)
Lemma claim_failure_keeps_collection (id : Z) (name : string) (w : World)
    (error : option string) :
  fst (claim_pending_wallet id name w) = ClaimFailed error ->
  users (snd (claim_pending_wallet id name w)) = users w.
Proof.
  unfold claim_pending_wallet, claim_lookup, claim_commit, encrypt_private_key,
    update_one_indexed, update_one, find_one, fresh, now, get_users, put_users,
    bind, ret. cbn [fst snd users clock rng trace].
  destruct (List.find _ (users w)) as [p|] eqn:Hpending; [|reflexivity].
  destruct (truthy_str (pending_wallet_address p)); cbn [negb]; [|reflexivity].
  destruct (pending_private_key p) as [token|]; [|reflexivity].
  destruct (decrypt_private_key token _) as [key|]; [|reflexivity].
  cbn [fst snd users]. rewrite Hpending.
  destruct (violates_unique_index _ _); cbn [fst snd users]; [reflexivity | discriminate].
Qed.

(** An identity that has a document cannot claim: the unique index on
    [telegram_id] refuses the update. *)
Lemma claim_refused_for_registered (id : Z) (name : string) (w : World) (u : UserDoc) :
  List.find (by_telegram_id id) (users w) = Some u ->
  exists error, fst (claim_pending_wallet id name w) = ClaimFailed error.
Proof.
  intros Hfind. apply List.find_some in Hfind as [Hin Hu].
  apply bool_decide_eq_true in Hu.
  unfold claim_pending_wallet, claim_lookup, claim_commit, encrypt_private_key,
    update_one_indexed, update_one, find_one, fresh, now, get_users, put_users,
    bind, ret. cbn [fst snd users clock rng trace].
  destruct (List.find _ (users w)) as [p|] eqn:Hpending; [|eauto].
  destruct (truthy_str (pending_wallet_address p)); cbn [negb]; [|eauto].
  destruct (pending_private_key p) as [token|]; [|eauto].
  destruct (decrypt_private_key token _) as [key|]; [|eauto].
  cbn [fst snd users]. rewrite Hpending.
  match goal with
  | |- context [violates_unique_index ?c ?d] =>
      assert (Hrefused : violates_unique_index c d = true)
  end.
  { unfold violates_unique_index. apply existsb_exists. exists u. split.
    - apply others_keeps; [exact Hin|]. unfold by_unclaimed_username.
      rewrite Hu. rewrite (bool_decide_eq_false_2 (Some id = None)); [|discriminate].
      apply andb_false_r.
    - cbn [telegram_id set_claimed]. rewrite Hu.
      now rewrite bool_decide_eq_true_2. }
  rewrite Hrefused. cbn [fst snd]. eauto.
Qed.

(** X19. The commands leave a registered user's documents alone. /start
    by an identity that has a document changes no document and shows no
    key, whatever pending record bears the user's handle; /createwallet
    by an identity that has a wallet changes nothing in the store and
    shows no key. *)
Theorem commands_leave_a_registered_user_alone
    (user : TelegramUser) (c : Chat) (u : UserDoc) :
  List.find (by_telegram_id (user_id user)) (users (store c)) = Some u ->
  let started := snd (start_command user c) in
  let created := snd (create_wallet_command user c) in
  (users (store started) = users (store c)
   /\ Forall (fun text => wallet_shown text = None) (said c started))
  /\ (wallet_address u <> None ->
      store created = store c
      /\ Forall (fun text => wallet_shown text = None) (said c created)).
Proof.
  intros Hfind started created. subst started created. split.
  - change (hwp (start_command user)
              (fun _ c' => users (store c') = users (store c)
                 /\ Forall (fun text => wallet_shown text = None) (said c c')) c).
    apply hwp_from. unfold start_command. cbv zeta.
    destruct (claim_refused_for_registered (user_id user)
                (normalize_username (display_name user)) (store c) u Hfind)
      as [error Hrefused].
    pose proof (claim_failure_keeps_collection _ _ _ _ Hrefused) as Hkept.
    do 3 hstep. rewrite Hrefused.
    assert (Hfound : fst (get_user (user_id user)
                            (snd (claim_pending_wallet (user_id user)
                                    (normalize_username (display_name user)) (store c))))
                     = Some u).
    { unfold get_user, find_one, get_users, bind, ret. cbn [fst snd].
      now rewrite Hkept. }
    do 3 hstep. rewrite Hfound. repeat hstep.
    all: cbn [store]; rewrite said_app; split; [exact Hkept|].
    all: repeat constructor.
  - intros Hwallet.
    change (hwp (create_wallet_command user)
              (fun _ c' => store c' = store c
                 /\ Forall (fun text => wallet_shown text = None) (said c c')) c).
    apply hwp_from. unfold create_wallet_command. cbv zeta.
    assert (Hhas : user_has_wallet (user_id user) (store c) = (true, store c)).
    { unfold user_has_wallet, get_user, find_one, get_users, bind, ret.
      cbn [fst snd]. rewrite Hfind. now rewrite bool_decide_eq_true_2. }
    do 3 hstep. rewrite Hhas. cbn [fst snd]. repeat hstep.
    all: cbn [store]; rewrite said_app; split; [reflexivity|].
    all: repeat constructor.
Qed.

End RegisteredUsers.

Section FurtherScenarioss.
Import Accounts Handover Commands Scenario FurtherScenarios.

Lemma shown_key_is_the_stored_key_witness :
  let c := {| store := world_of [alice; bob]; replies := [] |} in
  let c' := snd (create_wallet_command frank_account c) in
  said c c' = [TxtCreatingWallet; TxtWalletReady "FreshWallet" "fresh-key"]
  /\ fst (get_decrypted_private_key 6 (store c')) = Returned (Some "fresh-key")
  /\ (wallet_address <$> fst (get_user 6 (store c'))) = Some (Some "FreshWallet").
Proof.
  split; [vm_compute; reflexivity|].
  apply (shown_key_is_the_stored_key tagging_is_correct tagging_token_not_empty
           frank_account {| store := world_of [alice; bob]; replies := [] |} _
           (TxtWalletReady "FreshWallet" "fresh-key")).
  - right. reflexivity.
  - vm_compute. right. left. reflexivity.
  - reflexivity.
Defined.

Lemma start_hands_over_the_pending_wallet_witness :
  let c := {| store := paid_world; replies := [] |} in
  (display_name dave_by_first_name = "Dave" /\ is_ascii "Dave" = true)
  /\ fst (start_command dave_by_first_name c) = Some tt
  /\ said c (snd (start_command dave_by_first_name c))
     = [TxtWalletSetUp "dave" (Some "FreshWallet") "fresh-key"; TxtYouReceived dave_note].
Proof.
  split; [split; reflexivity|].
  apply (start_hands_over_the_pending_wallet tagging_is_correct dave_by_first_name
           {| store := paid_world; replies := [] |} "dave" "FreshWallet" "fresh-key"
           "alice" dave_note).
  - reflexivity.
  - vm_compute. reflexivity.
  - reflexivity.
  - exists (firstn 2 (users paid_world)), 0%nat, 0%Z, 103%Z.
    split; [vm_compute; reflexivity|].
    vm_compute. repeat constructor; discriminate.
  - reflexivity.
  - reflexivity.
  - reflexivity.
  - reflexivity.
Defined.

Lemma commands_leave_a_registered_user_alone_witness :
  let c := {| store := world_of [alice; bob]; replies := [] |} in
  List.find (by_telegram_id 1) (users (store c)) = Some alice
  /\ users (store (snd (start_command alice_account c))) = [alice; bob]
  /\ store (snd (create_wallet_command alice_account c)) = world_of [alice; bob].
Proof.
  split; [vm_compute; reflexivity|].
  destruct (commands_leave_a_registered_user_alone alice_account
              {| store := world_of [alice; bob]; replies := [] |} alice)
    as [[Hstarted _] Hcreated]; [vm_compute; reflexivity|].
  split; [exact Hstarted|].
  now destruct Hcreated as [Hstore _].
Defined.

End FurtherScenarioss.

(** ** A second pending wallet *)

Section CrowdedLemmas.
Import Traces Books Handover.

Lemma crowded_find_username (handle : string) (c : list UserDoc) :
  crowded handle c -> List.find (by_username handle) c = None.
Proof.
  intros [Hall _]. apply find_none_intro. intros d Hd.
  rewrite Forall_forall in Hall. apply list_elem_of_In in Hd.
  apply bool_decide_eq_false. now apply Hall.
Qed.

Lemma crowded_find_unclaimed (handle : string) (c : list UserDoc) :
  crowded handle c -> List.find (by_unclaimed_username handle) c = None.
Proof.
  intros [Hall _]. apply find_none_intro. intros d Hd.
  rewrite Forall_forall in Hall. apply list_elem_of_In in Hd.
  unfold by_unclaimed_username.
  now rewrite (bool_decide_eq_false_2 _ (Hall d Hd)).
Qed.

Lemma crowded_refuses (handle : string) (c : list UserDoc) (d : UserDoc) :
  crowded handle c -> telegram_id d = None -> violates_unique_index c d = true.
Proof.
  intros [_ Hsome] Hd. unfold violates_unique_index.
  apply existsb_exists. apply Exists_exists in Hsome as (e & He & Hnone).
  exists e. split; [now apply list_elem_of_In|].
  rewrite Hnone, Hd. now rewrite bool_decide_eq_true_2.
Qed.

Lemma crowded_update_first (handle : string) (f : UserDoc -> bool)
    (upd : UserDoc -> UserDoc) (c : list UserDoc) :
  (forall d, username (upd d) = username d /\ telegram_id (upd d) = telegram_id d) ->
  crowded handle c -> crowded handle (update_first f upd c).
Proof.
  intros Hupd [Hall Hsome]. split.
  - clear Hsome. induction Hall as [|e rest He Hrest IH]; [constructor|].
    cbn [update_first]. destruct (f e); constructor; cbv beta; auto.
    destruct (Hupd e) as [Hname _]. now rewrite Hname.
  - clear Hall. induction Hsome as [e rest He|e rest Hrest IH]; cbn [update_first].
    + destruct (f e); apply Exists_cons_hd; [|exact He].
      destruct (Hupd e) as [_ Hid]. now rewrite Hid.
    + destruct (f e); apply Exists_cons_tl; [exact Hrest | exact IH].
Qed.

End CrowdedLemmas.

Ltac crowded_side :=
  apply crowded_update_first; [intros ?; split; reflexivity | assumption].

Ltac crowded_step :=
  match goal with
  | |- wp (bind (bind create_new_wallet _) _) _ _ => apply wp_bind
  | |- wp (ret (Some _)) _ _ => unfold wp at 1; unfold ret at 1; cbn [fst snd]
  | |- wp (ret None) _ _ => unfold wp at 1; unfold ret at 1; cbn [fst snd]
  | HJ : Handover.crowded ?handle (users ?w) |- wp (bind ?c ?k) ?Q ?w =>
      apply (wp_bind_stable (Handover.crowded handle) c k Q w);
      [solve [solve_stable crowded_side] | exact HJ | clear HJ; intros ? ? HJ]
  | |- wp (ret (ExecFailed _)) _ _ => unfold wp, ret; cbn [fst snd]; discriminate
  | |- wp (match ?x with _ => _ end) _ _ => destruct x
  end.

Section CrowdedExecution.
Import Traces Books Handover.
Local Open Scope monad_scope.
Context `{Secrets} `{CryptoLib} `{Environment}.

Lemma execute_in_crowded_collection (sender : Z) (pd : PaymentData) (w : World) :
  pd_recipient_status pd = new_user ->
  normalize_username (pd_recipient_username pd) = pd_recipient_username pd ->
  crowded (pd_recipient_username pd) (users w) ->
  wp (execute_payment_secure sender pd)
     (fun result w' => forall r, result = ExecSuccess r ->
        crowded (pd_recipient_username pd) (users w')
        /\ exists private_key, rc_recipient_private_key r = Some private_key) w.
Proof.
  intros Hstatus Hnorm HJ. unfold execute_payment_secure.
  rewrite Hstatus. cbv beta iota.
  repeat crowded_step.
  apply wp_bind. unfold wp at 1.
  unfold create_pending_user_by_username, encrypt_private_key, insert_one, find_one,
    fresh, now, get_users, put_users, bind, ret.
  cbn [fst snd users clock rng trace from_option]. unfold Datatypes.id.
  rewrite Hnorm, (crowded_find_username _ _ HJ).
  cbn [fst snd users clock].
  match goal with
  | |- context [violates_unique_index ?c ?d] =>
      rewrite (crowded_refuses (pd_recipient_username pd) c d HJ eq_refl)
  end.
  cbn [fst snd users]. intros r [= <-].
  split; [exact HJ|]. cbn [rc_recipient_private_key]. eauto.
Qed.

(** X20. A second pending wallet is lost. While the collection holds an
    unclaimed document (a pending wallet of another handle), a payment
    to a handle without a document still generates a wallet, submits the
    transfer to it and answers success with the key in the receipt; but
    the unique index on [telegram_id] refuses the pending record, so no
    document bears the handle afterwards and the claim of the handle
    finds no wallet. *)
Theorem second_pending_wallet_is_not_recorded
    (sender id : Z) (pd : PaymentData) (w : World) (r : Receipt) (name : string) :
  fst (execute_payment_secure sender pd w) = ExecSuccess r ->
  pd_recipient_status pd = new_user ->
  normalize_username (pd_recipient_username pd) = pd_recipient_username pd ->
  normalize_username name = pd_recipient_username pd ->
  crowded (pd_recipient_username pd) (users w) ->
  let w' := snd (execute_payment_secure sender pd w) in
  submitted w w' = [EvTransfer (transfer_asset pd) (rc_recipient_wallet r) (pd_amount pd)]
  /\ (exists private_key, rc_recipient_private_key r = Some private_key)
  /\ Forall (fun d => username d <> Some (pd_recipient_username pd)) (users w')
  /\ fst (get_user_by_username name w') = None
  /\ fst (claim_pending_wallet id name w') = ClaimFailed None.
Proof.
  intros Hok Hstatus Hnorm Hname Hcrowded w'.
  destruct (execute_in_crowded_collection sender pd w Hstatus Hnorm Hcrowded r Hok)
    as (Hafter & Hkey).
  destruct (execute_payment_secure_stage_from sender pd w w) as [_ Hreceipt].
  { split; [reflexivity|]. split; [reflexivity | apply before_transfer_refl]. }
  destruct (Hreceipt r Hok) as (Hsubmitted & _).
  split; [exact Hsubmitted|]. split; [exact Hkey|]. split; [apply Hafter|].
  fold w' in Hafter. split.
  - unfold get_user_by_username, find_one, get_users, bind, ret. cbn [fst snd].
    rewrite Hname. apply (crowded_find_username _ _ Hafter).
  - unfold claim_pending_wallet, claim_lookup, claim_commit, find_one, get_users,
      bind, ret. cbn [fst snd].
    rewrite Hname, (crowded_find_unclaimed _ _ Hafter). reflexivity.
Qed.

End CrowdedExecution.

Section CrowdedScenario.
Import Traces Books Handover Scenario.

Lemma second_pending_wallet_is_not_recorded_witness :
  let w := world_of [alice; bob; carol_pending] in
  let out := @execute_payment_secure secrets tagging prompt_network 1 pd_dave w in
  is_success (fst out) = true
  /\ submitted w (snd out) = [EvTransfer "SOL" (Some "FreshWallet") 1%float]
  /\ fst (get_user_by_username "dave" (snd out)) = None
  /\ fst (claim_pending_wallet 9 "@Dave" (snd out)) = ClaimFailed None.
Proof.
  split; [vm_compute; reflexivity|].
  pose proof (@second_pending_wallet_is_not_recorded secrets tagging prompt_network
                1 9 pd_dave (world_of [alice; bob; carol_pending])) as H.
  specialize (H _ "@Dave" ltac:(vm_compute; reflexivity)).
  destruct H as (Hsubmitted & _ & _ & Hnone & Hclaim).
  - reflexivity.
  - vm_compute. reflexivity.
  - vm_compute. reflexivity.
  - split.
    + repeat constructor; cbn; discriminate.
    + do 2 apply Exists_cons_tl. apply Exists_cons_hd. reflexivity.
  - split; [|split; [|exact Hclaim]].
    + vm_compute in Hsubmitted. vm_compute. exact Hsubmitted.
    + exact Hnone.
Defined.

End CrowdedScenario.

(** ** A wallet for a registered recipient *)

Section ActivationLemmas.
Import Traces Books.

Lemma holds_wallet_update (id : Z) (address token : string) (f : UserDoc -> bool)
    (upd : UserDoc -> UserDoc) (c : list UserDoc) :
  (forall d, telegram_id (upd d) = telegram_id d
             /\ wallet_address (upd d) = wallet_address d
             /\ encrypted_private_key (upd d) = encrypted_private_key d) ->
  holds_wallet id address token c -> holds_wallet id address token (update_first f upd c).
Proof.
  intros Hupd (d & Hfind & Haddress & Htoken).
  destruct (find_update_first_id id f upd c d (fun e => proj1 (Hupd e)) Hfind) as [Hf|Hf].
  - exists d. auto.
  - exists (upd d). destruct (Hupd d) as (_ & Ha & Ht).
    split; [exact Hf|]. split; congruence.
Qed.

Lemma holds_wallet_insert (id : Z) (address token : string) (d : UserDoc)
    (c : list UserDoc) :
  holds_wallet id address token c -> holds_wallet id address token (c ++ [d]).
Proof.
  intros (e & Hfind & Hrest). exists e. split; [|exact Hrest].
  now apply find_app_some.
Qed.

End ActivationLemmas.

Ltac holds_side :=
  first
    [ apply holds_wallet_update; [intros ?; repeat split; reflexivity | assumption]
    | apply holds_wallet_insert; assumption ].

Ltac activation_step :=
  match goal with
  | |- wp (bind (bind create_new_wallet _) _) _ _ => fail 1
  | HJ : Books.still_there ?id ?s (users ?w) |- wp (bind ?c ?k) ?Q ?w =>
      apply (wp_bind_stable (Books.still_there id s) c k Q w);
      [solve [solve_stable grow_side] | exact HJ | clear HJ; intros ? ? HJ]
  | HJ : Books.holds_wallet ?id ?a ?t (users ?w) |- wp (bind ?c ?k) ?Q ?w =>
      apply (wp_bind_stable (Books.holds_wallet id a t) c k Q w);
      [solve [solve_stable holds_side] | exact HJ | clear HJ; intros ? ? HJ]
  | |- wp (ret (ExecFailed _)) _ _ => unfold wp, ret; cbn [fst snd]; discriminate
  | |- wp (match ?x with _ => _ end) _ _ => destruct x
  end.

Section Activation.
Import Traces Books.
Local Open Scope monad_scope.
Context `{Secrets} `{CryptoLib} `{Environment}.

Lemma execute_activates_the_wallet (sender rid : Z) (pd : PaymentData) (w : World)
    (u : UserDoc) :
  pd_recipient_status pd = user_no_wallet ->
  pd_recipient_telegram_id pd = Some rid ->
  List.find (by_telegram_id rid) (users w) = Some u ->
  wp (execute_payment_secure sender pd)
     (fun result w' => forall r, result = ExecSuccess r ->
        exists address private_key iv t,
          rc_recipient_wallet r = Some address
          /\ rc_recipient_private_key r = Some private_key
          /\ holds_wallet rid address
               (fernet_encrypt (derive_key_from_telegram_id rid) iv t private_key)
               (users w')) w.
Proof.
  intros Hstatus Hrid Hfind. unfold execute_payment_secure.
  rewrite Hstatus, Hrid. cbv beta iota. cbn [default from_option]. unfold Datatypes.id.
  assert (HJ : still_there rid u (users w))
    by (exists u; split; [exact Hfind | apply grown_refl]).
  repeat activation_step.
  apply wp_bind.
  match goal with
  | HJ : still_there _ _ (users ?w) |- wp (bind ?c ?k) ?Q ?w =>
      apply (wp_bind_stable (still_there rid u) c k Q w);
      [solve [solve_stable grow_side] | exact HJ | clear HJ; intros wallet_result wg HJ]
  end.
  destruct wallet_result as [address private_key|error];
    [|unfold wp at 1; unfold ret at 1; cbn [fst snd]; repeat activation_step].
  unfold wp at 1.
  match goal with
  | |- wp _ _ (snd (?c ?w)) =>
      assert (Hblock :
        fst (c w) = Some (Some address, Some private_key)
        /\ holds_wallet rid address
             (fernet_encrypt (derive_key_from_telegram_id rid) (rng w) (clock w)
                private_key)
             (users (snd (c w))));
      [| destruct (c w) as [created w3]; cbn [fst snd] in Hblock |- *;
         destruct Hblock as [-> HW] ]
  end.
  { destruct HJ as (d & Hd & _).
    unfold encrypt_private_key, activate_pending_wallet, update_one, fresh, now,
      get_users, put_users, bind, ret.
    cbn [fst snd users clock rng]. split; [reflexivity|].
    eexists. split.
    - apply (find_update_first _ _ _ _ Hd).
      apply List.find_some in Hd as [_ Hid]. exact Hid.
    - split; reflexivity. }
  clear HJ. repeat activation_step.
  unfold wp, ret. cbn [fst snd]. intros r [= <-].
  exists address, private_key, (rng wg), (clock wg).
  cbn [rc_recipient_wallet rc_recipient_private_key]. auto.
Qed.

(** What the Fernet library promises: a token decrypts under the key
    that made it, and is never the empty string. *)
Hypothesis fernet_round_trip : forall key iv t data,
  fernet_decrypt key (fernet_encrypt key iv t data) = Some data.
Hypothesis fernet_token_not_empty : forall key iv t data,
  truthy_str (Some (fernet_encrypt key iv t data)) = true.

(** X21. A registered recipient gets the wallet that was paid. After a
    successful payment previewed for a registered recipient without a
    wallet, the recipient's document holds the wallet that the transfer
    went to, whatever wallet it held before, and the key read back for
    the recipient is the key of the receipt. *)
Theorem registered_recipient_holds_the_paid_wallet
    (sender rid : Z) (pd : PaymentData) (w : World) (r : Receipt) (u : UserDoc) :
  fst (execute_payment_secure sender pd w) = ExecSuccess r ->
  pd_recipient_status pd = user_no_wallet ->
  pd_recipient_telegram_id pd = Some rid ->
  List.find (by_telegram_id rid) (users w) = Some u ->
  let w' := snd (execute_payment_secure sender pd w) in
  exists address private_key,
    rc_recipient_wallet r = Some address
    /\ rc_recipient_private_key r = Some private_key
    /\ submitted w w' = [EvTransfer (transfer_asset pd) (Some address) (pd_amount pd)]
    /\ (wallet_address <$> fst (get_user rid w')) = Some (Some address)
    /\ fst (get_decrypted_private_key rid w') = Returned (Some private_key).
Proof.
  intros Hok Hstatus Hrid Hfind w'.
  destruct (execute_activates_the_wallet sender rid pd w u Hstatus Hrid Hfind r Hok)
    as (address & private_key & iv & t & Hwallet & Hkey & d & Hd & Haddress & Htoken).
  destruct (execute_payment_secure_stage_from sender pd w w) as [_ Hreceipt].
  { split; [reflexivity|]. split; [reflexivity | apply before_transfer_refl]. }
  destruct (Hreceipt r Hok) as (Hsubmitted & _). rewrite Hwallet in Hsubmitted.
  fold w' in Hd.
  destruct (wallet_reads_back fernet_round_trip fernet_token_not_empty rid w' d
              (Some address) iv t private_key Hd Haddress ltac:(discriminate) Htoken)
    as (Hread & _ & Hheld).
  exists address, private_key. auto.
Qed.

End Activation.

Section ActivationScenario.
Import Traces Books Scenario.

Lemma registered_recipient_holds_the_paid_wallet_witness :
  let w := world_of [alice; bob; erin] in
  let out := @execute_payment_secure secrets tagging prompt_network 1 pd_erin w in
  is_success (fst out) = true
  /\ (wallet_address <$> fst (get_user 3 (snd out))) = Some (Some "FreshWallet")
  /\ fst (get_decrypted_private_key 3 (snd out)) = Returned (Some "fresh-key").
Proof.
  split; [vm_compute; reflexivity|].
  pose proof (@registered_recipient_holds_the_paid_wallet secrets tagging prompt_network
                tagging_is_correct tagging_token_not_empty 1 3 pd_erin
                (world_of [alice; bob; erin])) as H.
  specialize (H _ erin ltac:(vm_compute; reflexivity)).
  destruct H as (address & private_key & Hwallet & Hkey & _ & Hheld & Hread).
  - reflexivity.
  - reflexivity.
  - vm_compute. reflexivity.
  - cbn in Hwallet, Hkey. injection Hwallet as <-. injection Hkey as <-.
    split; [exact Hheld | exact Hread].
Defined.

End ActivationScenario.

(** ** A payment to an active recipient *)

Section LedgerLemmas.
Import Traces Books.

Lemma ledger_update (id received : Z) (notes : list Notification)
    (txs : list Transaction) (f : UserDoc -> bool) (upd : UserDoc -> UserDoc)
    (c : list UserDoc) :
  (forall d, telegram_id (upd d) = telegram_id d
             /\ total_payments_received (upd d) = total_payments_received d
             /\ pending_notifications (upd d) = pending_notifications d
             /\ forall tx, In tx (transactions d) -> In tx (transactions (upd d))) ->
  ledger id received notes txs c -> ledger id received notes txs (update_first f upd c).
Proof.
  intros Hupd (d & Hfind & Hreceived & Hnotes & Htxs).
  destruct (find_update_first_id id f upd c d (fun e => proj1 (Hupd e)) Hfind) as [Hf|Hf].
  - exists d. auto.
  - exists (upd d). destruct (Hupd d) as (_ & Hr & Hn & Ht).
    split; [exact Hf|]. split; [congruence|]. split; [congruence | auto].
Qed.

Lemma ledger_insert (id received : Z) (notes : list Notification)
    (txs : list Transaction) (d : UserDoc) (c : list UserDoc) :
  ledger id received notes txs c -> ledger id received notes txs (c ++ [d]).
Proof.
  intros (e & Hfind & Hrest). exists e. split; [|exact Hrest].
  now apply find_app_some.
Qed.

(** The recipient's entry: one more payment received, one more
    transaction. *)
Lemma save_incoming_transaction (id received : Z) (notes : list Notification)
    (txs : list Transaction) (tx_data : TxRecord) (w : World) :
  ledger id received notes txs (users w) ->
  ledger id (received + 1) notes
    (txs ++ [payment_transaction tx_data false (clock w)])
    (users (snd (save_payment_transaction id tx_data false w))).
Proof.
  intros (d & Hfind & Hreceived & Hnotes & Htxs).
  unfold save_payment_transaction, update_one, now, get_users, put_users, bind, ret.
  cbn [fst snd users clock].
  exists (push_transaction (payment_transaction tx_data false (clock w)) false (clock w) d).
  split.
  - apply find_update_first; [exact Hfind|].
    apply List.find_some in Hfind as [_ Hid]. exact Hid.
  - cbn. split; [now rewrite Hreceived|]. split; [exact Hnotes|].
    intros tx Hin. apply in_app_or in Hin as [Hin|Hin]; apply in_or_app; auto.
Qed.

(** The recipient's notification. *)
Lemma add_pending_notification_queues (id received : Z) (notes : list Notification)
    (txs : list Transaction) (n : Notification) (w : World) :
  ledger id received notes txs (users w) ->
  ledger id received (notes ++ [n]) txs
    (users (snd (add_pending_notification id n w))).
Proof.
  intros (d & Hfind & Hreceived & Hnotes & Htxs).
  unfold add_pending_notification, update_one, get_users, put_users, bind, ret.
  cbn [fst snd users].
  exists (push_notification n d). split.
  - apply find_update_first; [exact Hfind|].
    apply List.find_some in Hfind as [_ Hid]. exact Hid.
  - cbn. split; [exact Hreceived|]. split; [now rewrite Hnotes | exact Htxs].
Qed.

End LedgerLemmas.

Ltac ledger_side :=
  first
    [ apply ledger_update;
      [ intros ?; repeat split; try reflexivity;
        intros ? ?; cbn; apply in_or_app; now left
      | assumption ]
    | apply ledger_insert; assumption ].

Ltac ledger_step :=
  match goal with
  | |- wp (bind (save_payment_transaction _ _ false) _) _ _ => fail 1
  | |- wp (bind (add_pending_notification _ _) _) _ _ => fail 1
  | HJ : Books.ledger ?id ?r ?n ?t (users ?w) |- wp (bind ?c ?k) ?Q ?w =>
      apply (wp_bind_stable (Books.ledger id r n t) c k Q w);
      [solve [solve_stable ledger_side] | exact HJ | clear HJ; intros ? ? HJ]
  | |- wp (ret (ExecFailed _)) _ _ => unfold wp, ret; cbn [fst snd]; discriminate
  | |- wp (match ?x with _ => _ end) _ _ => destruct x
  end.

Section ActiveRecipient.
Import Traces Books Handover.
Local Open Scope monad_scope.
Context `{Secrets} `{CryptoLib} `{Environment}.

Lemma execute_credits_the_recipient (sender rid : Z) (pd : PaymentData) (w : World)
    (before : UserDoc) :
  pd_recipient_status pd = active ->
  pd_recipient_telegram_id pd = Some rid ->
  rid <> 0%Z ->
  List.find (by_telegram_id rid) (users w) = Some before ->
  wp (execute_payment_secure sender pd)
     (fun result w' => forall r, result = ExecSuccess r ->
        exists tx note,
          incoming_entry pd (rc_signature r) tx
          /\ announces pd (rc_signature r) note
          /\ ledger rid (total_payments_received before + 1)
               (pending_notifications before ++ [note]) [tx] (users w')) w.
Proof.
  intros Hstatus Hrid Hnonzero Hfind. unfold execute_payment_secure.
  rewrite Hstatus, Hrid. cbv beta iota. cbn [default from_option]. unfold Datatypes.id.
  assert (Htruthy : truthy_int (Some rid) = true).
  { cbn. apply negb_true_iff. now apply Z.eqb_neq. }
  rewrite Htruthy.
  assert (HJ : ledger rid (total_payments_received before)
                 (pending_notifications before) [] (users w)).
  { exists before. repeat split; auto. intros tx []. }
  repeat ledger_step.
  apply wp_bind. unfold wp at 1.
  match goal with
  | |- wp _ _ (snd (save_payment_transaction _ ?record _ ?w)) =>
      pose proof (save_incoming_transaction rid _ _ _ record w HJ) as HR;
      set (tx := payment_transaction record false (clock w)) in HR;
      assert (Htx : incoming_entry pd signature tx) by (repeat split);
      clearbody tx;
      destruct (save_payment_transaction rid record false w) as [saved w7];
      cbn [fst snd] in HR |- *
  end.
  clear HJ. rename HR into HJ. cbn [app] in HJ.
  repeat ledger_step.
  apply wp_bind. unfold wp at 1.
  match goal with
  | |- wp _ _ (snd (add_pending_notification _ ?n ?w)) =>
      pose proof (add_pending_notification_queues rid _ _ _ n w HJ) as HN;
      destruct (add_pending_notification rid n w) as [queued w9];
      cbn [fst snd] in HN |- *;
      unfold wp, ret; cbn [fst snd]; intros r [= <-];
      exists tx, n; cbn [rc_signature];
      split; [exact Htx|]; split; [repeat split | exact HN]
  end.
Qed.

(** X22. A confirmed payment reaches an active recipient's document.
    After a successful payment to a recipient with an identity (not 0)
    and a document, that document counts one more payment received,
    holds an incoming entry with the signature of the receipt and the
    amount and token of the payment, and has the notification of the
    payment appended to its pending notifications. *)
Theorem confirmed_payment_is_credited
    (sender rid : Z) (pd : PaymentData) (w : World) (r : Receipt) (before : UserDoc) :
  fst (execute_payment_secure sender pd w) = ExecSuccess r ->
  pd_recipient_status pd = active ->
  pd_recipient_telegram_id pd = Some rid ->
  rid <> 0%Z ->
  List.find (by_telegram_id rid) (users w) = Some before ->
  exists after tx note,
    List.find (by_telegram_id rid) (users (snd (execute_payment_secure sender pd w)))
    = Some after
    /\ total_payments_received after = (total_payments_received before + 1)%Z
    /\ In tx (transactions after)
    /\ incoming_entry pd (rc_signature r) tx
    /\ pending_notifications after = (pending_notifications before ++ [note])%list
    /\ announces pd (rc_signature r) note.
Proof.
  intros Hok Hstatus Hrid Hnonzero Hfind.
  destruct (execute_credits_the_recipient sender rid pd w before Hstatus Hrid Hnonzero
              Hfind r Hok)
    as (tx & note & Htx & Hnote & after & Hafter & Hreceived & Hnotes & Htxs).
  exists after, tx, note. repeat split; try assumption; try apply Htx; try apply Hnote.
  apply Htxs. now left.
Qed.

End ActiveRecipient.

Section ActiveRecipientScenario.
Import Traces Books Handover Scenario FurtherScenarios.

Lemma confirmed_payment_is_credited_witness :
  let out := @execute_payment_secure secrets tagging prompt_network 1 pd_bob
               (world_of [alice; bob]) in
  is_success (fst out) = true
  /\ exists after note,
       List.find (by_telegram_id 2) (users (snd out)) = Some after
       /\ total_payments_received after = 1%Z
       /\ pending_notifications after = [note]
       /\ n_signature note = "sig-1".
Proof.
  split; [vm_compute; reflexivity|].
  pose proof (@confirmed_payment_is_credited secrets tagging prompt_network 1 2 pd_bob
                (world_of [alice; bob])) as H.
  specialize (H _ bob ltac:(vm_compute; reflexivity)).
  destruct H as (after & tx & note & Hafter & Hreceived & _ & _ & Hnotes & Hnote).
  - reflexivity.
  - reflexivity.
  - discriminate.
  - vm_compute. reflexivity.
  - exists after, note. split; [exact Hafter|]. split; [exact Hreceived|].
    split; [exact Hnotes | apply Hnote].
Defined.

End ActiveRecipientScenario.

(** ** A further payment to a pending wallet *)

Section PendingRecordLemmas.
Import Traces Books.

Lemma find_update_first_same (g f : UserDoc -> bool) (upd : UserDoc -> UserDoc)
    (c : list UserDoc) (s : UserDoc) :
  (forall d, g (upd d) = g d) ->
  List.find g c = Some s ->
  List.find g (update_first f upd c) = Some s
  \/ List.find g (update_first f upd c) = Some (upd s).
Proof.
  intros Hsame. induction c as [|d rest IH]; [discriminate|].
  cbn [List.find update_first]. destruct (f d); cbn [List.find].
  - rewrite Hsame. destruct (g d).
    + intros [= ->]. now right.
    + intros Hrest. now left.
  - destruct (g d); [intros [= ->]; now left | exact IH].
Qed.

Lemma pending_record_update (handle : string) (address token : option string)
    (notes : list Notification) (f : UserDoc -> bool) (upd : UserDoc -> UserDoc)
    (c : list UserDoc) :
  (forall d, username (upd d) = username d
             /\ telegram_id (upd d) = telegram_id d
             /\ pending_wallet_address (upd d) = pending_wallet_address d
             /\ pending_private_key (upd d) = pending_private_key d
             /\ pending_notifications (upd d) = pending_notifications d) ->
  pending_record handle address token notes c ->
  pending_record handle address token notes (update_first f upd c).
Proof.
  intros Hupd (d & Hfind & Haddress & Htoken & Hnotes).
  assert (Hsame : forall e, by_unclaimed_username handle (upd e)
                            = by_unclaimed_username handle e).
  { intros e. unfold by_unclaimed_username.
    destruct (Hupd e) as (-> & -> & _). reflexivity. }
  destruct (find_update_first_same _ f upd c d Hsame Hfind) as [Hf|Hf].
  - exists d. auto.
  - exists (upd d). destruct (Hupd d) as (_ & _ & Ha & Ht & Hn).
    split; [exact Hf|]. repeat split; congruence.
Qed.

Lemma pending_record_insert (handle : string) (address token : option string)
    (notes : list Notification) (d : UserDoc) (c : list UserDoc) :
  pending_record handle address token notes c ->
  pending_record handle address token notes (c ++ [d]).
Proof.
  intros (e & Hfind & Hrest). exists e. split; [|exact Hrest].
  now apply find_app_some.
Qed.

(** The notification of a further payment joins the pending record. *)
Lemma add_pending_notification_by_username_queues
    (handle : string) (address token : option string) (notes : list Notification)
    (n : Notification) (w : World) :
  normalize_username handle = handle ->
  pending_record handle address token notes (users w) ->
  pending_record handle address token (notes ++ [n])
    (users (snd (add_pending_notification_by_username handle n w))).
Proof.
  intros Hnorm (d & Hfind & Haddress & Htoken & Hnotes).
  unfold add_pending_notification_by_username, update_one, get_users, put_users,
    bind, ret.
  cbn [fst snd users]. rewrite Hnorm.
  exists (push_notification n d). split.
  - apply find_update_first; [exact Hfind|].
    apply List.find_some in Hfind as [_ Hd]. exact Hd.
  - cbn. repeat split; try assumption. now rewrite Hnotes.
Qed.

End PendingRecordLemmas.

Ltac pending_side :=
  first
    [ apply pending_record_update; [intros ?; repeat split; reflexivity | assumption]
    | apply pending_record_insert; assumption ].

Ltac pending_step :=
  match goal with
  | |- wp (bind (add_pending_notification_by_username _ _) _) _ _ => fail 1
  | HJ : Books.pending_record ?h ?a ?t ?n (users ?w) |- wp (bind ?c ?k) ?Q ?w =>
      apply (wp_bind_stable (Books.pending_record h a t n) c k Q w);
      [solve [solve_stable pending_side] | exact HJ | clear HJ; intros ? ? HJ]
  | |- wp (ret (ExecFailed _)) _ _ => unfold wp, ret; cbn [fst snd]; discriminate
  | |- wp (match ?x with _ => _ end) _ _ => destruct x
  end.

Section PendingRecipient.
Import Traces Books Handover.
Local Open Scope monad_scope.
Context `{Secrets} `{CryptoLib} `{Environment}.

Lemma execute_notifies_the_pending_record (sender : Z) (pd : PaymentData) (w : World)
    (p : UserDoc) :
  pd_recipient_status pd = pending_wallet ->
  normalize_username (pd_recipient_username pd) = pd_recipient_username pd ->
  List.find (by_unclaimed_username (pd_recipient_username pd)) (users w) = Some p ->
  wp (execute_payment_secure sender pd)
     (fun result w' => forall r, result = ExecSuccess r ->
        exists note,
          announces pd (rc_signature r) note
          /\ pending_record (pd_recipient_username pd) (pending_wallet_address p)
               (pending_private_key p) (pending_notifications p ++ [note])
               (users w')) w.
Proof.
  intros Hstatus Hnorm Hfind. unfold execute_payment_secure.
  rewrite Hstatus. cbv beta iota.
  assert (HJ : pending_record (pd_recipient_username pd) (pending_wallet_address p)
                 (pending_private_key p) (pending_notifications p) (users w))
    by (exists p; auto).
  repeat pending_step.
  all: apply wp_bind; unfold wp at 1.
  all: match goal with
       | |- wp _ _ (snd (add_pending_notification_by_username _ ?n ?w)) =>
           pose proof (add_pending_notification_by_username_queues _ _ _ _ n w
                         Hnorm HJ) as HN;
           destruct (add_pending_notification_by_username _ n w) as [queued w9];
           cbn [fst snd] in HN |- *;
           unfold wp, ret; cbn [fst snd]; intros r [= <-];
           exists n; cbn [rc_signature];
           split; [repeat split | exact HN]
       end.
Qed.

(** X23. A further payment joins the pending wallet. After a successful
    payment to a handle that has an unclaimed document, exactly one
    transfer was submitted, to the wallet of the preview; the document
    keeps its pending wallet and key, and the notification of this
    payment is appended to the ones it held, so that a later claim
    returns them all. *)
Theorem further_payment_joins_the_pending_wallet
    (sender : Z) (pd : PaymentData) (w : World) (r : Receipt) (p : UserDoc) :
  fst (execute_payment_secure sender pd w) = ExecSuccess r ->
  pd_recipient_status pd = pending_wallet ->
  normalize_username (pd_recipient_username pd) = pd_recipient_username pd ->
  List.find (by_unclaimed_username (pd_recipient_username pd)) (users w) = Some p ->
  let w' := snd (execute_payment_secure sender pd w) in
  exists after note,
    List.find (by_unclaimed_username (pd_recipient_username pd)) (users w') = Some after
    /\ pending_wallet_address after = pending_wallet_address p
    /\ pending_private_key after = pending_private_key p
    /\ pending_notifications after = (pending_notifications p ++ [note])%list
    /\ announces pd (rc_signature r) note
    /\ submitted w w'
       = [EvTransfer (transfer_asset pd) (pd_recipient_wallet pd) (pd_amount pd)].
Proof.
  intros Hok Hstatus Hnorm Hfind w'.
  destruct (execute_notifies_the_pending_record sender pd w p Hstatus Hnorm Hfind r Hok)
    as (note & Hnote & after & Hafter & Haddress & Htoken & Hnotes).
  destruct (execute_payment_secure_stage_from sender pd w w) as [Hstage _].
  { split; [reflexivity|]. split; [reflexivity | apply before_transfer_refl]. }
  exists after, note. repeat split; try assumption; try apply Hnote.
  rewrite Hok in Hstage. destruct Hstage as (e & Hsubmitted & recipient & -> & Hpays).
  unfold Stages.pays_to in Hpays. rewrite Hstatus in Hpays. subst recipient. exact Hsubmitted.
Qed.

End PendingRecipient.

Section PendingRecipientScenario.
Import Traces Books Handover Scenario FurtherScenarios.

Lemma further_payment_joins_the_pending_wallet_witness :
  let out := @execute_payment_secure secrets tagging prompt_network 1 pd_carol
               (world_of [alice; carol_pending]) in
  is_success (fst out) = true
  /\ exists after note,
       List.find (by_unclaimed_username "carol") (users (snd out)) = Some after
       /\ pending_wallet_address after = Some "CarolWallet"
       /\ pending_notifications after = [note]
       /\ n_signature note = "sig-1".
Proof.
  split; [vm_compute; reflexivity|].
  pose proof (@further_payment_joins_the_pending_wallet secrets tagging prompt_network
                1 pd_carol (world_of [alice; carol_pending])) as H.
  specialize (H _ carol_pending ltac:(vm_compute; reflexivity)).
  destruct H as (after & note & Hafter & Haddress & _ & Hnotes & Hnote & _).
  - reflexivity.
  - vm_compute. reflexivity.
  - vm_compute. reflexivity.
  - exists after, note. split; [exact Hafter|]. split; [exact Haddress|].
    split; [exact Hnotes | apply Hnote].
Defined.

End PendingRecipientScenario.

(** ** The masked phone number *)

Section MaskedPhone.
Import Phone.

Lemma country_code_end_bounds (n : nat) :
  (2 <= country_code_end n <= 3)%nat.
Proof. unfold country_code_end. destruct (12 <? n)%nat; lia. Qed.

(** X24. The mask hides the middle of a number and nothing else. The
    masked text has the length of the number; a number of at most six
    characters is returned as it is; for a longer one the first two
    characters (three for more than twelve) and the last four are the
    number's, every character between them is an X, and two numbers
    that agree on those ends and on the length have the same mask. *)
Theorem mask_hides_the_middle (phone_number : list ascii) :
  let n := length phone_number in
  let shown := country_code_end n in
  length (_mask_phone_number phone_number) = n
  /\ ((n <= 6)%nat -> _mask_phone_number phone_number = phone_number)
  /\ ((6 < n)%nat ->
      take shown (_mask_phone_number phone_number) = take shown phone_number
      /\ drop (n - 4) (_mask_phone_number phone_number) = drop (n - 4) phone_number
      /\ (forall i, (shown <= i < n - 4)%nat ->
            _mask_phone_number phone_number !! i = Some "X"%char)
      /\ (forall other, length other = n ->
            take shown other = take shown phone_number ->
            drop (n - 4) other = drop (n - 4) phone_number ->
            _mask_phone_number other = _mask_phone_number phone_number)).
Proof.
  intros n shown. subst shown. pose proof (country_code_end_bounds n) as Hshown.
  unfold _mask_phone_number. fold n.
  destruct (n <=? 6)%nat eqn:Hshort.
  - apply Nat.leb_le in Hshort. split; [reflexivity|]. split; [reflexivity | lia].
  - apply Nat.leb_gt in Hshort.
    assert (Htake : length (take (country_code_end n) phone_number) = country_code_end n)
      by (rewrite length_take; lia).
    split; [|split; [lia | intros _; repeat split]].
    + rewrite !length_app, Htake, length_replicate, length_drop. lia.
    + rewrite take_app_length'; [reflexivity | now rewrite Htake].
    + rewrite app_assoc. rewrite drop_app_length'; [reflexivity|].
      rewrite length_app, Htake, length_replicate. lia.
    + intros i Hi. rewrite lookup_app_r by (rewrite Htake; lia).
      rewrite Htake. rewrite lookup_app_l by (rewrite length_replicate; lia).
      apply lookup_replicate_2. lia.
    + intros other Hlength Hfront Hback. rewrite Hlength.
      destruct (n <=? 6)%nat eqn:Hagain; [apply Nat.leb_le in Hagain; lia|].
      now rewrite Hfront, Hback.
Qed.

(** The number of the docstring, and a short one. *)
Example mask_of_an_indian_number :
  _mask_phone_number (list_ascii_of_string "+919876547890")
  = list_ascii_of_string "+91XXXXXX7890"
  /\ _mask_phone_number (list_ascii_of_string "+12345") = list_ascii_of_string "+12345".
Proof. split; reflexivity. Qed.

End MaskedPhone.

(** ** Reading a status response *)

Section StatusResponses.
Import Rpc.

Lemma is_confirmation_spec (v : option Json) :
  is_confirmation v = true <->
  exists s, v = Some (JStr s) /\ (s = "confirmed" \/ s = "finalized").
Proof.
  unfold is_confirmation. split.
  - destruct v as [[]|]; try discriminate. intros Hs.
    apply orb_true_iff in Hs as [Hs|Hs]; apply String.eqb_eq in Hs; eauto.
  - intros (s & -> & [-> | ->]); reflexivity.
Qed.

Ltac split_cases :=
  repeat match goal with
         | |- context [if ?b then _ else _] => destruct b eqn:?
         end;
  try discriminate.

(** What a response read as "confirmed" or as "failed" looks like. *)
Lemma status_of_response_report (data : option Json) :
  match status_of_response data with
  | st_confirmed => confirms data
  | st_failed => reports_failure data
  | _ => True
  end.
Proof.
  unfold status_of_response.
  destruct data as [[| | | | | |d]|]; try exact I.
  destruct (dict_get "error" d) as [e|] eqn:Herror; [exact I|].
  destruct (dict_get "result" d) as [[| | | | | |r]|] eqn:Hresult;
    cbn [default from_option]; unfold Datatypes.id; try exact I.
  destruct (dict_get "value" r) as [value|] eqn:Hvalue;
    cbn [default from_option]; unfold Datatypes.id; [|exact I].
  destruct value as [| | | | |[|[| | | | | |status_info] rest]|items];
    cbn [truthy negb]; split_cases; try exact I.
  - exists d, r, status_info, rest. auto.
  - match goal with
    | Hc : is_confirmation _ = true |- _ =>
        apply is_confirmation_spec in Hc as (s & Hs & Hcases)
    end.
    exists d, r, status_info, rest, s. auto 10.
Qed.

Lemma confirms_read (data : option Json) :
  confirms data -> status_of_response data = st_confirmed.
Proof.
  intros (d & r & status_info & rest & s & -> & Herror & Hresult & Hvalue & Herr
          & Hs & Hcases).
  unfold status_of_response. rewrite Herror, Hresult. cbn [default from_option].
  unfold Datatypes.id. rewrite Hvalue.
  cbn [default from_option truthy negb] in Herr |- *. unfold Datatypes.id in Herr |- *.
  rewrite Herr, Hs.
  destruct Hcases as [-> | ->]; reflexivity.
Qed.

Lemma reports_failure_read (data : option Json) :
  reports_failure data -> status_of_response data = st_failed.
Proof.
  intros (d & r & status_info & rest & -> & Herror & Hresult & Hvalue & Herr).
  unfold status_of_response. rewrite Herror, Hresult. cbn [default from_option].
  unfold Datatypes.id. rewrite Hvalue.
  cbn [default from_option truthy negb] in Herr |- *. unfold Datatypes.id in Herr |- *.
  now rewrite Herr.
Qed.

(** X25. A status is read as confirmed, or as failed, from a well-formed
    report only. [get_transaction_status] answers "confirmed" exactly
    for a response without an error member whose first status has no
    truthy [err] and the commitment "confirmed" or "finalized"; it
    answers "failed" exactly when that first status has a truthy [err],
    whatever its commitment. Anything else, malformed or not, is
    "pending" or "error". *)
Theorem status_read_from_the_report (data : option Json) :
  (status_of_response data = st_confirmed <-> confirms data)
  /\ (status_of_response data = st_failed <-> reports_failure data).
Proof.
  pose proof (status_of_response_report data) as Hreport.
  split; split.
  - intros Hc. now rewrite Hc in Hreport.
  - apply confirms_read.
  - intros Hf. now rewrite Hf in Hreport.
  - apply reports_failure_read.
Qed.

(** A failed transaction that is already finalized, and an answer
    without a list. *)
Example finalized_failure_is_failed :
  status_of_response
    (Some (JDict [("result",
       JDict [("value",
         JList [JDict [("err", JDict [("InstructionError", JInt 0)]);
                       ("confirmationStatus", JStr "finalized")]])])]))
  = st_failed
  /\ status_of_response (Some (JDict [("result", JNull)])) = st_error
  /\ status_of_response (Some (JDict [("result", JDict [("value", JList [JNull])])]))
     = st_pending.
Proof. repeat split. Qed.

End StatusResponses.

Section ConfirmedByTheNode.
Import Traces Rpc.
Local Open Scope monad_scope.
Context `{Secrets} `{CryptoLib}.

(** X26. A payment succeeds only on a confirming response. When the
    status of a transaction is read from the node's responses, an
    execution that answers success has seen, within its thirty queries
    for the signature of the receipt, a response that confirms the
    transaction, and before it none that confirmed it or reported its
    failure. *)
Theorem success_has_seen_a_confirming_response
    (environment : Environment) (responses : string -> nat -> option Json)
    (sender : Z) (pd : PaymentData) (w : World) (r : Receipt) :
  fst (@execute_payment_secure _ _ (reading environment responses) sender pd w)
  = ExecSuccess r ->
  exists k, (k < 30)%nat
    /\ confirms (responses (rc_signature r) k)
    /\ forall j, (j < k)%nat ->
         ~ confirms (responses (rc_signature r) j)
         /\ ~ reports_failure (responses (rc_signature r) j).
Proof.
  intros Hok.
  destruct (@execute_payment_secure_settles _ _ (reading environment responses)
              sender pd w) as (_ & Hconfirmed & _).
  specialize (Hconfirmed r Hok).
  apply (@poll_verdict_confirmed (reading environment responses)) in Hconfirmed
    as (k & Hk & Hseen & Hbefore).
  cbn [rpc_transaction_status reading Nat.add] in Hseen, Hbefore.
  exists k. split; [exact Hk|]. split.
  - pose proof (status_of_response_report (responses (rc_signature r) k)) as Hreport.
    now rewrite Hseen in Hreport.
  - intros j Hj. destruct (Hbefore j Hj) as [Hc Hf]. split.
    + intros Hconfirms. apply Hc. now apply confirms_read.
    + intros Hfails. apply Hf. now apply reports_failure_read.
Qed.

End ConfirmedByTheNode.

Section ConfirmedByTheNodeScenario.
Import Traces Rpc Scenario FurtherScenarios.

Lemma success_has_seen_a_confirming_response_witness :
  let out := @execute_payment_secure secrets tagging
               (reading silent_network slow_responses) 1 pd_bob
               (world_of [alice; bob]) in
  is_success (fst out) = true
  /\ exists k, (k < 30)%nat /\ confirms (slow_responses "sig-1" k).
Proof.
  split; [vm_compute; reflexivity|].
  pose proof (@success_has_seen_a_confirming_response secrets tagging silent_network
                slow_responses 1 pd_bob (world_of [alice; bob])) as H.
  specialize (H _ ltac:(vm_compute; reflexivity)).
  destruct H as (k & Hk & Hconfirms & _).
  exists k. split; [exact Hk | exact Hconfirms].
Defined.

End ConfirmedByTheNodeScenario.

(** ** The re-check of the recipient's balance, asset by asset *)

Section RecheckByAsset.
Import Py Config Store Database Services AiHandler BotHandlers FeeEstimator
  Requirements Traces Rechecks.
Local Open Scope monad_scope.
Context `{Secrets} `{CryptoLib} `{Environment}.

Lemma no_recheck_among (evs : list Event) :
  forallb not_recheck evs = true -> List.filter is_recheck evs = [].
Proof.
  induction evs as [|e rest IH]; [reflexivity|].
  cbn [forallb List.filter]. intros Hall. apply andb_true_iff in Hall as [He Hrest].
  unfold not_recheck in He. apply negb_true_iff in He. rewrite He. now apply IH.
Qed.

Lemma token_is_not_sol (token : string) :
  token <> "SOL" -> String.eqb token "SOL" = false.
Proof. intros Hne. now apply String.eqb_neq. Qed.

(** Validation of a token payment: the guard of step 7.5 is closed. *)
Lemma token_preview_skips_the_recheck
    (id : Z) (recipient_username amount token : string) :
  upper token <> "SOL" ->
  reads_only not_recheck (_send_payment id recipient_username amount token).
Proof.
  intros Htoken. apply token_is_not_sol in Htoken.
  unfold _send_payment, _check_payment_balance, get_user, get_user_by_username,
    find_one, _get_wallet_balance_alchemy.
  cbv zeta. rewrite Htoken.
  repeat first [rewrite andb_false_r; cbn [andb]; cbv iota | reads_only_step].
Qed.

Lemma balance_check_never_asks_for_funding
    (id : Z) (amount : float) (token : string) (network_fee : float) (w : World) :
  fst (_check_payment_balance id amount token network_fee w)
  <> Some ErrRecipientWalletEmpty.
Proof.
  unfold _check_payment_balance, get_user, find_one, get_users,
    _get_wallet_balance_alchemy, emit, bind, ret.
  cbn. destruct (List.find (by_telegram_id id) (users w)) as [u|]; [|discriminate].
  destruct (truthy_str (wallet_address u)); cbn; [|discriminate].
  destruct (String.eqb token "SOL").
  - destruct (_ <? _)%float; cbn; discriminate.
  - destruct (_ <? _)%float; cbn; [discriminate|].
    destruct (_ <? _)%float; cbn; discriminate.
Qed.

Lemma token_preview_never_asks_for_funding
    (id : Z) (recipient_username amount token : string) (w : World) :
  upper token <> "SOL" ->
  wp (_send_payment id recipient_username amount token)
     (fun answer _ => answer <> PreviewError ErrRecipientWalletEmpty) w.
Proof.
  intros Htoken. apply token_is_not_sol in Htoken.
  unfold _send_payment. cbv zeta. rewrite Htoken.
  repeat match goal with
         | |- context [(_ && false)%bool] => rewrite andb_false_r; cbn [andb]; cbv iota
         | |- wp (bind (_check_payment_balance ?i ?a ?t ?f) ?k) ?Q ?w =>
             apply wp_bind; unfold wp at 1;
             pose proof (balance_check_never_asks_for_funding i a t f w);
             destruct (fst (_check_payment_balance i a t f w)) as [[]|]
         | |- wp (bind (ret _) _) _ _ =>
             apply wp_bind; unfold wp at 1, ret at 1; cbn [fst snd]
         | |- wp (bind ?c ?k) ?Q ?w => apply (wp_bind_any c k Q w); intros ? ?
         | |- wp (ret _) _ _ => unfold wp, ret; cbn [fst snd]; congruence
         | |- wp (match ?x with _ => _ end) _ _ => destruct x
         end.
Qed.

(** Execution of a token payment: the guard of step 2 is closed. *)
Lemma emits_no_recheck_poll (signature : string) (remaining attempt : nat) :
  emits not_recheck (poll_confirmation signature remaining attempt).
Proof.
  revert attempt. induction remaining as [|n IH]; intros attempt;
    cbn [poll_confirmation]; [apply emits_ret|].
  unfold get_transaction_status. repeat emits_step. all: apply IH.
Qed.

Lemma token_execution_skips_the_recheck (sender : Z) (pd : PaymentData) :
  pd_token pd <> "SOL" ->
  emits not_recheck (execute_payment_secure sender pd).
Proof.
  intros Htoken. apply token_is_not_sol in Htoken.
  unfold execute_payment_secure. cbv zeta. rewrite Htoken.
  unfold execute_sol_transfer, execute_spl_transfer. unfold_store_operations.
  repeat first [rewrite andb_false_r; cbv iota | apply emits_no_recheck_poll | emits_step].
Qed.

Lemma token_execution_never_asks_for_funding
    (sender : Z) (pd : PaymentData) (w : World) :
  pd_token pd <> "SOL" ->
  wp (execute_payment_secure sender pd)
     (fun result _ => forall balance,
        result <> ExecFailed (ErrRecipientInsufficient balance)) w.
Proof.
  intros Htoken. apply token_is_not_sol in Htoken.
  unfold execute_payment_secure. cbv zeta. rewrite Htoken.
  repeat match goal with
         | |- context [(_ && false)%bool] => rewrite andb_false_r; cbv iota
         | |- wp (bind (ret _) _) _ _ =>
             apply wp_bind; unfold wp at 1, ret at 1; cbn [fst snd]
         | |- wp (bind ?c ?k) ?Q ?w => apply (wp_bind_any c k Q w); intros ? ?
         | |- wp (ret _) _ _ => unfold wp, ret; cbn [fst snd]; intros ?; discriminate
         | |- wp (match ?x with _ => _ end) _ _ => destruct x
         end.
Qed.

(** C7, amended. For a native-asset payment to a recipient stored as
    active with a wallet, the preview reads the recipient's live balance
    before anything else and never writes to the store; if that balance
    is below the rent-exemption threshold and the amount is below the
    new-account floor, the payment is rejected with the remediation
    message, and that balance read is the only call that was made. For
    every other asset (USDC and USDT among them; in the preview, a token
    typed in ASCII that is not SOL in either case) the recipient's
    balance is not re-checked, whatever the recipient's state: neither
    the preview nor the execution reads it, the preview never answers
    with the remediation message, and the execution never refuses the
    payment for the recipient's balance. *)
Theorem active_recipient_balance_rechecked
    (id : Z) (recipient_username amount token : string) (w : World)
    (sender : Z) (pd : PaymentData) (w' : World) :
  let out := _send_payment id recipient_username amount token w in
  let run := execute_payment_secure sender pd w' in
  (upper token = "SOL" ->
   forall (a : float) (s r : UserDoc),
     python_float amount = Some a ->
     (a <=? 0)%float = false ->
     List.find (by_telegram_id id) (users w) = Some s ->
     truthy_str (wallet_address s) = true ->
     List.find (by_username (normalize_username recipient_username)) (users w) = Some r ->
     truthy_int (telegram_id r) = true ->
     truthy_str (wallet_address r) = true ->
     let address := default EmptyString (wallet_address r) in
     (exists rest, trace (snd out) = (trace w ++ EvGetSolBalance address :: rest)%list)
     /\ users (snd out) = users w
     /\ ((rpc_sol_balance address <? 0.00089088)%float = true ->
         (a <? MINIMUM_SOL_TRANSFER_NEW_USER)%float = true ->
         fst out = PreviewError ErrRecipientWalletEmpty
         /\ new_events w (snd out) = [EvGetSolBalance address]))
  /\ (is_ascii token = true ->
      upper token <> "SOL" ->
      List.filter is_recheck (new_events w (snd out)) = []
      /\ users (snd out) = users w
      /\ fst out <> PreviewError ErrRecipientWalletEmpty)
  /\ (pd_token pd <> "SOL" ->
      List.filter is_recheck (new_events w' (snd run)) = []
      /\ forall balance, fst run <> ExecFailed (ErrRecipientInsufficient balance)).
Proof.
  intros out run. split; [|split].
  - intros Htoken a s r Hamount Hpos Hsender Hwallet Hrecipient Hid Hactive address.
    exact (native_payment_reads_recipient_balance id recipient_username amount token
             w a s r Htoken Hamount Hpos Hsender Hwallet Hrecipient Hid Hactive).
  - intros _ Htoken. subst out.
    destruct (token_preview_skips_the_recheck id recipient_username amount token
                Htoken w) as (evs & Hw & Hall).
    split; [|split].
    + unfold new_events. rewrite Hw. cbn [trace]. rewrite drop_app_length.
      now apply no_recheck_among.
    + now rewrite Hw.
    + exact (token_preview_never_asks_for_funding id recipient_username amount token
               w Htoken).
  - intros Htoken. subst run.
    destruct (token_execution_skips_the_recheck sender pd Htoken w') as (evs & Hw & Hall).
    split.
    + unfold new_events. rewrite Hw, drop_app_length. now apply no_recheck_among.
    + exact (token_execution_never_asks_for_funding sender pd w' Htoken).
Qed.

End RecheckByAsset.

Section RecheckByAssetScenarios.
Import Py Config Store Database Services AiHandler BotHandlers Requirements
  Rechecks Scenario FurtherScenarios.

Lemma active_recipient_balance_rechecked_witness :
  let w := world_of [alice; bob] in
  let sol := _send_payment 1 "@Bob" "0.0005" "sol" w in
  let usdt := _send_payment 1 "@Bob" "0.0005" "usdt" w in
  let run := execute_payment_secure 1 pd_bob_usdc w in
  (List.find (by_username (normalize_username "@Bob")) (users w) = Some bob
   /\ (rpc_sol_balance "BobWallet" <? 0.00089088)%float = true)
  /\ (fst sol = PreviewError ErrRecipientWalletEmpty
      /\ new_events w (snd sol) = [EvGetSolBalance "BobWallet"])
  /\ (List.filter is_recheck (new_events w (snd usdt)) = []
      /\ fst usdt <> PreviewError ErrRecipientWalletEmpty)
  /\ List.filter is_recheck (new_events w (snd run)) = [].
Proof.
  split; [split; vm_compute; reflexivity|].
  destruct (active_recipient_balance_rechecked 1 "@Bob" "0.0005" "sol"
              (world_of [alice; bob]) 1 pd_bob_usdc (world_of [alice; bob]))
    as (Hsol & _ & Hrun).
  destruct (active_recipient_balance_rechecked 1 "@Bob" "0.0005" "usdt"
              (world_of [alice; bob]) 1 pd_bob_usdc (world_of [alice; bob]))
    as (_ & Husdt & _).
  split; [|split].
  - destruct (Hsol ltac:(vm_compute; reflexivity) 0.0005%float alice bob)
      as (_ & _ & Hrej); try (vm_compute; reflexivity).
    apply Hrej; vm_compute; reflexivity.
  - destruct Husdt as (Hnone & _ & Hanswer); [reflexivity | vm_compute; discriminate|].
    split; [exact Hnone | exact Hanswer].
  - destruct Hrun as (Hnone & _); [vm_compute; discriminate|]. exact Hnone.
Defined.

End RecheckByAssetScenarios.

(** ** A failure that could not be reported *)

Section UnreportedFailure.
Import Py Store Database Services AiHandler BotHandlers Requirements Traces
  Scenario FurtherScenarios.

(** C2, evaluated on the code. alice confirms the pending payment
    ab12cd34 of 1 SOL; the transfer is accepted and never seen confirmed
    within the 30 polls. "Processing payment..." reaches the chat, the
    report of the failure does not (editing and sending both raise), and
    neither does the report of the outer [except]: the handler ends in
    that exception and the [del] of the pending id, which comes after
    the report, is skipped. The ledger is untouched, but the id is still
    pending, and a second click on the same button is not answered as
    expired: it runs the execution again and submits a second
    transfer. *)
Theorem unreported_failure_can_be_resubmitted :
  let handler := @payment_callback_handler secrets tagging silent_network
                   chat_drops_reports in
  let out := handler confirm_click bot0 in
  let again := handler confirm_click (snd out) in
  fst (execute_payment_secure 1 pd_dave (world bot0))
    = ExecFailed ErrConfirmationTimeout
  /\ fst out = HError true
  /\ outbox (snd out) = [TxtProcessing]
  /\ same_books (world bot0) (world (snd out))
  /\ pending_payments (snd out) !! "ab12cd34" = pending_payments bot0 !! "ab12cd34"
  /\ submitted (world bot0) (world (snd out))
     = [EvTransfer "SOL" (Some "FreshWallet") 1%float]
  /\ fst again = HError true
  /\ submitted (world bot0) (world (snd again))
     = [EvTransfer "SOL" (Some "FreshWallet") 1%float;
        EvTransfer "SOL" (Some "FreshWallet") 1%float].
Proof. repeat split; vm_compute; reflexivity. Qed.

End UnreportedFailure.
